(** * The Power of Noise: configuration, context assembly, run loop, grading

    A shallow embedding of [src/experiments/config.py],
    [src/experiments/experiment_manager.py] and [read_corpus_json] of
    [src/utils.py], with the Python primitives they rely on (slices,
    indexing, [str.find], [str.strip], dictionaries, list objects, files)
    written out. *)

From stdpp Require Import base numbers list strings gmap pretty.

Local Open Scope Z_scope.

(** ** Strings *)

(** A Python [str] is a sequence of Unicode code points: offsets, slices
    and lengths count code points, not bytes. *)
Definition char := N.
Definition str := list char.

(** A literal between double quotes denotes the code points of its ASCII
    characters; any other code point is written as a number. *)
Inductive Literal :=
  | Lnil
  | Lcons (c : N) (s : Literal).

Fixpoint literal_of_bytes (l : list Byte.byte) : option Literal :=
  match l with
  | [] => Some Lnil
  | b :: l' =>
      if (Byte.to_N b <? 128)%N
      then Lcons (Byte.to_N b) <$> literal_of_bytes l'
      else None
  end.

Fixpoint bytes_of_literal (s : Literal) : option (list Byte.byte) :=
  match s with
  | Lnil => Some []
  | Lcons c s' =>
      if (c <? 128)%N
      then b ← Byte.of_N c; l ← bytes_of_literal s'; Some (b :: l)
      else None
  end.

Declare Scope str_scope.
Delimit Scope str_scope with str.
Bind Scope str_scope with str.
#[warnings="-via-type-remapping,-via-type-mismatch"]
String Notation str literal_of_bytes bytes_of_literal
  (via Literal mapping [[nil] => Lnil, [cons] => Lcons]) : str_scope.
Local Open Scope str_scope.

(** The code points of a string of bytes, for the decimal digits that
    [pretty] prints. *)
Fixpoint of_string (s : string) : str :=
  match s with
  | EmptyString => []
  | String a s' => Ascii.N_of_ascii a :: of_string s'
  end.

(** ** Exceptions and the error monad *)

(** The exceptions of the program, and those with which the file system
    answers an operation it does not carry out. *)
Inductive Error :=
  | ValueError (msg : str)
  | KeyError
  | IndexError
  | AttributeError
  | ZeroDivisionError
  | TypeError
  | FileNotFoundError (path : str)
  | FileExistsError (path : str)
  | NotADirectoryError (path : str)
  | IsADirectoryError (path : str)
  | PermissionError (path : str)
  | GenerationError.

Inductive Res (A : Type) :=
  | Ok (a : A)
  | Raise (e : Error).
Arguments Ok {A} a.
Arguments Raise {A} e.

#[global] Instance Res_ret : MRet Res := λ A a, Ok a.
#[global] Instance Res_bind : MBind Res := λ A B f m,
  match m with
  | Ok a => f a
  | Raise e => Raise e
  end.

(** Reading an attribute or a dictionary key that may be missing. *)
Definition getattr {A} (o : option A) : Res A :=
  match o with Some a => Ok a | None => Raise AttributeError end.

Definition getitem {A} (o : option A) : Res A :=
  match o with Some a => Ok a | None => Raise KeyError end.

(** ** Python sequence primitives *)

Module Py.

(** The clamped bound of [l[:k]] and [l[k:]] on a sequence of length [len]:
    a negative [k] counts from the end. *)
Definition slice_bound (len : nat) (k : Z) : nat :=
  if k <? 0 then Z.to_nat (Z.of_nat len + k) else Z.to_nat k.

(** [l[:k]] *)
Definition slice_to {A} (l : list A) (k : Z) : list A :=
  take (slice_bound (length l) k) l.

(** [l[k:]], on a list and on a [str] alike. *)
Definition slice_from {A} (l : list A) (k : Z) : list A :=
  drop (slice_bound (length l) k) l.

(** [l[i]]: negative indices count from the end, out of range raises. *)
Definition index {A} (l : list A) (i : Z) : Res A :=
  let j := if i <? 0 then Z.of_nat (length l) + i else i in
  if j <? 0 then Raise IndexError
  else match l !! Z.to_nat j with
       | Some a => Ok a
       | None => Raise IndexError
       end.

(** [any(...)] over a list. *)
Definition any {A} (p : A → bool) (l : list A) : bool := existsb p l.

(** [s.startswith(sub)] *)
Fixpoint startswith (s sub : str) : bool :=
  match sub, s with
  | [], _ => true
  | a :: sub', b :: s' => if (a =? b)%N then startswith s' sub' else false
  | _ :: _, [] => false
  end.

(** [s.endswith(sub)] *)
Definition endswith (s sub : str) : bool :=
  startswith (reverse s) (reverse sub).

(** Offset of the first occurrence of [sub] in [s]. *)
Fixpoint first_occurrence (s sub : str) : option nat :=
  if startswith s sub then Some 0%nat
  else match s with
       | [] => None
       | _ :: s' => S <$> first_occurrence s' sub
       end.

(** [s.find(sub)]: -1 when [sub] does not occur. *)
Definition find (s sub : str) : Z :=
  match first_occurrence s sub with
  | Some i => Z.of_nat i
  | None => -1
  end.

(** [sub in s] *)
Definition contains (s sub : str) : bool :=
  match first_occurrence s sub with
  | Some _ => true
  | None => false
  end.

(** [len(s)] *)
Definition len (s : str) : Z := Z.of_nat (length s).

(** [c.isspace()], the whitespace of [str.strip] and [str.split]: the
    ASCII controls 9..13 and 28..31, the space, and the Unicode spaces
    U+0085, U+00A0, U+1680, U+2000..U+200A, U+2028, U+2029, U+202F,
    U+205F and U+3000. *)
Definition isspace (c : char) : bool :=
  ((0x09 <=? c) && (c <=? 0x0D) || (0x1C <=? c) && (c <=? 0x20)
   || (c =? 0x85) || (c =? 0xA0) || (c =? 0x1680)
   || (0x2000 <=? c) && (c <=? 0x200A)
   || (c =? 0x2028) || (c =? 0x2029) || (c =? 0x202F)
   || (c =? 0x205F) || (c =? 0x3000))%N.

Fixpoint lstrip (s : str) : str :=
  match s with
  | [] => []
  | c :: s' => if isspace c then lstrip s' else s
  end.

Fixpoint rstrip (s : str) : str :=
  match s with
  | [] => []
  | c :: s' =>
      match rstrip s' with
      | [] => if isspace c then [] else [c]
      | r => c :: r
      end
  end.

(** [s.strip()] *)
Definition strip (s : str) : str := rstrip (lstrip s).

(** [sep.join(l)] *)
Fixpoint join (sep : str) (l : list str) : str :=
  match l with
  | [] => []
  | [x] => x
  | x :: rest => x ++ sep ++ join sep rest
  end.

(** [s.split()]: the maximal runs of non-space characters; [cur] is the
    run being read. *)
Fixpoint split_from (s cur : str) : list str :=
  match s with
  | [] => if decide (cur = []) then [] else [cur]
  | c :: s' =>
      if isspace c
      then if decide (cur = []) then split_from s' []
           else cur :: split_from s' []
      else split_from s' (cur ++ [c])
  end.

Definition split (s : str) : list str := split_from s [].

End Py.

(** ** Data model *)

(** A corpus record. *)
Record Document := {
  text : str;
  title : str;
  full_corpus_idx : Z
}.

(** A dataset record; ['idx_gold_in_corpus'] is an optional key. *)
Record example := {
  example_id : str;
  question : str;
  answers : list str;
  idx_gold_in_corpus : option Z
}.

(** One entry of a search-result table: the ranked indices and their
    scores, of which only component [0] is read. *)
Abbreviation SearchResults := (gmap str (list Z * list Z)).

(** [ExperimentConfig] of [config.py]. *)
Record ExperimentConfig := {
  llm_id : str;
  model_max_length : Z;
  device : str;
  batch_size : Z;
  experiment_type : str;
  load_full_corpus : bool;
  use_random : bool;
  use_adore : bool;
  use_bm25 : bool;
  gold_position : option Z;
  num_documents_in_context : Z;
  get_documents_without_answer : bool;
  num_retrieved_documents : option Z;
  num_random_documents : option Z;
  put_retrieved_first : bool;
  use_corpus_nonsense : bool;
  num_main_documents : option Z;
  num_other_documents : option Z;
  put_main_first : bool;
  use_test : bool;
  corpus_path : str;
  train_data_path : str;
  test_data_path : str;
  contriever_results_path : str;
  bm25_results_path : str;
  adore_results_path : str;
  random_results_path : str;
  nonsense_results_path : str;
  reddit_results_path : str;
  output_dir : str;
  save_every : Z
}.

(** The dataclass defaults. *)
Definition default_config : ExperimentConfig := {|
  llm_id := "meta-llama/Llama-2-7b-chat-hf";
  model_max_length := 4096;
  device := "cuda";
  batch_size := 32;
  experiment_type := "classic";
  load_full_corpus := true;
  use_random := false;
  use_adore := false;
  use_bm25 := false;
  gold_position := None;
  num_documents_in_context := 7;
  get_documents_without_answer := true;
  num_retrieved_documents := None;
  num_random_documents := None;
  put_retrieved_first := false;
  use_corpus_nonsense := false;
  num_main_documents := None;
  num_other_documents := None;
  put_main_first := false;
  use_test := false;
  corpus_path := "data/corpus.json";
  train_data_path := "data/10k_train_dataset.json";
  test_data_path := "data/test_dataset.json";
  contriever_results_path := "data/contriever_search_results_at150.pkl";
  bm25_results_path := "data/bm25_test_search_results_at250.pkl";
  adore_results_path := "data/adore_search_results_at200.pkl";
  random_results_path := "data/10k_random_results_at60.pkl";
  nonsense_results_path := "data/nonsense_random_results.pkl";
  reddit_results_path := "data/reddit_test_random_results.pkl";
  output_dir := "experiment_results";
  save_every := 250
|}.

(** The dictionary built for one example in [run_experiments]; the keys
    that are only set on some paths are options. *)
Module Result.

Record t := {
  example_id : str;
  query : str;
  answers : list str;
  document_indices : option (list Z);
  gold_document_idx : option Z;
  prompt : str;
  generated_answer : str;
  ans_match_after_norm : bool;
  ans_in_documents : option bool
}.

End Result.

(** The attributes of [LLM] that [ExperimentManager.__init__] sets. *)
Record LLM := {
  llm_model_id : str;
  llm_device : str;
  quantization_bits : Z;
  llm_model_max_length : Z
}.

(** [self] of [ExperimentManager]; an attribute that [_load_data] assigns
    only for some experiment types is an option. *)
Record ExperimentManager := {
  config : ExperimentConfig;
  llm : LLM;
  dataset : list example;
  corpus : option (list Document);
  search_results : option SearchResults;
  retriever_results : option SearchResults;
  random_results : option SearchResults;
  main_results : option SearchResults;
  other_results : option SearchResults
}.

(** ** Files and input/output *)

(** What a file holds once parsed. *)
Inductive FileData :=
  | DatasetFile (d : list example)
  | CorpusFile (c : list Document)
  | SearchResultsFile (t : SearchResults)
  | ResultsFile (r : list Result.t).

Inductive IOEvent :=
  | LoadModel (model_id : str)
  | ReadJson (path : str)
  | ReadPickle (path : str)
  | MakeDirs (path : str)
  | WriteJson (path : str).

(** The part of the outside world the program touches: the files, and the
    trace of what was done to it, oldest event first. *)
Record World := {
  files : gmap str FileData;
  trace : list IOEvent
}.

(** Computations that read and write the world and may raise. *)
Definition IO (A : Type) : Type := World → World * Res A.

#[global] Instance IO_ret : MRet IO := λ A a w, (w, Ok a).
#[global] Instance IO_bind : MBind IO := λ A B f m w,
  match m w with
  | (w', Ok a) => f a w'
  | (w', Raise e) => (w', Raise e)
  end.

Definition lift {A} (r : Res A) : IO A := λ w, (w, r).

Definition emit (e : IOEvent) : IO unit :=
  λ w, ({| files := files w; trace := trace w ++ [e] |}, Ok tt).

Definition open_read (path : str) : IO FileData :=
  λ w, (w, match files w !! path with
           | Some d => Ok d
           | None => Raise (FileNotFoundError path)
           end).

(** [utils.read_json] and [utils.read_pickle] *)
Definition read_json (file_path : str) : IO FileData :=
  _ ← emit (ReadJson file_path); open_read file_path.

Definition read_pickle (file_path : str) : IO FileData :=
  _ ← emit (ReadPickle file_path); open_read file_path.

(** Using loaded data as the kind of value the program indexes it as. *)
Definition as_dataset (d : FileData) : Res (list example) :=
  match d with DatasetFile x => Ok x | _ => Raise TypeError end.
Definition as_corpus (d : FileData) : Res (list Document) :=
  match d with CorpusFile x => Ok x | _ => Raise TypeError end.
Definition as_search_results (d : FileData) : Res SearchResults :=
  match d with SearchResultsFile x => Ok x | _ => Raise TypeError end.

(** [os.path.join(a, b)] for a relative [b]. *)
Definition path_join (a b : str) : str :=
  if decide (a = []) then b
  else if Py.endswith a "/" then a ++ b
  else a ++ "/" ++ b.

(** The line feed of the string literals. *)
Definition nl : str := [0x0A%N].

(** *** Writing *)

Section Writing.

(** What the file system answers to an operation that it does not carry
    out for a reason of its own (a path component that is not a
    directory, a file under another spelling of the path, a missing
    permission, a full disk): the exception it raises, or [None] when it
    lets the operation through. *)
Variable refuses : IOEvent → option Error.

(** [os.makedirs(name, exist_ok=True)]: the empty name is no directory,
    and a file that sits at [name] is in the way; a directory that is
    already there is not. Nothing is done to the world when it raises. *)
Definition makedirs (name : str) : IO unit :=
  λ w, if bool_decide (name = []) then (w, Raise (FileNotFoundError name))
       else match refuses (MakeDirs name) with
            | Some e => (w, Raise e)
            | None =>
                if bool_decide (is_Some (files w !! name))
                then (w, Raise (FileExistsError name))
                else emit (MakeDirs name) w
            end.

(** [with open(path, 'w') as f: json.dump(d, f)]: the file at [path] is
    created or replaced. *)
Definition open_write (path : str) (d : FileData) : IO unit :=
  λ w, if bool_decide (path = []) then (w, Raise (FileNotFoundError path))
       else match refuses (WriteJson path) with
            | Some e => (w, Raise e)
            | None =>
                ({| files := <[path := d]> (files w);
                    trace := trace w ++ [WriteJson path] |}, Ok tt)
            end.

End Writing.

(** ** [ExperimentConfig.validate] *)

Definition is_None {A} (o : option A) : bool :=
  match o with None => true | Some _ => false end.

Definition experiment_types : list str :=
  ["classic"; "mixed"; "multi_corpus"; "only_query"].

Definition validate (self : ExperimentConfig) : Res unit :=
  _ ← (if negb (bool_decide (experiment_type self ∈ experiment_types))
       then Raise (ValueError "Invalid experiment type") else Ok tt);
  _ ← (if bool_decide (experiment_type self = "mixed")
       then if is_None (num_retrieved_documents self)
               || is_None (num_random_documents self)
            then Raise (ValueError
              "Mixed experiments require retrieved and random document counts")
            else Ok tt
       else Ok tt);
  if bool_decide (experiment_type self = "multi_corpus")
  then if is_None (num_main_documents self)
          || is_None (num_other_documents self)
       then Raise (ValueError
         "Multi-corpus experiments require main and other document counts")
       else Ok tt
  else Ok tt.

(** ** Answer normalization *)

Module Normalize.

Fixpoint map_chars (f : char → char) (s : str) : str :=
  match s with
  | [] => []
  | c :: s' => f c :: map_chars f s'
  end.

Fixpoint filter_chars (p : char → bool) (s : str) : str :=
  match s with
  | [] => []
  | c :: s' => if p c then c :: filter_chars p s' else filter_chars p s'
  end.

(** Modelled from the spec: the case fold of the Answer Normalizer (module
    [normalize_answers], imported by [experiment_manager.py] and absent
    from the sources), on ASCII letters. *)
Definition lower (c : char) : char :=
  if ((65 <=? c) && (c <=? 90))%N then (c + 32)%N else c.

(** Modelled from the spec: the punctuation the Answer Normalizer strips
    (module [normalize_answers], absent from the sources): the ASCII
    punctuation characters. *)
Definition is_punctuation (c : char) : bool :=
  ((33 <=? c) && (c <=? 47) || (58 <=? c) && (c <=? 64)
   || (91 <=? c) && (c <=? 96) || (123 <=? c) && (c <=? 126))%N.

(** Modelled from the spec: the articles the Answer Normalizer strips
    (module [normalize_answers], absent from the sources). *)
Definition is_article (w : str) : bool :=
  bool_decide (w ∈ ["a"; "an"; "the"]).

(** Modelled from the spec: [normalize_answer] of the module
    [normalize_answers], absent from the sources: case-fold, strip
    punctuation, strip articles, collapse whitespace. *)
Definition normalize_answer (s : str) : str :=
  Py.join " "
    (filter (λ w, is_article w = false)
       (Py.split
          (filter_chars (λ c, negb (is_punctuation c)) (map_chars lower s)))).

(** Modelled from the spec: [is_answer_in_text] of the module
    [normalize_answers], absent from the sources: the same
    normalized-substring test between any gold answer and the text. *)
Definition is_answer_in_text (text : str) (answers : list str) : bool :=
  Py.any (λ ans, Py.contains (normalize_answer text) (normalize_answer ans))
    answers.

End Normalize.

(** ** [ExperimentManager] *)

(** [for x in l: s = body(s, x)], stopping at the first exception. *)
Fixpoint for_each {A S} (body : S → A → Res S) (l : list A) (s : S) : Res S :=
  match l with
  | [] => Ok s
  | x :: l' => s' ← body s x; for_each body l' s'
  end.

Fixpoint for_each_io {A S} (body : S → A → IO S) (l : list A) (s : S) : IO S :=
  match l with
  | [] => mret s
  | x :: l' => s' ← body s x; for_each_io body l' s'
  end.

(** [l[:k]] where [k] may be [None]. *)
Definition slice_to_opt {A} (l : list A) (k : option Z) : list A :=
  match k with Some k => Py.slice_to l k | None => l end.

(** Truth value of [documents]: [None] and the empty list are false. *)
Definition truthy {A} (documents : option (list A)) : bool :=
  match documents with Some (_ :: _) => true | _ => false end.

(** [str(x)] inside an f-string. *)
Definition fmt (x : Z) : str := of_string (pretty x).
Definition fmt_opt (x : option Z) : str :=
  match x with Some x => fmt x | None => "None" end.

(** ['\n'.join(documents)] where [documents] holds the corpus records
    themselves: [str.join] raises [TypeError] on the first item that is
    not a [str]. *)
Definition join_documents (documents : list Document) : Res str :=
  match documents with
  | [] => Ok []
  | _ :: _ => Raise TypeError
  end.

Definition task_instruction : str :=
  "You are given a question and you MUST respond by EXTRACTING a short answer (max 5 tokens) from one of the provided documents. If none of the documents contain the answer, respond with NO-RES.".

Definition only_query_instruction : str :=
  "You are given a question and you MUST respond with a short answer (max 5 tokens) based on your internal knowledge. If you do not know the answer, please respond with NO-RES.".

Definition INSTRUCTION_KEY : str := "### Instruction:".
Definition RESPONSE_KEY : str := "### Response:".
Definition INTRO_BLURB : str :=
  "Below is an instruction that describes a task. Write a response that appropriately completes the request.".

Definition _build_prompt (self : ExperimentManager) (query : str)
    (documents : option (list Document)) : Res str :=
  prompt ←
    (if truthy documents then
       documents_str ← join_documents (default [] documents);
       Ok (task_instruction ++ nl ++ "Documents:" ++ nl ++ documents_str
           ++ nl ++ "Question: " ++ query ++ nl ++ "Answer:")
     else
       Ok (only_query_instruction ++ nl ++ "Question: " ++ query
           ++ nl ++ "Answer:"));
  if Py.contains (llm_id (config self)) "mpt"
  then Ok (INTRO_BLURB ++ nl ++ INSTRUCTION_KEY ++ nl ++ prompt
           ++ nl ++ RESPONSE_KEY)
  else Ok prompt.

(** The offset computed from the raw response in [run_experiments]. *)
Definition answer_start (response : str) : Z :=
  if Py.contains response "Answer:"
  then Py.find response "Answer:" + Py.len "Answer:"
  else Py.find response "### Response:" + Py.len "### Response:".

Definition generated_answer (response : str) : str :=
  Py.strip (Py.slice_from response (answer_start response)).

(** The gold-document splice of [_get_classic_documents]. *)
Definition splice_gold (retrieved_indices : list Z) (gold_position gold_idx : Z)
    : list Z :=
  Py.slice_to retrieved_indices gold_position
  ++ [gold_idx]
  ++ Py.slice_from retrieved_indices gold_position.

(** The file name that [_save_results] builds. *)
Definition results_filename (cfg : ExperimentConfig) (suffix : str) : str :=
  let filename :=
    if bool_decide (experiment_type cfg = "classic") then
      "numdoc" ++ fmt (num_documents_in_context cfg) ++ "_"
      ++ (match gold_position cfg with
           | Some g => "gold_at" ++ fmt g ++ "_"
           | None => []
           end)
      ++ (if use_random cfg then "rand_" else [])
      ++ (if get_documents_without_answer cfg then "answerless_" else [])
    else if bool_decide (experiment_type cfg = "mixed") then
      "numdoc" ++ fmt (num_documents_in_context cfg) ++ "_"
      ++ (if put_retrieved_first cfg
           then "retr" ++ fmt_opt (num_retrieved_documents cfg)
                ++ "_rand" ++ fmt_opt (num_random_documents cfg) ++ "_"
           else "rand" ++ fmt_opt (num_random_documents cfg)
                ++ "_retr" ++ fmt_opt (num_retrieved_documents cfg) ++ "_")
    else if bool_decide (experiment_type cfg = "multi_corpus") then
      "numdoc" ++ fmt (num_documents_in_context cfg) ++ "_"
      ++ (if put_main_first cfg
           then "main" ++ fmt_opt (num_main_documents cfg)
                ++ "_other" ++ fmt_opt (num_other_documents cfg) ++ "_"
           else "other" ++ fmt_opt (num_other_documents cfg)
                ++ "_main" ++ fmt_opt (num_main_documents cfg) ++ "_")
      ++ (if use_corpus_nonsense cfg then "nonsense_" else "reddit_")
    else "only_query_" in
  filename ++ "results_" ++ suffix ++ ".json".

(** [os.path.join(self.config.output_dir, filename)] *)
Definition results_path (cfg : ExperimentConfig) (suffix : str) : str :=
  path_join (output_dir cfg) (results_filename cfg suffix).

Definition _save_results (refuses : IOEvent → option Error)
    (self : ExperimentManager) (results : list Result.t) (suffix : str)
    : IO unit :=
  _ ← makedirs refuses (output_dir (config self));
  let path := results_path (config self) suffix in
  open_write refuses path (ResultsFile results).

(** [LLM.__init__], as far as the pipeline observes it. *)
Definition LLM_init (model_id device : str) (bits max_length : Z) : IO LLM :=
  _ ← emit (LoadModel model_id);
  mret {| llm_model_id := model_id; llm_device := device;
          quantization_bits := bits; llm_model_max_length := max_length |}.

Definition _load_data (cfg : ExperimentConfig) (l : LLM) : IO ExperimentManager :=
  let data_path := if use_test cfg then test_data_path cfg
                   else train_data_path cfg in
  d ← read_json data_path;
  dataset ← lift (as_dataset d);
  let self := {| config := cfg; llm := l; dataset := dataset; corpus := None;
                 search_results := None; retriever_results := None;
                 random_results := None; main_results := None;
                 other_results := None |} in
  if bool_decide (experiment_type cfg ≠ "only_query") then
    c ← (if load_full_corpus cfg then read_json (corpus_path cfg)
         else if use_random cfg
              then read_pickle "data/processed/corpus_with_random_at60.json"
         else if use_adore cfg
              then read_pickle "data/processed/corpus_with_adore_at200.json"
         else read_pickle "data/processed/corpus_with_contriever_at150.json");
    c ← lift (as_corpus c);
    let main_path := if use_bm25 cfg then bm25_results_path cfg
                     else contriever_results_path cfg in
    if bool_decide (experiment_type cfg = "classic") then
      t ← read_pickle (if use_random cfg then random_results_path cfg
                       else if use_adore cfg then adore_results_path cfg
                       else contriever_results_path cfg);
      t ← lift (as_search_results t);
      mret {| config := cfg; llm := l; dataset := dataset; corpus := Some c;
              search_results := Some t; retriever_results := None;
              random_results := None; main_results := None;
              other_results := None |}
    else if bool_decide (experiment_type cfg = "mixed") then
      t1 ← read_pickle main_path;
      t1 ← lift (as_search_results t1);
      t2 ← read_pickle (random_results_path cfg);
      t2 ← lift (as_search_results t2);
      mret {| config := cfg; llm := l; dataset := dataset; corpus := Some c;
              search_results := None; retriever_results := Some t1;
              random_results := Some t2; main_results := None;
              other_results := None |}
    else if bool_decide (experiment_type cfg = "multi_corpus") then
      t1 ← read_pickle main_path;
      t1 ← lift (as_search_results t1);
      t2 ← read_pickle (if use_corpus_nonsense cfg
                        then nonsense_results_path cfg
                        else reddit_results_path cfg);
      t2 ← lift (as_search_results t2);
      mret {| config := cfg; llm := l; dataset := dataset; corpus := Some c;
              search_results := None; retriever_results := None;
              random_results := None; main_results := Some t1;
              other_results := Some t2 |}
    else
      mret {| config := cfg; llm := l; dataset := dataset; corpus := Some c;
              search_results := None; retriever_results := None;
              random_results := None; main_results := None;
              other_results := None |}
  else mret self.

(** [ExperimentManager.__init__] *)
Definition __init__ (cfg : ExperimentConfig) : IO ExperimentManager :=
  _ ← lift (validate cfg);
  l ← LLM_init (llm_id cfg) (device cfg) 4 (model_max_length cfg);
  _load_data cfg l.

Section Pipeline.

(** The two functions imported from [normalize_answers] and the text
    generator behind [LLM.generate] are parameters of the pipeline. *)
Variable normalize_answer : str → str.
Variable is_answer_in_text : str → list str → bool.
Variable generate : LLM → str → Res str.

(** So are the refusals of the file system. *)
Variable refuses : IOEvent → option Error.

(** The test of the loop of [_get_classic_documents]. *)
Definition keeps (cfg : ExperimentConfig) (answers : list str)
    (doc : Document) : bool :=
  negb (get_documents_without_answer cfg)
  || negb (is_answer_in_text (text doc) answers).

(** The block of [_get_classic_documents] that handles the gold document. *)
Definition with_gold (cfg : ExperimentConfig) (example : example)
    (retrieved_indices : list Z) : Res (list Z) :=
  match gold_position cfg with
  | Some position =>
      gold_idx ← getitem (idx_gold_in_corpus example);
      Ok (splice_gold retrieved_indices position gold_idx)
  | None => Ok retrieved_indices
  end.

Definition _get_classic_documents (self : ExperimentManager)
    (example : example) : Res (list Document) :=
  let idx := example_id example in
  table ← getattr (search_results self);
  entry ← getitem (table !! idx);
  let retrieved_indices := entry.1 in
  retrieved_indices ← with_gold (config self) example retrieved_indices;
  documents ←
    for_each
      (λ documents doc_idx,
         corpus ← getattr (corpus self);
         doc ← Py.index corpus doc_idx;
         if keeps (config self) (answers example) doc
         then Ok (documents ++ [doc]) else Ok documents)
      (Py.slice_to retrieved_indices (num_documents_in_context (config self)))
      [];
  Ok (Py.slice_to documents (num_documents_in_context (config self))).

(** The loop shared by the mixed and multi-corpus families. *)
Definition lookup_documents (self : ExperimentManager) (doc_indices : list Z)
    : Res (list Document) :=
  for_each
    (λ documents doc_idx,
       corpus ← getattr (corpus self);
       doc ← Py.index corpus doc_idx;
       Ok (documents ++ [doc]))
    doc_indices [].

Definition _get_mixed_documents (self : ExperimentManager)
    (example : example) : Res (list Document) :=
  let idx := example_id example in
  table ← getattr (retriever_results self);
  entry ← getitem (table !! idx);
  let retrieved_indices :=
    slice_to_opt entry.1 (num_retrieved_documents (config self)) in
  table ← getattr (random_results self);
  entry ← getitem (table !! idx);
  let random_indices :=
    slice_to_opt entry.1 (num_random_documents (config self)) in
  let doc_indices :=
    if put_retrieved_first (config self)
    then retrieved_indices ++ random_indices
    else random_indices ++ retrieved_indices in
  lookup_documents self doc_indices.

Definition _get_multi_corpus_documents (self : ExperimentManager)
    (example : example) : Res (list Document) :=
  let idx := example_id example in
  table ← getattr (main_results self);
  entry ← getitem (table !! idx);
  let main_indices :=
    slice_to_opt entry.1 (num_main_documents (config self)) in
  table ← getattr (other_results self);
  entry ← getitem (table !! idx);
  let other_indices :=
    slice_to_opt entry.1 (num_other_documents (config self)) in
  let doc_indices :=
    if put_main_first (config self)
    then main_indices ++ other_indices
    else other_indices ++ main_indices in
  lookup_documents self doc_indices.

Definition _get_documents (self : ExperimentManager) (example : example)
    : Res (list Document) :=
  if bool_decide (experiment_type (config self) = "classic")
  then _get_classic_documents self example
  else if bool_decide (experiment_type (config self) = "mixed")
  then _get_mixed_documents self example
  else _get_multi_corpus_documents self example.

(** The grading expression of [run_experiments]. *)
Definition ans_match (generated : str) (answers : list str) : bool :=
  Py.any (λ ans, Py.contains (normalize_answer generated) (normalize_answer ans))
    answers.

(** The body of the loop of [run_experiments], up to
    [results.append(result)]. *)
Definition evaluate_example (self : ExperimentManager) (example : example)
    : Res Result.t :=
  documents ←
    (if bool_decide (experiment_type (config self) = "only_query")
     then Ok (None : option (list Document))
     else documents ← _get_documents self example; Ok (Some documents));
  prompt ← _build_prompt self (question example) documents;
  response ← generate (llm self) prompt;
  let generated := generated_answer response in
  Ok {| Result.example_id := example_id example;
        Result.query := question example;
        Result.answers := answers example;
        Result.document_indices := fmap (M:=list) full_corpus_idx <$> documents;
        Result.gold_document_idx :=
          match documents with
          | Some _ => idx_gold_in_corpus example
          | None => None
          end;
        Result.prompt := prompt;
        Result.generated_answer := generated;
        Result.ans_match_after_norm := ans_match generated (answers example);
        Result.ans_in_documents :=
          if truthy documents
          then Some (Py.any (λ doc, is_answer_in_text (text doc)
                                      (answers example))
                       (default [] documents))
          else None |}.

(** [len(results) % save_every == 0] *)
Definition is_checkpoint (n : nat) (save_every : Z) : Res bool :=
  if save_every =? 0 then Raise ZeroDivisionError
  else Ok (Z.of_nat n `mod` save_every =? 0).

Definition run_experiments (self : ExperimentManager) : IO (list Result.t) :=
  results ←
    for_each_io
      (λ results example,
         result ← lift (evaluate_example self example);
         let results := results ++ [result] in
         save ← lift (is_checkpoint (length results) (save_every (config self)));
         _ ← (if save : bool
              then _save_results refuses self results
                     ("intermediate_" ++ fmt (Z.of_nat (length results)))
              else mret tt);
         mret results)
      (dataset self) [];
  _ ← _save_results refuses self results "final";
  mret results.

End Pipeline.

(** ** [read_corpus_json] of [utils.py] *)

(** [enumerate(l)] *)
Definition enumerate {A} (l : list A) : list (Z * A) :=
  imap (λ i x, (Z.of_nat i, x)) l.

(** The record with ['full_corpus_idx'] assigned. *)
Definition set_full_corpus_idx (record : Document) (idx : Z) : Document :=
  {| text := text record; title := title record; full_corpus_idx := idx |}.

(** [read_corpus_json]: the records of the file, each with its
    ['full_corpus_idx'] set to its position, or to what the mapping holds
    for its position when a mapping is given that is not empty. *)
Definition read_corpus_json (data_path : str)
    (subset_to_full_idx_map : option (gmap Z Z)) : IO (list Document) :=
  _ ← emit (ReadJson data_path);
  d ← open_read data_path;
  records ← lift (as_corpus d);
  lift (for_each
          (λ corpus item,
             idx ← match subset_to_full_idx_map with
                   | Some mapping =>
                       if bool_decide (mapping = ∅) then Ok item.1
                       else getitem (mapping !! item.1)
                   | None => Ok item.1
                   end;
             Ok (corpus ++ [set_full_corpus_idx item.2 idx]))
          (enumerate records) []).

(** ** The Context Assembler over a store of list objects *)

(** A Python list is an object: a variable holds a reference to it,
    [append] changes the object behind every reference, and a slice or a
    concatenation makes a new object. This reading of the assembler keeps
    the lists it handles in a store, so that what a call leaves behind
    for the next one is explicit. The records of the corpus are only read
    and stay values. *)
Module Store.

Inductive Obj :=
  | Indices (l : list Z)
  | Documents (l : list Document).

(** A reference is a position of the store; a new object goes at its
    end. *)
Abbreviation ref := nat.
Abbreviation Store := (list Obj).

Definition M (A : Type) : Type := Store → Store * Res A.

#[global] Instance M_ret : MRet M := λ A a σ, (σ, Ok a).
#[global] Instance M_bind : MBind M := λ A B f m σ,
  match m σ with
  | (σ', Ok a) => f a σ'
  | (σ', Raise e) => (σ', Raise e)
  end.

Definition lift {A} (r : Res A) : M A := λ σ, (σ, r).

Definition new (o : Obj) : M ref := λ σ, (σ ++ [o], Ok (length σ)).

(** The list behind a reference; a reference to an object of the other
    kind, which no call of the assembler makes, is a [TypeError]. *)
Definition indices_of (r : ref) : M (list Z) :=
  λ σ, (σ, match σ !! r with
           | Some (Indices l) => Ok l
           | _ => Raise TypeError
           end).

Definition documents_of (r : ref) : M (list Document) :=
  λ σ, (σ, match σ !! r with
           | Some (Documents l) => Ok l
           | _ => Raise TypeError
           end).

(** [documents.append(doc)]: the object itself changes. *)
Definition append (r : ref) (doc : Document) : M unit :=
  λ σ, match σ !! r with
       | Some (Documents l) => (<[r := Documents (l ++ [doc])]> σ, Ok tt)
       | _ => (σ, Raise AttributeError)
       end.

(** [l[:k]] and [l[k:]]: a new list. *)
Definition slice_to (r : ref) (k : Z) : M ref :=
  l ← indices_of r; new (Indices (Py.slice_to l k)).

Definition slice_from (r : ref) (k : Z) : M ref :=
  l ← indices_of r; new (Indices (Py.slice_from l k)).

(** [l[:k]] where [k] may be [None]: a new list in both cases. *)
Definition slice_to_opt (r : ref) (k : option Z) : M ref :=
  l ← indices_of r; new (Indices (slice_to_opt l k)).

(** [documents[:k]] *)
Definition slice_documents (r : ref) (k : Z) : M ref :=
  l ← documents_of r; new (Documents (Py.slice_to l k)).

(** [a + b]: a new list. *)
Definition concat (a b : ref) : M ref :=
  l1 ← indices_of a; l2 ← indices_of b; new (Indices (l1 ++ l2)).

(** [for x in l: body(x)], stopping at the first exception. *)
Fixpoint for_each {A} (body : A → M unit) (l : list A) : M unit :=
  match l with
  | [] => mret tt
  | x :: l' => _ ← body x; for_each body l'
  end.

(** A search-result table whose ranked lists are objects of the store:
    component [0] of each entry, the only one that is read. *)
Abbreviation Table := (gmap str ref).

(** [self], with the tables holding references. *)
Record Manager := {
  config : ExperimentConfig;
  corpus : option (list Document);
  search_results : option Table;
  retriever_results : option Table;
  random_results : option Table;
  main_results : option Table;
  other_results : option Table
}.

Section Assembler.

Variable is_answer_in_text : str → list str → bool.

Definition _get_classic_documents (self : Manager) (example : example)
    : M ref :=
  let idx := example_id example in
  table ← lift (getattr (search_results self));
  retrieved_indices ← lift (getitem (table !! idx));
  documents ← new (Documents []);
  retrieved_indices ←
    match gold_position (config self) with
    | Some position =>
        gold_idx ← lift (getitem (idx_gold_in_corpus example));
        before ← slice_to retrieved_indices position;
        gold ← new (Indices [gold_idx]);
        before_gold ← concat before gold;
        after ← slice_from retrieved_indices position;
        concat before_gold after
    | None => mret retrieved_indices
    end;
  candidates ←
    slice_to retrieved_indices (num_documents_in_context (config self));
  candidates ← indices_of candidates;
  _ ← for_each
        (λ doc_idx,
           corpus ← lift (getattr (corpus self));
           doc ← lift (Py.index corpus doc_idx);
           if keeps is_answer_in_text (config self) (answers example) doc
           then append documents doc else mret tt)
        candidates;
  slice_documents documents (num_documents_in_context (config self)).

(** The loop shared by the mixed and multi-corpus families. *)
Definition lookup_documents (self : Manager) (documents doc_indices : ref)
    : M ref :=
  doc_indices ← indices_of doc_indices;
  _ ← for_each
        (λ doc_idx,
           corpus ← lift (getattr (corpus self));
           doc ← lift (Py.index corpus doc_idx);
           append documents doc)
        doc_indices;
  mret documents.

Definition _get_mixed_documents (self : Manager) (example : example)
    : M ref :=
  let idx := example_id example in
  table ← lift (getattr (retriever_results self));
  entry ← lift (getitem (table !! idx));
  retrieved_indices ←
    slice_to_opt entry (num_retrieved_documents (config self));
  table ← lift (getattr (random_results self));
  entry ← lift (getitem (table !! idx));
  random_indices ← slice_to_opt entry (num_random_documents (config self));
  documents ← new (Documents []);
  doc_indices ←
    (if put_retrieved_first (config self)
     then concat retrieved_indices random_indices
     else concat random_indices retrieved_indices);
  lookup_documents self documents doc_indices.

Definition _get_multi_corpus_documents (self : Manager) (example : example)
    : M ref :=
  let idx := example_id example in
  table ← lift (getattr (main_results self));
  entry ← lift (getitem (table !! idx));
  main_indices ← slice_to_opt entry (num_main_documents (config self));
  table ← lift (getattr (other_results self));
  entry ← lift (getitem (table !! idx));
  other_indices ← slice_to_opt entry (num_other_documents (config self));
  documents ← new (Documents []);
  doc_indices ←
    (if put_main_first (config self)
     then concat main_indices other_indices
     else concat other_indices main_indices);
  lookup_documents self documents doc_indices.

Definition _get_documents (self : Manager) (example : example) : M ref :=
  if bool_decide (experiment_type (config self) = "classic")
  then _get_classic_documents self example
  else if bool_decide (experiment_type (config self) = "mixed")
  then _get_mixed_documents self example
  else _get_multi_corpus_documents self example.

End Assembler.

(** The list behind the reference a call returned. *)
Definition outcome (σ : Store) (r : Res ref) : Res (list Document) :=
  match r with
  | Ok r => match σ !! r with
            | Some (Documents l) => Ok l
            | _ => Raise TypeError
            end
  | Raise e => Raise e
  end.

(** The ranked list of a table entry is the object behind its
    reference. *)
Definition entry_in (σ : Store) (r : option ref)
    (entry : option (list Z * list Z)) : Prop :=
  match r, entry with
  | Some r, Some entry => σ !! r = Some (Indices entry.1)
  | None, None => True
  | _, _ => False
  end.

Definition table_in (σ : Store) (refs : option Table)
    (table : option SearchResults) : Prop :=
  match refs, table with
  | Some refs, Some table => ∀ key, entry_in σ (refs !! key) (table !! key)
  | None, None => True
  | _, _ => False
  end.

End Store.

(** The store [σ] and the manager [hm] over it hold what the manager
    [self] holds as values. *)
Definition represents (σ : Store.Store) (hm : Store.Manager)
    (self : ExperimentManager) : Prop :=
  Store.config hm = config self
  ∧ Store.corpus hm = corpus self
  ∧ Store.table_in σ (Store.search_results hm) (search_results self)
  ∧ Store.table_in σ (Store.retriever_results hm) (retriever_results self)
  ∧ Store.table_in σ (Store.random_results hm) (random_results self)
  ∧ Store.table_in σ (Store.main_results hm) (main_results self)
  ∧ Store.table_in σ (Store.other_results hm) (other_results self).

(** What a call of the assembler leaves behind, when the value reading of
    it gives [pure]: the store it started from with new objects at its
    end, and either the exception of [pure] or a reference to a list of
    documents that holds the list of [pure]. *)
Definition store_refines (σ σ' : Store.Store) (r : Res Store.ref)
    (pure : Res (list Document)) : Prop :=
  σ `prefix_of` σ'
  ∧ match r with
    | Ok r => ∃ docs, σ' !! r = Some (Store.Documents docs) ∧ pure = Ok docs
    | Raise e => pure = Raise e
    end.

(** ** Vocabulary of the properties *)

(** [sub] occurs in [s]. *)
Definition is_substring (sub s : str) : Prop :=
  ∃ pre post, s = pre ++ sub ++ post.

(** [s] splits at an occurrence of [sub] that no other occurrence
    precedes. *)
Definition first_split (s sub pre post : str) : Prop :=
  s = pre ++ sub ++ post
  ∧ ∀ pre' post', s = pre' ++ sub ++ post' →
      (length pre ≤ length pre')%nat.

(** Offset of the last occurrence of [sub] in [s]. *)
Fixpoint last_occurrence (s sub : str) : option nat :=
  match s with
  | [] => if Py.startswith s sub then Some 0%nat else None
  | _ :: s' =>
      match last_occurrence s' sub with
      | Some i => Some (S i)
      | None => if Py.startswith s sub then Some 0%nat else None
      end
  end.

(** The answer extraction as the specification words it: the text after
    the last occurrence of the marker, the empty string without one. *)
Definition spec_generated_answer (response : str) : str :=
  match last_occurrence response "Answer:" with
  | Some i => drop (i + length "Answer:") response
  | None => []
  end.

(** [i] is an index that [corpus[i]] accepts. *)
Definition valid_index {A} (l : list A) (i : Z) : Prop :=
  - Z.of_nat (length l) ≤ i < Z.of_nat (length l).

(** [docs] are the corpus entries at [idxs], in order. *)
Definition resolves (corpus : list Document) (idxs : list Z)
    (docs : list Document) : Prop :=
  Forall2 (λ i d, Py.index corpus i = Ok d) idxs docs.

(** The saves made inside the loop of a run, for the result counts [ks]. *)
Definition intermediate_saves (save_every : Z) (results : list Result.t)
    (ks : list nat) : list (str * list Result.t) :=
  (λ k, ("intermediate_" ++ fmt (Z.of_nat k), take k results))
    <$> List.filter (λ k, Z.of_nat k `mod` save_every =? 0) ks.

(** All the saves of a run that produced [results]: suffix and contents. *)
Definition expected_saves (save_every : Z) (results : list Result.t)
    : list (str * list Result.t) :=
  intermediate_saves save_every results (seq 1 (length results))
  ++ [("final", results)].


(** The condition under which the configuration is rejected. *)
Definition invalid (cfg : ExperimentConfig) : Prop :=
  experiment_type cfg ∉ experiment_types
  ∨ (experiment_type cfg = "mixed"
     ∧ (num_retrieved_documents cfg = None ∨ num_random_documents cfg = None))
  ∨ (experiment_type cfg = "multi_corpus"
     ∧ (num_main_documents cfg = None ∨ num_other_documents cfg = None)).

(** The code points for which [str.isspace] holds. *)
Definition whitespace : list char :=
  [0x09; 0x0A; 0x0B; 0x0C; 0x0D; 0x1C; 0x1D; 0x1E; 0x1F; 0x20; 0x85; 0xA0;
   0x1680; 0x2000; 0x2001; 0x2002; 0x2003; 0x2004; 0x2005; 0x2006; 0x2007;
   0x2008; 0x2009; 0x200A; 0x2028; 0x2029; 0x202F; 0x205F; 0x3000]%N.

(** [c] is one of the characters of [s]. *)
Fixpoint char_in (c : char) (s : str) : bool :=
  match s with
  | [] => false
  | x :: s' => (x =? c)%N || char_in c s'
  end.

(** The corpus resolves every index of [idxs]. *)
Definition all_valid (corpus : list Document) (idxs : list Z) : Prop :=
  Forall (valid_index corpus) idxs.

(** The files after the saves [saves] of the manager [self], as a map. *)
Definition saved_files (cfg : ExperimentConfig)
    (saves : list (str * list Result.t)) (m : gmap str FileData)
    : gmap str FileData :=
  foldl (λ m s, <[results_path cfg s.1 := ResultsFile s.2]> m) m saves.

(** The events of the saves [saves], in order. *)
Definition save_events (cfg : ExperimentConfig)
    (saves : list (str * list Result.t)) : list IOEvent :=
  saves ≫= λ s, [MakeDirs (output_dir cfg); WriteJson (results_path cfg s.1)].

(** The world after the saves [saves], when each went through. *)
Definition after_saves (cfg : ExperimentConfig)
    (saves : list (str * list Result.t)) (w : World) : World :=
  {| files := saved_files cfg saves (files w);
     trace := trace w ++ save_events cfg saves |}.

(** The file system lets the output directory be made and every results
    file be written. *)
Definition lets_save (refuses : IOEvent → option Error)
    (cfg : ExperimentConfig) : Prop :=
  refuses (MakeDirs (output_dir cfg)) = None
  ∧ ∀ suffix, refuses (WriteJson (results_path cfg suffix)) = None.

(** The output directory can be made in the world [w]: it has a name and
    no file sits at it. *)
Definition dir_free (cfg : ExperimentConfig) (w : World) : Prop :=
  output_dir cfg ≠ [] ∧ files w !! output_dir cfg = None.

(** ** Sample data *)

Module Sample.

Definition D0 : Document :=
  {| text := "Paris is the capital of France."; title := "France";
     full_corpus_idx := 0 |}.
Definition D1 : Document :=
  {| text := "Berlin lies on the Spree."; title := "Berlin";
     full_corpus_idx := 1 |}.
Definition D2 : Document :=
  {| text := "Rome was not built in a day."; title := "Rome";
     full_corpus_idx := 2 |}.

Definition corpus3 : list Document := [D0; D1; D2].

Definition q1 : example :=
  {| example_id := "q1"; question := "What is the capital of France?";
     answers := ["Paris"]; idx_gold_in_corpus := Some 0 |}.

Definition ranking (l : list Z) : SearchResults := {[ "q1" := (l, []) ]}.

Definition set_type (cfg : ExperimentConfig) (ty : str) : ExperimentConfig :=
  {| llm_id := llm_id cfg; model_max_length := model_max_length cfg;
     device := device cfg; batch_size := batch_size cfg;
     experiment_type := ty; load_full_corpus := load_full_corpus cfg;
     use_random := use_random cfg; use_adore := use_adore cfg;
     use_bm25 := use_bm25 cfg; gold_position := gold_position cfg;
     num_documents_in_context := num_documents_in_context cfg;
     get_documents_without_answer := get_documents_without_answer cfg;
     num_retrieved_documents := num_retrieved_documents cfg;
     num_random_documents := num_random_documents cfg;
     put_retrieved_first := put_retrieved_first cfg;
     use_corpus_nonsense := use_corpus_nonsense cfg;
     num_main_documents := num_main_documents cfg;
     num_other_documents := num_other_documents cfg;
     put_main_first := put_main_first cfg; use_test := use_test cfg;
     corpus_path := corpus_path cfg; train_data_path := train_data_path cfg;
     test_data_path := test_data_path cfg;
     contriever_results_path := contriever_results_path cfg;
     bm25_results_path := bm25_results_path cfg;
     adore_results_path := adore_results_path cfg;
     random_results_path := random_results_path cfg;
     nonsense_results_path := nonsense_results_path cfg;
     reddit_results_path := reddit_results_path cfg;
     output_dir := output_dir cfg; save_every := save_every cfg |}.

(** A classic configuration: [n] documents in context, the gold position
    and the answer-exclusion flag as given. *)
Definition classic_config (n : Z) (gold : option Z) (without_answer : bool)
    : ExperimentConfig :=
  {| llm_id := llm_id default_config;
     model_max_length := model_max_length default_config;
     device := device default_config; batch_size := batch_size default_config;
     experiment_type := "classic";
     load_full_corpus := true; use_random := false; use_adore := false;
     use_bm25 := false; gold_position := gold;
     num_documents_in_context := n;
     get_documents_without_answer := without_answer;
     num_retrieved_documents := None; num_random_documents := None;
     put_retrieved_first := false; use_corpus_nonsense := false;
     num_main_documents := None; num_other_documents := None;
     put_main_first := false; use_test := false;
     corpus_path := corpus_path default_config;
     train_data_path := train_data_path default_config;
     test_data_path := test_data_path default_config;
     contriever_results_path := contriever_results_path default_config;
     bm25_results_path := bm25_results_path default_config;
     adore_results_path := adore_results_path default_config;
     random_results_path := random_results_path default_config;
     nonsense_results_path := nonsense_results_path default_config;
     reddit_results_path := reddit_results_path default_config;
     output_dir := "out"; save_every := 2 |}.

(** A mixed configuration with the two counts and the ordering flag. *)
Definition mixed_config (n : Z) (retrieved random : option Z) (first : bool)
    : ExperimentConfig :=
  {| llm_id := llm_id default_config;
     model_max_length := model_max_length default_config;
     device := device default_config; batch_size := batch_size default_config;
     experiment_type := "mixed";
     load_full_corpus := true; use_random := false; use_adore := false;
     use_bm25 := false; gold_position := None;
     num_documents_in_context := n;
     get_documents_without_answer := true;
     num_retrieved_documents := retrieved; num_random_documents := random;
     put_retrieved_first := first; use_corpus_nonsense := false;
     num_main_documents := None; num_other_documents := None;
     put_main_first := false; use_test := false;
     corpus_path := corpus_path default_config;
     train_data_path := train_data_path default_config;
     test_data_path := test_data_path default_config;
     contriever_results_path := contriever_results_path default_config;
     bm25_results_path := bm25_results_path default_config;
     adore_results_path := adore_results_path default_config;
     random_results_path := random_results_path default_config;
     nonsense_results_path := nonsense_results_path default_config;
     reddit_results_path := reddit_results_path default_config;
     output_dir := "out"; save_every := 2 |}.

Definition the_llm : LLM :=
  {| llm_model_id := llm_id default_config; llm_device := "cuda";
     quantization_bits := 4; llm_model_max_length := 4096 |}.

(** A manager as [__init__] leaves it for the classic family. *)
Definition classic_manager (cfg : ExperimentConfig) (l : list Z)
    : ExperimentManager :=
  {| config := cfg; llm := the_llm; dataset := [q1];
     corpus := Some corpus3; search_results := Some (ranking l);
     retriever_results := None; random_results := None;
     main_results := None; other_results := None |}.

(** A manager as [__init__] leaves it for the mixed family. *)
Definition mixed_manager (cfg : ExperimentConfig) (l1 l2 : list Z)
    : ExperimentManager :=
  {| config := cfg; llm := the_llm; dataset := [q1];
     corpus := Some corpus3; search_results := None;
     retriever_results := Some (ranking l1);
     random_results := Some (ranking l2);
     main_results := None; other_results := None |}.

(** Five questions, for the only-query family. *)
Definition question_n (n : str) : example :=
  {| example_id := n; question := "Who played " ++ n ++ "?";
     answers := ["Lando Calrissian"]; idx_gold_in_corpus := None |}.

Definition five_questions : list example :=
  question_n <$> ["1"; "2"; "3"; "4"; "5"].

Definition only_query_manager : ExperimentManager :=
  {| config := set_type (classic_config 7 None true) "only_query";
     llm := the_llm; dataset := five_questions;
     corpus := None; search_results := None;
     retriever_results := None; random_results := None;
     main_results := None; other_results := None |}.

(** A generator that echoes the prompt and continues it with one answer. *)
Definition echo_generate (_ : LLM) (prompt : str) : Res str :=
  Ok (prompt ++ " Lando Calrissian").

Definition empty_world : World := {| files := ∅; trace := [] |}.

(** A multi-corpus configuration with the two counts and the ordering
    flag. *)
Definition multi_corpus_config (n : Z) (main other : option Z) (first : bool)
    : ExperimentConfig :=
  {| llm_id := llm_id default_config;
     model_max_length := model_max_length default_config;
     device := device default_config; batch_size := batch_size default_config;
     experiment_type := "multi_corpus";
     load_full_corpus := true; use_random := false; use_adore := false;
     use_bm25 := false; gold_position := None;
     num_documents_in_context := n;
     get_documents_without_answer := true;
     num_retrieved_documents := None; num_random_documents := None;
     put_retrieved_first := false; use_corpus_nonsense := false;
     num_main_documents := main; num_other_documents := other;
     put_main_first := first; use_test := false;
     corpus_path := corpus_path default_config;
     train_data_path := train_data_path default_config;
     test_data_path := test_data_path default_config;
     contriever_results_path := contriever_results_path default_config;
     bm25_results_path := bm25_results_path default_config;
     adore_results_path := adore_results_path default_config;
     random_results_path := random_results_path default_config;
     nonsense_results_path := nonsense_results_path default_config;
     reddit_results_path := reddit_results_path default_config;
     output_dir := "out"; save_every := 2 |}.

Definition multi_corpus_manager (cfg : ExperimentConfig) (l1 l2 : list Z)
    : ExperimentManager :=
  {| config := cfg; llm := the_llm; dataset := [q1];
     corpus := Some corpus3; search_results := None;
     retriever_results := None; random_results := None;
     main_results := Some (ranking l1); other_results := Some (ranking l2) |}.

(** The only-query manager over a given dataset, with a model id. *)
Definition query_manager (model : str) (data : list example)
    : ExperimentManager :=
  {| config :=
       {| llm_id := model;
          model_max_length := 4096; device := "cuda"; batch_size := 32;
          experiment_type := "only_query";
          load_full_corpus := true; use_random := false; use_adore := false;
          use_bm25 := false; gold_position := None;
          num_documents_in_context := 7;
          get_documents_without_answer := true;
          num_retrieved_documents := None; num_random_documents := None;
          put_retrieved_first := false; use_corpus_nonsense := false;
          num_main_documents := None; num_other_documents := None;
          put_main_first := false; use_test := false;
          corpus_path := corpus_path default_config;
          train_data_path := train_data_path default_config;
          test_data_path := test_data_path default_config;
          contriever_results_path := contriever_results_path default_config;
          bm25_results_path := bm25_results_path default_config;
          adore_results_path := adore_results_path default_config;
          random_results_path := random_results_path default_config;
          nonsense_results_path := nonsense_results_path default_config;
          reddit_results_path := reddit_results_path default_config;
          output_dir := "out"; save_every := 2 |};
     llm := the_llm; dataset := data;
     corpus := None; search_results := None;
     retriever_results := None; random_results := None;
     main_results := None; other_results := None |}.

(** A generator that fails on the third question and echoes otherwise. *)
Definition failing_generate (l : LLM) (prompt : str) : Res str :=
  if Py.contains prompt "Who played 3?" then Raise GenerationError
  else echo_generate l prompt.

(** A world that holds the train dataset, the corpus and the contriever
    results under the default paths. *)
Definition data_world : World :=
  {| files :=
       {[ train_data_path default_config := DatasetFile [q1];
          corpus_path default_config := CorpusFile corpus3;
          contriever_results_path default_config
            := SearchResultsFile (ranking [0; 1; 2]) ]};
     trace := [] |}.

(** A file system that refuses nothing. *)
Definition willing (_ : IOEvent) : option Error := None.

(** The classic manager over a store: the ranked list of [q1] is the
    object at position 0. *)
Definition ranked_store (l : list Z) : Store.Store := [Store.Indices l].

Definition store_manager (cfg : ExperimentConfig) : Store.Manager :=
  {| Store.config := cfg; Store.corpus := Some corpus3;
     Store.search_results := Some {[ "q1" := 0%nat ]};
     Store.retriever_results := None; Store.random_results := None;
     Store.main_results := None; Store.other_results := None |}.

End Sample.

(** * Properties *)

(** ** The primitives on small inputs *)

Example slice_to_negative : Py.slice_to [1; 2; 3] (-1) = [1; 2].
Proof. reflexivity. Qed.

Example slice_from_beyond : Py.slice_from [1; 2; 3] 7 = [].
Proof. reflexivity. Qed.

Example index_from_end : Py.index [1; 2; 3] (-1) = Ok 3.
Proof. reflexivity. Qed.

Example index_out_of_range : Py.index [1; 2; 3] 3 = Raise IndexError.
Proof. reflexivity. Qed.

Example find_absent : Py.find "no marker here" "Answer:" = -1.
Proof. reflexivity. Qed.

Example find_first : Py.find "a Answer: b Answer: c" "Answer:" = 2.
Proof. reflexivity. Qed.

(** Offsets count code points: after U+00E9 and U+20AC the marker is at
    offset 3. *)
Example find_code_points :
  Py.find ([0xE9%N; 0x20AC%N] ++ " Answer: x") "Answer:" = 3.
Proof. reflexivity. Qed.

Example strip_both_sides :
  Py.strip (" " ++ nl ++ "Lando  Calrissian " ++ nl) = "Lando  Calrissian".
Proof. reflexivity. Qed.

(** The no-break space and the ideographic space are whitespace. *)
Example strip_unicode_spaces :
  Py.strip ([0xA0%N] ++ "Han" ++ [0x3000%N; 0xA0%N]) = "Han".
Proof. reflexivity. Qed.

Example split_runs : Py.split "  the  answer is " = ["the"; "answer"; "is"].
Proof. reflexivity. Qed.

Example normalize_sentence :
  Normalize.normalize_answer "The answer is   Lando Calrissian!"
  = "answer is lando calrissian".
Proof. reflexivity. Qed.

Example filename_classic :
  results_filename default_config "final"
  = "numdoc7_answerless_results_final.json".
Proof. reflexivity. Qed.

Example path_join_separator :
  path_join "out" "f.json" = "out/f.json"
  ∧ path_join "out/" "f.json" = "out/f.json"
  ∧ path_join [] "f.json" = "f.json".
Proof. by vm_compute. Qed.

(** ** Slices and indexing *)

Lemma slice_bound_nonneg (len : nat) (k : Z) :
  0 ≤ k → Py.slice_bound len k = Z.to_nat k.
Proof.
  intros Hk. unfold Py.slice_bound.
  destruct (Z.ltb_spec k 0); [lia | done].
Qed.

Lemma slice_to_nonneg {A} (l : list A) (k : Z) :
  0 ≤ k → Py.slice_to l k = take (Z.to_nat k) l.
Proof. intros Hk. unfold Py.slice_to. by rewrite slice_bound_nonneg. Qed.

Lemma slice_from_nonneg {A} (l : list A) (k : Z) :
  0 ≤ k → Py.slice_from l k = drop (Z.to_nat k) l.
Proof. intros Hk. unfold Py.slice_from. by rewrite slice_bound_nonneg. Qed.

Lemma slice_to_from {A} (l : list A) (k : Z) :
  Py.slice_to l k ++ Py.slice_from l k = l.
Proof. apply take_drop. Qed.

Lemma slice_to_length {A} (l : list A) (k : Z) :
  0 ≤ k → Z.of_nat (length (Py.slice_to l k)) = Z.min k (Z.of_nat (length l)).
Proof. intros Hk. rewrite slice_to_nonneg, length_take by done. lia. Qed.

Lemma slice_to_length_le {A} (l : list A) (k : Z) :
  0 ≤ k → Z.of_nat (length (Py.slice_to l k)) ≤ k.
Proof. intros Hk. rewrite slice_to_length by done. lia. Qed.

Lemma slice_to_short {A} (l : list A) (k : Z) :
  Z.of_nat (length l) ≤ k → Py.slice_to l k = l.
Proof.
  intros Hk. rewrite slice_to_nonneg by lia. apply take_ge. lia.
Qed.

Lemma index_valid {A} (l : list A) (i : Z) :
  valid_index l i → ∃ a, Py.index l i = Ok a.
Proof.
  unfold valid_index, Py.index. intros [Hlo Hhi].
  set (j := if i <? 0 then Z.of_nat (length l) + i else i).
  assert (0 ≤ j < Z.of_nat (length l)) as Hj.
  { subst j. destruct (Z.ltb_spec i 0); lia. }
  destruct (Z.ltb_spec j 0); [lia|].
  destruct (lookup_lt_is_Some_2 l (Z.to_nat j)) as [a Ha]; [lia|].
  rewrite Ha. by exists a.
Qed.

Lemma resolves_exists (c : list Document) (idxs : list Z) :
  Forall (valid_index c) idxs → ∃ docs, resolves c idxs docs.
Proof.
  induction 1 as [|i idxs Hi _ [docs IH]].
  - exists []. constructor.
  - destruct (index_valid c i Hi) as [d Hd].
    exists (d :: docs). by constructor.
Qed.

Lemma resolves_length (c : list Document) (idxs : list Z) (docs : list Document) :
  resolves c idxs docs → length docs = length idxs.
Proof. intros H. symmetry. by eapply Forall2_length. Qed.

(** ** The gold-document splice *)

Lemma splice_gold_take_drop (l : list Z) (p g : Z) :
  splice_gold l p g
  = take (Py.slice_bound (length l) p) l
    ++ g :: drop (Py.slice_bound (length l) p) l.
Proof. reflexivity. Qed.

Lemma splice_gold_length (l : list Z) (p g : Z) :
  length (splice_gold l p g) = S (length l).
Proof.
  rewrite splice_gold_take_drop, length_app. simpl.
  rewrite length_take, length_drop. lia.
Qed.

(** C8 (amended): in the classic family the gold index is inserted into the
    ranked list without replacing any entry and the list grows by one;
    when [0 <= gold_position <= len(list)] it lands at exactly position
    [gold_position], the entries before it keep their place and those from
    it on move one place to the right; when [gold_position] exceeds the
    length of the list it is appended at the end. *)
Theorem splice_gold_inserts (l : list Z) (p g : Z) :
  length (splice_gold l p g) = S (length l)
  ∧ (∃ k, (k ≤ length l)%nat ∧ splice_gold l p g = take k l ++ g :: drop k l)
  ∧ (0 ≤ p ≤ Z.of_nat (length l) →
       splice_gold l p g !! Z.to_nat p = Some g
       ∧ (∀ i, (i < Z.to_nat p)%nat → splice_gold l p g !! i = l !! i)
       ∧ (∀ i, (Z.to_nat p ≤ i)%nat → splice_gold l p g !! S i = l !! i))
  ∧ (Z.of_nat (length l) < p → splice_gold l p g = l ++ [g]).
Proof.
  split; [apply splice_gold_length|]. split; [|split].
  - exists (Py.slice_bound (length l) p `min` length l)%nat.
    split; [lia|]. rewrite splice_gold_take_drop.
    destruct (Nat.le_ge_cases (Py.slice_bound (length l) p) (length l)) as [H|H].
    + by rewrite Nat.min_l.
    + rewrite Nat.min_r by done.
      by rewrite !take_ge, !drop_ge by lia.
  - intros [Hlo Hhi]. rewrite splice_gold_take_drop, slice_bound_nonneg by done.
    set (n := Z.to_nat p). assert (n ≤ length l)%nat as Hn by lia.
    assert (length (take n l) = n) as Hlen by (rewrite length_take; lia).
    split; [|split].
    + rewrite lookup_app_r by lia. by rewrite Hlen, Nat.sub_diag.
    + intros i Hi. rewrite lookup_app_l by lia. by apply lookup_take_lt.
    + intros i Hi. rewrite lookup_app_r by lia. rewrite Hlen.
      replace (S i - n)%nat with (S (i - n)) by lia. simpl.
      rewrite lookup_drop. f_equal. lia.
  - intros Hp. rewrite splice_gold_take_drop, slice_bound_nonneg by lia.
    by rewrite take_ge, drop_ge by lia.
Qed.

Lemma splice_gold_inserts_witness :
  0 ≤ 1 ≤ Z.of_nat (length [10; 11; 12])
  ∧ splice_gold [10; 11; 12] 1 99 !! Z.to_nat 1 = Some 99.
Proof.
  split; [simpl; lia|].
  destruct (splice_gold_inserts [10; 11; 12] 1 99) as (_ & _ & H & _).
  apply H. simpl. lia.
Defined.

(** C8 fails as stated: with [gold_position = 5] and a ranked list of two
    entries the gold index 99 lands at position 2, and position 5 does not
    exist. *)
Lemma splice_gold_beyond_end :
  splice_gold [10; 11] 5 99 = [10; 11; 99]
  ∧ splice_gold [10; 11] 5 99 !! 5%nat = None
  ∧ splice_gold [10; 11] 5 99 !! 2%nat = Some 99.
Proof. by vm_compute. Qed.

(** ** The loops of the Context Assembler *)

Section Loops.

Variable self : ExperimentManager.
Variable keep : Document → bool.

Let filter_body (documents : list Document) (doc_idx : Z) : Res (list Document) :=
  corpus ← getattr (corpus self);
  doc ← Py.index corpus doc_idx;
  if keep doc then Ok (documents ++ [doc]) else Ok documents.

Lemma filter_loop_resolves (c : list Document) (idxs : list Z)
    (cands acc : list Document) :
  corpus self = Some c → resolves c idxs cands →
  for_each filter_body idxs acc = Ok (acc ++ List.filter keep cands).
Proof.
  intros Hc Hres. revert acc.
  induction Hres as [|i d idxs cands Hd _ IH]; intros acc; cbn [for_each].
  - simpl. by rewrite app_nil_r.
  - assert (filter_body acc i = Ok (if keep d then acc ++ [d] else acc)) as ->.
    { unfold filter_body. rewrite Hc. simpl. rewrite Hd. simpl.
      by destruct (keep d). }
    simpl. rewrite IH. destruct (keep d); [|done].
    by rewrite <- app_assoc.
Qed.

Lemma filter_loop_inv (idxs : list Z) (acc docs : list Document) :
  for_each filter_body idxs acc = Ok docs →
  ∃ cands, length cands = length idxs ∧ docs = acc ++ List.filter keep cands.
Proof.
  revert acc. induction idxs as [|i idxs IH]; intros acc H; simpl in H.
  - exists []. simpl. rewrite app_nil_r. by inversion H.
  - destruct (filter_body acc i) as [acc'|] eqn:Hb; simpl in H; [|done].
    destruct (IH _ H) as (cands & Hlen & ->).
    unfold filter_body in Hb.
    destruct (getattr (corpus self)) as [c|]; simpl in Hb; [|done].
    destruct (Py.index c i) as [d|]; simpl in Hb; [|done].
    exists (d :: cands). split; [simpl; lia|]. simpl.
    destruct (keep d); inversion Hb; subst; [|done].
    by rewrite <- app_assoc.
Qed.

End Loops.

Section LookupLoop.

Variable self : ExperimentManager.

Let lookup_body (documents : list Document) (doc_idx : Z) : Res (list Document) :=
  corpus ← getattr (corpus self);
  doc ← Py.index corpus doc_idx;
  Ok (documents ++ [doc]).

Lemma lookup_documents_resolves (c : list Document) (idxs : list Z)
    (docs : list Document) :
  corpus self = Some c → resolves c idxs docs →
  lookup_documents self idxs = Ok docs.
Proof.
  intros Hc Hres. change (for_each lookup_body idxs [] = Ok docs).
  enough (∀ acc, for_each lookup_body idxs acc = Ok (acc ++ docs)) as H
    by apply (H []).
  induction Hres as [|i d idxs docs Hd _ IH]; intros acc; cbn [for_each].
  - simpl. by rewrite app_nil_r.
  - assert (lookup_body acc i = Ok (acc ++ [d])) as ->.
    { unfold lookup_body. rewrite Hc. simpl. by rewrite Hd. }
    simpl. rewrite IH. by rewrite <- app_assoc.
Qed.

Lemma lookup_documents_length (idxs : list Z) (docs : list Document) :
  lookup_documents self idxs = Ok docs → length docs = length idxs.
Proof.
  change (for_each lookup_body idxs [] = Ok docs → length docs = length idxs).
  enough (∀ acc, for_each lookup_body idxs acc = Ok docs →
                 length docs = (length acc + length idxs)%nat) as H
    by apply (H []).
  induction idxs as [|i idxs IH]; intros acc H; cbn [for_each] in H.
  - inversion H. simpl. lia.
  - destruct (lookup_body acc i) as [acc'|] eqn:Hb; simpl in H; [|done].
    apply IH in H. rewrite H. unfold lookup_body in Hb.
    destruct (getattr (corpus self)) as [c|]; simpl in Hb; [|done].
    destruct (Py.index c i) as [d|]; simpl in Hb; [|done].
    inversion Hb. rewrite length_app. simpl. lia.
Qed.

End LookupLoop.

Lemma filter_length_le {A} (p : A → bool) (l : list A) :
  (length (List.filter p l) ≤ length l)%nat.
Proof. induction l as [|x l IH]; simpl; [done|]. destruct (p x); simpl; lia. Qed.

Lemma filter_all {A} (p : A → bool) (l : list A) :
  Forall (λ x, p x = true) l → List.filter p l = l.
Proof. induction 1 as [|x l Hx _ IH]; simpl; [done|]. by rewrite Hx, IH. Qed.

Lemma filter_none {A} (p : A → bool) (l : list A) :
  Forall (λ x, p x = false) l → List.filter p l = [].
Proof. induction 1 as [|x l Hx _ IH]; simpl; [done|]. by rewrite Hx. Qed.

(** ** The Context Assembler *)

Section Assembler.

Variable is_answer_in_text : str → list str → bool.

Local Abbreviation classic := (_get_classic_documents is_answer_in_text).
Local Abbreviation assemble := (_get_documents is_answer_in_text).
Local Abbreviation kept_by := (keeps is_answer_in_text).

Lemma classic_documents_resolved (self : ExperimentManager) (ex : example)
    (table : SearchResults) (entry : list Z * list Z)
    (indices : list Z) (c cands : list Document) :
  search_results self = Some table →
  table !! example_id ex = Some entry →
  with_gold (config self) ex entry.1 = Ok indices →
  corpus self = Some c →
  resolves c (Py.slice_to indices (num_documents_in_context (config self)))
    cands →
  classic self ex
  = Ok (Py.slice_to
          (List.filter (kept_by (config self) (answers ex)) cands)
          (num_documents_in_context (config self))).
Proof.
  intros Ht He Hg Hc Hres. unfold _get_classic_documents.
  rewrite Ht. simpl. rewrite He. simpl. rewrite Hg. simpl.
  pose proof (filter_loop_resolves self (kept_by (config self) (answers ex))
                c _ cands [] Hc Hres) as Hloop.
  simpl in Hloop. by rewrite Hloop.
Qed.

Lemma classic_documents_inv (self : ExperimentManager) (ex : example)
    (docs : list Document) :
  classic self ex = Ok docs →
  ∃ (indices : list Z) (cands : list Document),
    length cands
    = length (Py.slice_to indices (num_documents_in_context (config self)))
    ∧ docs = Py.slice_to
               (List.filter (kept_by (config self) (answers ex)) cands)
               (num_documents_in_context (config self)).
Proof.
  unfold _get_classic_documents. intros H.
  destruct (getattr (search_results self)) as [table|]; simpl in H; [|done].
  destruct (getitem (table !! example_id ex)) as [entry|]; simpl in H; [|done].
  destruct (with_gold (config self) ex entry.1) as [indices|]; simpl in H;
    [|done].
  match type of H with
  | mbind _ ?loop = _ => destruct loop as [documents|] eqn:Hloop
  end; simpl in H; [|done].
  apply filter_loop_inv in Hloop as (cands & Hlen & ->).
  exists indices, cands. split; [done|]. by inversion H.
Qed.

(** C1 (amended): in the classic family the assembler walks, in order, the
    first N = [num_documents_in_context] entries of the (possibly
    gold-spliced) ranked list and keeps a document only if
    [get_documents_without_answer] is false or [is_answer_in_text] rejects
    its text; it returns exactly the documents kept, hence at most N, and
    all of the first N candidates when the filter is off. Entries after the
    first N are never examined. *)
Theorem classic_documents_first_n (self : ExperimentManager) (ex : example)
    (table : SearchResults) (entry : list Z * list Z)
    (indices : list Z) (c cands : list Document) :
  let n := num_documents_in_context (config self) in
  let kept := List.filter (kept_by (config self) (answers ex)) cands in
  search_results self = Some table →
  table !! example_id ex = Some entry →
  with_gold (config self) ex entry.1 = Ok indices →
  corpus self = Some c →
  0 ≤ n →
  resolves c (take (Z.to_nat n) indices) cands →
  classic self ex = Ok kept
  ∧ Z.of_nat (length kept) ≤ n
  ∧ (get_documents_without_answer (config self) = false → kept = cands)
  ∧ (Z.of_nat (length kept) = n ↔
       n ≤ Z.of_nat (length indices)
       ∧ Forall (λ d, kept_by (config self) (answers ex) d = true) cands).
Proof.
  intros n kept Ht He Hg Hc Hn Hres.
  assert (Z.of_nat (length cands) = Z.min n (Z.of_nat (length indices)))
    as Hlen.
  { rewrite (resolves_length _ _ _ Hres), length_take. lia. }
  assert (length kept ≤ length cands)%nat as Hle by apply filter_length_le.
  split; [|split; [lia|split]].
  - rewrite <- slice_to_nonneg in Hres by done.
    rewrite (classic_documents_resolved _ _ _ _ _ _ _ Ht He Hg Hc Hres).
    f_equal. apply slice_to_short. fold n kept. lia.
  - intros Hoff. apply filter_all, Forall_forall. intros d _.
    unfold keeps. by rewrite Hoff.
  - split.
    + intros Hfull. split; [lia|].
      assert (length kept = length cands) as Heq by lia.
      clear -Heq. subst kept. induction cands as [|d l IH]; [constructor|].
      simpl in Heq. destruct (kept_by _ _ d) eqn:Hd.
      * constructor; [done|]. apply IH. simpl in Heq. lia.
      * pose proof (filter_length_le (kept_by (config self) (answers ex)) l).
        lia.
    + intros [Hlong Hall]. subst kept. rewrite (filter_all _ _ Hall). lia.
Qed.

Lemma two_prefixes_inv (self : ExperimentManager)
    (first second : option SearchResults) (key : str)
    (n1 n2 : option Z) (flag : bool) (docs : list Document) :
  (table ← getattr first;
   entry ← getitem (table !! key);
   let first_indices := slice_to_opt entry.1 n1 in
   table ← getattr second;
   entry ← getitem (table !! key);
   let second_indices := slice_to_opt entry.1 n2 in
   let doc_indices := if flag then first_indices ++ second_indices
                      else second_indices ++ first_indices in
   lookup_documents self doc_indices) = Ok docs →
  ∃ l1 l2 : list Z,
    length docs
    = (length (slice_to_opt l1 n1) + length (slice_to_opt l2 n2))%nat.
Proof.
  intros H.
  destruct (getattr first) as [t1|]; simpl in H; [|done].
  destruct (getitem (t1 !! key)) as [e1|]; simpl in H; [|done].
  destruct (getattr second) as [t2|]; simpl in H; [|done].
  destruct (getitem (t2 !! key)) as [e2|]; simpl in H; [|done].
  apply lookup_documents_length in H. exists e1.1, e2.1.
  rewrite H. destruct flag; rewrite length_app; lia.
Qed.

(** C3 (amended): the list the assembler returns holds at most
    [num_documents_in_context] documents in the classic family; in the
    mixed family it holds at most
    [num_retrieved_documents + num_random_documents] documents and in the
    multi-corpus family at most [num_main_documents + num_other_documents],
    whatever [num_documents_in_context] is (all counts non-negative). *)
Theorem context_size_bounds (self : ExperimentManager) (ex : example)
    (docs : list Document) :
  assemble self ex = Ok docs →
  (experiment_type (config self) = "classic" →
   0 ≤ num_documents_in_context (config self) →
   Z.of_nat (length docs) ≤ num_documents_in_context (config self))
  ∧ (experiment_type (config self) = "mixed" →
     ∀ n1 n2, num_retrieved_documents (config self) = Some n1 →
              num_random_documents (config self) = Some n2 →
              0 ≤ n1 → 0 ≤ n2 → Z.of_nat (length docs) ≤ n1 + n2)
  ∧ (experiment_type (config self) = "multi_corpus" →
     ∀ n1 n2, num_main_documents (config self) = Some n1 →
              num_other_documents (config self) = Some n2 →
              0 ≤ n1 → 0 ≤ n2 → Z.of_nat (length docs) ≤ n1 + n2).
Proof.
  intros H. unfold _get_documents in H. split; [|split].
  - intros Hty Hn. rewrite Hty in H. simpl in H.
    apply classic_documents_inv in H as (indices & cands & _ & ->).
    by apply slice_to_length_le.
  - intros Hty n1 n2 H1 H2 Hn1 Hn2. rewrite Hty in H. simpl in H.
    apply two_prefixes_inv in H as (l1 & l2 & ->).
    rewrite H1, H2. simpl.
    pose proof (slice_to_length_le l1 n1 Hn1).
    pose proof (slice_to_length_le l2 n2 Hn2). lia.
  - intros Hty n1 n2 H1 H2 Hn1 Hn2. rewrite Hty in H. simpl in H.
    apply two_prefixes_inv in H as (l1 & l2 & ->).
    rewrite H1, H2. simpl.
    pose proof (slice_to_length_le l1 n1 Hn1).
    pose proof (slice_to_length_le l2 n2 Hn2). lia.
Qed.

(** C4 (amended): in the mixed family, with non-negative counts, both
    tables holding the example and every selected index in the corpus,
    the assembled context is the documents at the first
    [num_retrieved_documents] entries of the retriever ranking and at the
    first [num_random_documents] entries of the random ranking, retrieved
    first when [put_retrieved_first] and random first otherwise; every one
    of these entries yields a document, whatever its text, so the length
    is min(num_retrieved_documents, available)
    + min(num_random_documents, available). *)
Theorem mixed_documents_order (self : ExperimentManager) (ex : example)
    (t1 t2 : SearchResults) (e1 e2 : list Z * list Z) (c : list Document)
    (n1 n2 : Z) :
  let retrieved := take (Z.to_nat n1) e1.1 in
  let random := take (Z.to_nat n2) e2.1 in
  let order := if put_retrieved_first (config self)
               then retrieved ++ random else random ++ retrieved in
  experiment_type (config self) = "mixed" →
  num_retrieved_documents (config self) = Some n1 →
  num_random_documents (config self) = Some n2 →
  0 ≤ n1 → 0 ≤ n2 →
  retriever_results self = Some t1 → t1 !! example_id ex = Some e1 →
  random_results self = Some t2 → t2 !! example_id ex = Some e2 →
  corpus self = Some c →
  Forall (valid_index c) order →
  ∃ docs, assemble self ex = Ok docs
    ∧ resolves c order docs
    ∧ Z.of_nat (length docs)
      = Z.min n1 (Z.of_nat (length e1.1)) + Z.min n2 (Z.of_nat (length e2.1)).
Proof.
  intros retrieved random order Hty H1 H2 Hn1 Hn2 Ht1 He1 Ht2 He2 Hc Hvalid.
  destruct (resolves_exists c order Hvalid) as [docs Hres].
  exists docs. split; [|split; [done|]].
  - unfold _get_documents, _get_mixed_documents. rewrite Hty. simpl.
    rewrite Ht1. simpl. rewrite He1. simpl. rewrite Ht2. simpl.
    rewrite He2. simpl. rewrite H1, H2. simpl.
    rewrite !slice_to_nonneg by done.
    by apply lookup_documents_resolves with c.
  - rewrite (resolves_length _ _ _ Hres). subst order retrieved random.
    destruct (put_retrieved_first (config self));
      rewrite length_app, !length_take; lia.
Qed.

End Assembler.

(** *** Instances on the sample corpus *)

Lemma classic_documents_first_n_witness :
  _get_classic_documents Normalize.is_answer_in_text
    (Sample.classic_manager (Sample.classic_config 2 None true) [0; 1; 2])
    Sample.q1
  = Ok [Sample.D1].
Proof.
  refine (proj1 (classic_documents_first_n Normalize.is_answer_in_text
    (Sample.classic_manager (Sample.classic_config 2 None true) [0; 1; 2])
    Sample.q1 (Sample.ranking [0; 1; 2]) ([0; 1; 2], []) [0; 1; 2]
    Sample.corpus3 [Sample.D0; Sample.D1] _ _ _ _ _ _)).
  - reflexivity.
  - by vm_compute.
  - reflexivity.
  - reflexivity.
  - simpl. lia.
  - repeat constructor.
Defined.

(** C1 fails as stated: with the filter on and N = 2, the ranked list
    [0, 1, 2] holds two documents that pass the filter (D1 and D2), yet the
    assembler returns D1 alone: it never looks past the first two entries,
    and D0 holds the answer. *)
Lemma classic_documents_stop_early :
  let cfg := Sample.classic_config 2 None true in
  let self := Sample.classic_manager cfg [0; 1; 2] in
  get_documents_without_answer cfg = true
  ∧ num_documents_in_context cfg = 2
  ∧ List.filter (keeps Normalize.is_answer_in_text cfg (answers Sample.q1))
      Sample.corpus3 = [Sample.D1; Sample.D2]
  ∧ _get_documents Normalize.is_answer_in_text self Sample.q1
    = Ok [Sample.D1].
Proof. by vm_compute. Qed.

Lemma context_size_bounds_witness :
  Z.of_nat (length [Sample.D1]) ≤ 2.
Proof.
  destruct (context_size_bounds Normalize.is_answer_in_text
    (Sample.classic_manager (Sample.classic_config 2 None true) [0; 1; 2])
    Sample.q1 [Sample.D1]) as [H _].
  - by vm_compute.
  - apply H; [reflexivity | simpl; lia].
Defined.

(** C3 fails as stated: a valid mixed configuration with
    [num_documents_in_context = 1], one retrieved and one random document
    yields a context of two documents. *)
Lemma context_exceeds_num_documents :
  let cfg := Sample.mixed_config 1 (Some 1) (Some 1) true in
  let self := Sample.mixed_manager cfg [0; 1; 2] [2; 1] in
  validate cfg = Ok tt
  ∧ num_documents_in_context cfg = 1
  ∧ _get_documents Normalize.is_answer_in_text self Sample.q1
    = Ok [Sample.D0; Sample.D2].
Proof. by vm_compute. Qed.

Lemma mixed_documents_order_witness :
  ∃ docs,
    _get_documents Normalize.is_answer_in_text
      (Sample.mixed_manager (Sample.mixed_config 2 (Some 1) (Some 5) false)
         [0; 1; 2] [2; 1])
      Sample.q1 = Ok docs
    ∧ resolves Sample.corpus3 ([2; 1] ++ [0]) docs
    ∧ Z.of_nat (length docs) = Z.min 1 3 + Z.min 5 2.
Proof.
  refine (mixed_documents_order Normalize.is_answer_in_text
    (Sample.mixed_manager (Sample.mixed_config 2 (Some 1) (Some 5) false)
       [0; 1; 2] [2; 1])
    Sample.q1 (Sample.ranking [0; 1; 2]) (Sample.ranking [2; 1])
    ([0; 1; 2], []) ([2; 1], []) Sample.corpus3 1 5 _ _ _ _ _ _ _ _ _ _ _).
  - reflexivity.
  - reflexivity.
  - reflexivity.
  - lia.
  - lia.
  - reflexivity.
  - by vm_compute.
  - reflexivity.
  - by vm_compute.
  - reflexivity.
  - repeat constructor; simpl; lia.
Defined.

(** C4 fails as stated: [validate] accepts a mixed configuration with
    [num_retrieved_documents = -1], for which the slice drops the last
    entry of the retriever ranking instead of taking none: with rankings
    [0, 1, 2] and [2, 1] and one random document the context holds three
    documents, where min(-1, 3) + min(1, 2) is 0. *)
Lemma mixed_documents_negative_count :
  let cfg := Sample.mixed_config 7 (Some (-1)) (Some 1) true in
  let self := Sample.mixed_manager cfg [0; 1; 2] [2; 1] in
  validate cfg = Ok tt
  ∧ _get_documents Normalize.is_answer_in_text self Sample.q1
    = Ok [Sample.D0; Sample.D1; Sample.D2]
  ∧ Z.of_nat (length [Sample.D0; Sample.D1; Sample.D2])
    ≠ Z.min (-1) (Z.of_nat (length [0; 1; 2]))
      + Z.min 1 (Z.of_nat (length [2; 1])).
Proof. by vm_compute. Qed.

(** The scenario of the specification: ranking [2, 0, 1], two documents in
    context, no gold splice, no filter. *)
Example assemble_scenario :
  _get_documents Normalize.is_answer_in_text
    (Sample.classic_manager (Sample.classic_config 2 None false) [2; 0; 1])
    Sample.q1
  = Ok [Sample.D2; Sample.D0].
Proof. by vm_compute. Qed.

(** ** The assembler over the store *)

Lemma store_bind_ok {A B} (m : Store.M A) (f : A → Store.M B)
    (σ σ' : Store.Store) (a : A) :
  m σ = (σ', Ok a) → (m ≫= f) σ = f a σ'.
Proof. intros H. unfold mbind, Store.M_bind. by rewrite H. Qed.

Lemma store_bind_raise {A B} (m : Store.M A) (f : A → Store.M B)
    (σ σ' : Store.Store) (e : Error) :
  m σ = (σ', Raise e) → (m ≫= f) σ = (σ', Raise e).
Proof. intros H. unfold mbind, Store.M_bind. by rewrite H. Qed.

Lemma store_indices_of (σ : Store.Store) (r : Store.ref) (l : list Z) :
  σ !! r = Some (Store.Indices l) → Store.indices_of r σ = (σ, Ok l).
Proof. intros H. unfold Store.indices_of. by rewrite H. Qed.

Lemma store_concat (σ : Store.Store) (a b : Store.ref) (l1 l2 : list Z) :
  σ !! a = Some (Store.Indices l1) → σ !! b = Some (Store.Indices l2) →
  Store.concat a b σ = (σ ++ [Store.Indices (l1 ++ l2)], Ok (length σ)).
Proof.
  intros Ha Hb. unfold Store.concat.
  rewrite (store_bind_ok _ _ _ _ _ (store_indices_of _ _ _ Ha)).
  by rewrite (store_bind_ok _ _ _ _ _ (store_indices_of _ _ _ Hb)).
Qed.

Lemma store_refines_prefix (σ τ τ' : Store.Store) (r : Res Store.ref)
    (pure : Res (list Document)) :
  σ `prefix_of` τ → store_refines τ τ' r pure → store_refines σ τ' r pure.
Proof. intros Hp [Hp' Hr]. split; [by etrans|done]. Qed.

Lemma store_refines_outcome (σ σ' : Store.Store) (r : Res Store.ref)
    (pure : Res (list Document)) :
  store_refines σ σ' r pure →
  Store.outcome σ' r = pure
  ∧ ∀ τ, σ' `prefix_of` τ → Store.outcome τ r = pure.
Proof.
  intros [_ Hr]. destruct r as [r|e]; simpl.
  - destruct Hr as (docs & Hl & ->). split; [by rewrite Hl|].
    intros τ [ext ->]. by rewrite (lookup_app_l_Some _ _ _ _ Hl).
  - by subst pure.
Qed.

Lemma store_append (σ : Store.Store) (acc : list Document)
    (rest : Store.Store) (doc : Document) :
  Store.append (length σ) doc (σ ++ Store.Documents acc :: rest)
  = (σ ++ Store.Documents (acc ++ [doc]) :: rest, Ok tt).
Proof.
  unfold Store.append. cbv beta. rewrite list_lookup_middle by done.
  by rewrite (insert_app_r_alt σ _ (length σ)), Nat.sub_diag by lia.
Qed.

(** The loop over the store follows the loop over values: the list that
    the values reading accumulates is the object of the store behind
    [documents], and nothing else in the store changes. *)
Lemma store_loop (corpus : option (list Document)) (keep : Document → bool)
    (σ rest : Store.Store) (idxs : list Z) (acc : list Document) :
  let filter_body := λ (documents : list Document) (doc_idx : Z),
    corpus ← getattr corpus;
    doc ← Py.index corpus doc_idx;
    if keep doc then Ok (documents ++ [doc]) else Ok documents in
  let store_body := λ doc_idx : Z,
    corpus ← Store.lift (getattr corpus);
    doc ← Store.lift (Py.index corpus doc_idx);
    if keep doc then Store.append (length σ) doc else mret tt in
  ∃ acc',
    Store.for_each store_body idxs (σ ++ Store.Documents acc :: rest)
    = (σ ++ Store.Documents acc' :: rest,
       match for_each filter_body idxs acc with
       | Ok _ => Ok tt
       | Raise e => Raise e
       end)
    ∧ ∀ docs, for_each filter_body idxs acc = Ok docs → acc' = docs.
Proof.
  intros filter_body store_body. revert acc.
  induction idxs as [|i idxs IH]; intros acc.
  - exists acc. split; [done|]. by intros docs [= <-].
  - cbn [Store.for_each for_each].
    destruct corpus as [c|].
    2: { exists acc. split; [done|]. done. }
    destruct (Py.index c i) as [d|e] eqn:Hd.
    2: { exists acc. split.
         - unfold store_body, filter_body, mbind, Store.M_bind, Store.lift.
           simpl. by rewrite Hd.
         - unfold filter_body. simpl. by rewrite Hd. }
    assert (filter_body acc i = Ok (if keep d then acc ++ [d] else acc))
      as Hpure.
    { unfold filter_body. simpl. rewrite Hd. simpl. by destruct (keep d). }
    assert (store_body i (σ ++ Store.Documents acc :: rest)
            = (σ ++ Store.Documents (if keep d then acc ++ [d] else acc)
                 :: rest, Ok tt)) as Hstore.
    { unfold store_body, mbind, Store.M_bind, Store.lift. simpl.
      rewrite Hd. destruct (keep d); [apply store_append|done]. }
    rewrite Hpure. cbn [mbind Res_bind].
    rewrite (store_bind_ok _ _ _ _ _ Hstore).
    apply IH.
Qed.
(** *** Running the operations on a store with new objects at its end *)

Lemma lookup_ext (σ ext : Store.Store) (k : nat) :
  (σ ++ ext) !! (length σ + k)%nat = ext !! k.
Proof.
  rewrite lookup_app_r by lia. f_equal. lia.
Qed.

Lemma run_lift_ok {A B} (a : A) (f : A → Store.M B) (τ : Store.Store) :
  (Store.lift (Ok a) ≫= f) τ = f a τ.
Proof. reflexivity. Qed.

Lemma run_lift_raise {A B} (e : Error) (f : A → Store.M B) (τ : Store.Store) :
  (Store.lift (Raise e) ≫= f) τ = (τ, Raise e).
Proof. reflexivity. Qed.

Lemma run_mret {A B} (a : A) (f : A → Store.M B) (τ : Store.Store) :
  (mret a ≫= f) τ = f a τ.
Proof. reflexivity. Qed.

Lemma store_bind_assoc {A B C} (m : Store.M A) (f : A → Store.M B)
    (g : B → Store.M C) (τ : Store.Store) :
  ((m ≫= f) ≫= g) τ = (m ≫= λ a, f a ≫= g) τ.
Proof.
  unfold mbind, Store.M_bind. by destruct (m τ) as [τ' [a|e]].
Qed.

Lemma run_new {B} (o : Store.Obj) (f : Store.ref → Store.M B)
    (σ ext : Store.Store) :
  (Store.new o ≫= f) (σ ++ ext)
  = f (length σ + length ext)%nat (σ ++ (ext ++ [o])).
Proof.
  unfold mbind, Store.M_bind, Store.new. by rewrite length_app, app_assoc.
Qed.

Lemma run_new_nil {B} (o : Store.Obj) (f : Store.ref → Store.M B)
    (σ : Store.Store) :
  (Store.new o ≫= f) σ = f (length σ) (σ ++ [o]).
Proof. reflexivity. Qed.

Lemma run_indices_of {B} (r : Store.ref) (l : list Z)
    (f : list Z → Store.M B) (τ : Store.Store) :
  τ !! r = Some (Store.Indices l) →
  (Store.indices_of r ≫= f) τ = f l τ.
Proof. intros H. apply store_bind_ok. by apply store_indices_of. Qed.

Lemma run_slice {B} (g : list Z → list Z) (r : Store.ref) (l : list Z)
    (f : Store.ref → Store.M B) (σ ext : Store.Store) :
  (σ ++ ext) !! r = Some (Store.Indices l) →
  ((l ← Store.indices_of r; Store.new (Store.Indices (g l))) ≫= f) (σ ++ ext)
  = f (length σ + length ext)%nat (σ ++ (ext ++ [Store.Indices (g l)])).
Proof.
  intros H. unfold mbind at 1, Store.M_bind at 1.
  rewrite (run_indices_of _ _ _ _ H). unfold Store.new.
  by rewrite length_app, app_assoc.
Qed.

Lemma run_slice_nil {B} (g : list Z → list Z) (r : Store.ref) (l : list Z)
    (f : Store.ref → Store.M B) (τ : Store.Store) :
  τ !! r = Some (Store.Indices l) →
  ((l ← Store.indices_of r; Store.new (Store.Indices (g l))) ≫= f) τ
  = f (length τ) (τ ++ [Store.Indices (g l)]).
Proof.
  intros H. unfold mbind at 1, Store.M_bind at 1.
  by rewrite (run_indices_of _ _ _ _ H).
Qed.

Lemma run_concat {B} (a b : Store.ref) (l1 l2 : list Z)
    (f : Store.ref → Store.M B) (σ ext : Store.Store) :
  (σ ++ ext) !! a = Some (Store.Indices l1) →
  (σ ++ ext) !! b = Some (Store.Indices l2) →
  (Store.concat a b ≫= f) (σ ++ ext)
  = f (length σ + length ext)%nat (σ ++ (ext ++ [Store.Indices (l1 ++ l2)])).
Proof.
  intros Ha Hb. unfold mbind at 1, Store.M_bind at 1.
  rewrite (store_concat _ _ _ _ _ Ha Hb).
  by rewrite length_app, app_assoc.
Qed.

(** An object of the store [σ ++ ext]: one of [σ], or one of the new
    objects [ext]. *)
Ltac store_lookup :=
  first [ apply lookup_app_l_Some; eassumption
        | rewrite lookup_ext; reflexivity
        | rewrite lookup_ext; apply list_lookup_middle; reflexivity
        | rewrite <- (Nat.add_0_r (length _)), lookup_ext; reflexivity ].

Lemma table_in_inv (σ : Store.Store) (refs : option Store.Table)
    (table : option SearchResults) (key : str) :
  Store.table_in σ refs table →
  (refs = None ∧ table = None)
  ∨ ∃ ht t, refs = Some ht ∧ table = Some t
      ∧ ((ht !! key = None ∧ t !! key = None)
         ∨ ∃ r e, ht !! key = Some r ∧ t !! key = Some e
             ∧ σ !! r = Some (Store.Indices e.1)).
Proof.
  destruct refs as [ht|], table as [t|]; simpl; try done; [|by left].
  intros H. right. exists ht, t. split; [done|]. split; [done|].
  specialize (H key). unfold Store.entry_in in H.
  destruct (ht !! key) as [r|], (t !! key) as [e|]; try done.
  - right. by exists r, e.
  - by left.
Qed.

Lemma table_in_prefix (σ σ' : Store.Store) (refs : option Store.Table)
    (table : option SearchResults) :
  σ `prefix_of` σ' → Store.table_in σ refs table →
  Store.table_in σ' refs table.
Proof.
  intros [ext ->]. destruct refs as [ht|], table as [t|]; simpl; try done.
  intros H key. specialize (H key). unfold Store.entry_in in *.
  destruct (ht !! key) as [r|], (t !! key) as [e|]; try done.
  by apply lookup_app_l_Some.
Qed.

Lemma represents_prefix (σ σ' : Store.Store) (hm : Store.Manager)
    (self : ExperimentManager) :
  σ `prefix_of` σ' → represents σ hm self → represents σ' hm self.
Proof.
  intros Hp (Hcfg & Hc & H1 & H2 & H3 & H4 & H5).
  repeat split; try done; by eapply table_in_prefix.
Qed.

Section StoreAssembler.

Variable is_answer_in_text : str → list str → bool.

(** The part of [_get_classic_documents] after the gold block. *)
Lemma classic_tail (hm : Store.Manager) (ex : example)
    (σ rest : Store.Store) (r : Store.ref) (l : list Z) :
  let n := num_documents_in_context (Store.config hm) in
  let τ := σ ++ Store.Documents [] :: rest in
  τ !! r = Some (Store.Indices l) →
  ∃ τ' out,
    (candidates ← Store.slice_to r n;
     candidates ← Store.indices_of candidates;
     _ ← Store.for_each
           (λ doc_idx,
              corpus ← Store.lift (getattr (Store.corpus hm));
              doc ← Store.lift (Py.index corpus doc_idx);
              if keeps is_answer_in_text (Store.config hm) (answers ex) doc
              then Store.append (length σ) doc else mret tt)
           candidates;
     Store.slice_documents (length σ) n) τ
    = (τ', out)
    ∧ store_refines σ τ' out
        (documents ←
           for_each
             (λ documents doc_idx,
                corpus ← getattr (Store.corpus hm);
                doc ← Py.index corpus doc_idx;
                if keeps is_answer_in_text (Store.config hm) (answers ex) doc
                then Ok (documents ++ [doc]) else Ok documents)
             (Py.slice_to l n) [];
         Ok (Py.slice_to documents n)).
Proof.
  intros n τ Hr. subst τ.
  unfold Store.slice_to.
  rewrite (run_slice (λ l, Py.slice_to l n) _ _ _ _ _ Hr).
  rewrite run_indices_of with (l := Py.slice_to l n) by store_lookup.
  cbn [app].
  match goal with
  | |- context [Store.for_each ?body ?idxs] =>
      destruct (store_loop (Store.corpus hm)
                  (keeps is_answer_in_text (Store.config hm) (answers ex))
                  σ (rest ++ [Store.Indices (Py.slice_to l n)])
                  idxs []) as (acc' & Hrun & Hacc)
  end.
  cbv zeta in Hrun, Hacc.
  match type of Hacc with
  | ∀ docs, ?loop = Ok docs → _ => destruct loop as [docs|e] eqn:Hloop
  end.
  - rewrite (store_bind_ok _ _ _ _ _ Hrun).
    specialize (Hacc docs eq_refl). subst acc'.
    unfold Store.slice_documents, Store.documents_of, Store.new,
      mbind, Store.M_bind.
    rewrite list_lookup_middle by done.
    eexists _, _. split; [reflexivity|]. split.
    + rewrite <- app_assoc. by apply prefix_app_r.
    + exists (Py.slice_to docs n). split; [|done].
      by apply list_lookup_middle.
  - rewrite (store_bind_raise _ _ _ _ _ Hrun).
    eexists _, _. split; [reflexivity|]. split; [|done].
    by apply prefix_app_r.
Qed.

Lemma store_classic_refines (hm : Store.Manager) (self : ExperimentManager)
    (ex : example) (σ : Store.Store) :
  represents σ hm self →
  ∃ σ' out,
    Store._get_classic_documents is_answer_in_text hm ex σ = (σ', out)
    ∧ store_refines σ σ' out
        (_get_classic_documents is_answer_in_text self ex).
Proof.
  intros (Hcfg & Hc & Ht & _).
  unfold Store._get_classic_documents, _get_classic_documents.
  rewrite <- Hcfg, <- Hc.
  destruct (table_in_inv _ _ _ (example_id ex) Ht)
    as [[-> ->]|(ht & t & -> & -> & Hkey)].
  { eexists _, _. split; [reflexivity|]. by split. }
  cbn [getattr]. rewrite run_lift_ok. cbn [mbind Res_bind].
  destruct Hkey as [[-> ->]|(r & e & -> & -> & Hr)].
  - eexists _, _. split; [reflexivity|]. by split.
  - cbn [getitem]. rewrite run_lift_ok. cbn [mbind Res_bind].
    rewrite run_new_nil.
    unfold with_gold.
    destruct (gold_position (Store.config hm)) as [p|].
    + destruct (idx_gold_in_corpus ex) as [g|]; cbn [getitem].
      * rewrite store_bind_assoc, run_lift_ok.
        rewrite store_bind_assoc. unfold Store.slice_to at 1.
        rewrite (run_slice (λ l, Py.slice_to l p) r e.1)
          by store_lookup.
        rewrite store_bind_assoc, run_new.
        rewrite store_bind_assoc.
        rewrite run_concat
          with (l1 := Py.slice_to e.1 p) (l2 := [g]) by store_lookup.
        rewrite store_bind_assoc. unfold Store.slice_from at 1.
        rewrite (run_slice (λ l, Py.slice_from l p) r e.1)
          by store_lookup.
        rewrite run_concat
          with (l1 := Py.slice_to e.1 p ++ [g]) (l2 := Py.slice_from e.1 p)
          by store_lookup.
        cbn [app length]. cbn [mbind Res_bind]. unfold splice_gold.
        rewrite (app_assoc (Py.slice_to e.1 p)).
        apply classic_tail. store_lookup.
      * rewrite store_bind_assoc, run_lift_raise.
        eexists _, _. split; [reflexivity|]. split; [|done].
        by apply prefix_app_r.
    + rewrite run_mret. cbn [mbind Res_bind].
      apply classic_tail. store_lookup.
Qed.

(** The part shared by [_get_mixed_documents] and
    [_get_multi_corpus_documents] once both prefixes are cut. *)
Lemma lookup_tail (hm : Store.Manager) (self : ExperimentManager)
    (τ : Store.Store) (a b : Store.ref) (la lb : list Z) :
  Store.corpus hm = corpus self →
  τ !! a = Some (Store.Indices la) → τ !! b = Some (Store.Indices lb) →
  ∃ τ' out,
    (documents ← Store.new (Store.Documents []);
     doc_indices ← Store.concat a b;
     Store.lookup_documents hm documents doc_indices) τ
    = (τ', out)
    ∧ store_refines τ τ' out (lookup_documents self (la ++ lb)).
Proof.
  intros Hc Ha Hb. rewrite run_new_nil.
  rewrite <- (Nat.add_0_r (length τ)).
  rewrite (run_concat a b la lb _ τ [Store.Documents []])
    by (by apply lookup_app_l_Some).
  cbn [app length]. unfold Store.lookup_documents.
  rewrite run_indices_of with (l := la ++ lb) by store_lookup.
  rewrite Nat.add_0_r.
  destruct (store_loop (Store.corpus hm) (λ _, true) τ
              [Store.Indices (la ++ lb)] (la ++ lb) [])
    as (acc' & Hrun & Hacc).
  cbv beta iota zeta in Hrun, Hacc.
  unfold lookup_documents. rewrite <- Hc.
  match type of Hacc with
  | ∀ docs, ?loop = Ok docs → _ => destruct loop as [docs|e] eqn:Hloop
  end.
  - rewrite (store_bind_ok _ _ _ _ _ Hrun).
    specialize (Hacc docs eq_refl). subst acc'.
    eexists _, _. split; [reflexivity|]. split.
    + by apply prefix_app_r.
    + exists docs. split; [|done]. by apply list_lookup_middle.
  - rewrite (store_bind_raise _ _ _ _ _ Hrun).
    eexists _, _. split; [reflexivity|]. split; [|done].
    by apply prefix_app_r.
Qed.

Lemma store_two_prefixes (hm : Store.Manager) (self : ExperimentManager)
    (σ : Store.Store) (refs1 refs2 : option Store.Table)
    (t1 t2 : option SearchResults) (key : str) (n1 n2 : option Z)
    (flag : bool) :
  Store.corpus hm = corpus self →
  Store.table_in σ refs1 t1 → Store.table_in σ refs2 t2 →
  ∃ σ' out,
    (table ← Store.lift (getattr refs1);
     entry ← Store.lift (getitem (table !! key));
     first_indices ← Store.slice_to_opt entry n1;
     table ← Store.lift (getattr refs2);
     entry ← Store.lift (getitem (table !! key));
     second_indices ← Store.slice_to_opt entry n2;
     documents ← Store.new (Store.Documents []);
     doc_indices ←
       (if flag then Store.concat first_indices second_indices
        else Store.concat second_indices first_indices);
     Store.lookup_documents hm documents doc_indices) σ
    = (σ', out)
    ∧ store_refines σ σ' out
        (table ← getattr t1;
         entry ← getitem (table !! key);
         let first_indices := slice_to_opt entry.1 n1 in
         table ← getattr t2;
         entry ← getitem (table !! key);
         let second_indices := slice_to_opt entry.1 n2 in
         let doc_indices := if flag then first_indices ++ second_indices
                            else second_indices ++ first_indices in
         lookup_documents self doc_indices).
Proof.
  intros Hc H1 H2.
  destruct (table_in_inv _ _ _ key H1)
    as [[-> ->]|(ht1 & t1' & -> & -> & Hkey1)].
  { eexists _, _. split; [reflexivity|]. by split. }
  cbn [getattr]. rewrite run_lift_ok. cbn [mbind Res_bind].
  destruct Hkey1 as [[-> ->]|(r1 & e1 & -> & -> & Hr1)].
  { eexists _, _. split; [reflexivity|]. by split. }
  cbn [getitem]. rewrite run_lift_ok. cbn [mbind Res_bind].
  unfold Store.slice_to_opt at 1.
  rewrite (run_slice_nil (λ l, slice_to_opt l n1) r1 e1.1) by done.
  set (first := slice_to_opt e1.1 n1).
  destruct (table_in_inv _ _ _ key H2)
    as [[-> ->]|(ht2 & t2' & -> & -> & Hkey2)].
  { eexists _, _. split; [reflexivity|]. split; [|done].
    by apply prefix_app_r. }
  cbn [getattr]. rewrite run_lift_ok. cbn [mbind Res_bind].
  destruct Hkey2 as [[-> ->]|(r2 & e2 & -> & -> & Hr2)].
  { eexists _, _. split; [reflexivity|]. split; [|done].
    by apply prefix_app_r. }
  cbn [getitem]. rewrite run_lift_ok. cbn [mbind Res_bind].
  rewrite (run_slice (λ l, slice_to_opt l n2) r2 e2.1) by store_lookup.
  cbn [app length]. cbv zeta.
  set (second := slice_to_opt e2.1 n2).
  set (τ := σ ++ [Store.Indices first; Store.Indices second]).
  assert (σ `prefix_of` τ) as Hp by (by apply prefix_app_r).
  assert (τ !! (length σ) = Some (Store.Indices first)) as Hfirst.
  { subst τ. by apply list_lookup_middle. }
  assert (τ !! (length σ + 1)%nat = Some (Store.Indices second)) as Hsecond.
  { subst τ. by rewrite lookup_ext. }
  destruct flag.
  - destruct (lookup_tail hm self τ _ _ _ _ Hc Hfirst Hsecond)
      as (τ' & out & Hrun & Href).
    exists τ', out. split; [|by eapply store_refines_prefix].
    rewrite <- Hrun. reflexivity.
  - destruct (lookup_tail hm self τ _ _ _ _ Hc Hsecond Hfirst)
      as (τ' & out & Hrun & Href).
    exists τ', out. split; [|by eapply store_refines_prefix].
    rewrite <- Hrun. reflexivity.
Qed.

(** The assembler over the store computes what the assembler over values
    computes, and leaves the store it started from as it was, with new
    objects after it. *)
Lemma store_assemble_refines (hm : Store.Manager) (self : ExperimentManager)
    (ex : example) (σ : Store.Store) :
  represents σ hm self →
  ∃ σ' out,
    Store._get_documents is_answer_in_text hm ex σ = (σ', out)
    ∧ store_refines σ σ' out (_get_documents is_answer_in_text self ex).
Proof.
  intros Hrep. pose proof Hrep as (Hcfg & Hc & Hs & Hr & Hrand & Hm & Ho).
  unfold Store._get_documents, _get_documents. rewrite <- Hcfg.
  destruct (bool_decide (experiment_type (Store.config hm) = "classic")).
  { by apply store_classic_refines. }
  destruct (bool_decide (experiment_type (Store.config hm) = "mixed")).
  - unfold Store._get_mixed_documents, _get_mixed_documents.
    rewrite <- Hcfg. by apply store_two_prefixes.
  - unfold Store._get_multi_corpus_documents, _get_multi_corpus_documents.
    rewrite <- Hcfg. by apply store_two_prefixes.
Qed.

(** C9: the Context Assembler is deterministic. With its lists kept as
    objects of a store, a call on a loaded manager changes no object that
    was there before it, so the corpus and the retrieval tables are what
    they were; a second call on the same example, run on the store that
    the first one left, returns a list equal to the first one (or raises
    the same exception), and the list of the first call is still what it
    was. Both are what the assembler computes from the configuration, the
    example, the corpus and the tables as values. *)
Theorem assemble_twice (hm : Store.Manager) (self : ExperimentManager)
    (ex : example) (σ σ1 σ2 : Store.Store) (r1 r2 : Res Store.ref) :
  represents σ hm self →
  Store._get_documents is_answer_in_text hm ex σ = (σ1, r1) →
  Store._get_documents is_answer_in_text hm ex σ1 = (σ2, r2) →
  σ `prefix_of` σ1 ∧ σ1 `prefix_of` σ2
  ∧ represents σ1 hm self
  ∧ Store.outcome σ1 r1 = _get_documents is_answer_in_text self ex
  ∧ Store.outcome σ2 r2 = Store.outcome σ1 r1
  ∧ Store.outcome σ2 r1 = Store.outcome σ1 r1.
Proof.
  intros Hrep Hrun1 Hrun2.
  destruct (store_assemble_refines hm self ex σ Hrep)
    as (σ1' & r1' & Heq1 & Href1).
  rewrite Hrun1 in Heq1. injection Heq1 as <- <-.
  pose proof (proj1 Href1) as Hp1.
  pose proof (represents_prefix _ _ _ _ Hp1 Hrep) as Hrep1.
  destruct (store_assemble_refines hm self ex σ1 Hrep1)
    as (σ2' & r2' & Heq2 & Href2).
  rewrite Hrun2 in Heq2. injection Heq2 as <- <-.
  pose proof (proj1 Href2) as Hp2.
  destruct (store_refines_outcome _ _ _ _ Href1) as [Hout1 Hstable1].
  destruct (store_refines_outcome _ _ _ _ Href2) as [Hout2 _].
  do 4 (split; [done|]). split.
  - by rewrite Hout2, Hout1.
  - by rewrite (Hstable1 σ2 Hp2), Hout1.
Qed.

End StoreAssembler.

Lemma assemble_twice_witness :
  let hm := Sample.store_manager (Sample.classic_config 2 (Some 1) false) in
  let σ := Sample.ranked_store [1; 2] in
  ∃ σ1 σ2 r1 r2,
    Store._get_documents Normalize.is_answer_in_text hm Sample.q1 σ = (σ1, r1)
    ∧ Store._get_documents Normalize.is_answer_in_text hm Sample.q1 σ1
      = (σ2, r2)
    ∧ take 1 σ2 = σ
    ∧ Store.outcome σ1 r1 = Ok [Sample.D1; Sample.D0]
    ∧ Store.outcome σ2 r2 = Store.outcome σ1 r1.
Proof.
  intros hm σ.
  eexists _, _, _, _. split; [vm_compute; reflexivity|].
  split; [vm_compute; reflexivity|].
  split; [reflexivity|]. split; [reflexivity|].
  refine (proj1 (proj2 (proj2 (proj2 (proj2
    (assemble_twice Normalize.is_answer_in_text hm
       (Sample.classic_manager (Sample.classic_config 2 (Some 1) false)
          [1; 2])
       Sample.q1 σ _ _ _ _ _ _ _)))))).
  - repeat split; try done. intros key. unfold Store.entry_in.
    destruct (decide (key = "q1")) as [->|Hne].
    + by vm_compute.
    + subst hm. simpl. unfold Sample.ranking.
      by rewrite !lookup_singleton_ne.
  - by vm_compute.
  - by vm_compute.
Defined.
(** ** Strings: occurrences and slices *)

Lemma startswith_spec (s sub : str) :
  Py.startswith s sub = true ↔ ∃ post, s = sub ++ post.
Proof.
  revert s. induction sub as [|a sub IH]; intros s.
  - split; [intros _; by exists s|by destruct s].
  - destruct s as [|b s]; simpl.
    + split; [done|]. by intros [post Hp].
    + destruct (N.eqb_spec a b) as [->|Hne].
      * rewrite IH. split; intros [post Hp]; exists post.
        -- by rewrite Hp.
        -- by inversion Hp.
      * split; [done|]. intros [post Hp]. by inversion Hp.
Qed.

Lemma first_occurrence_unfold (s sub : str) :
  Py.first_occurrence s sub
  = if Py.startswith s sub then Some 0%nat
    else match s with
         | [] => None
         | _ :: s' => S <$> Py.first_occurrence s' sub
         end.
Proof. by destruct s. Qed.

Lemma first_occurrence_Some (s sub : str) (i : nat) :
  Py.first_occurrence s sub = Some i →
  ∃ pre post, length pre = i ∧ first_split s sub pre post.
Proof.
  revert i. induction s as [|a s IH]; intros i; rewrite first_occurrence_unfold.
  - destruct (Py.startswith [] sub) eqn:Hs; [|done].
    intros [= <-]. apply startswith_spec in Hs as [post Hp].
    exists [], post. split; [done|]. split; [done|]. intros; simpl; lia.
  - destruct (Py.startswith (a :: s) sub) eqn:Hs.
    + intros [= <-]. apply startswith_spec in Hs as [post Hp].
      exists [], post. split; [done|]. split; [done|]. intros; simpl; lia.
    + destruct (Py.first_occurrence s sub) as [j|]; [|done].
      intros [= <-]. destruct (IH j eq_refl) as (pre & post & Hlen & Heq & Hmin).
      exists (a :: pre), post. split; [by simpl; rewrite Hlen|].
      split; [by simpl; rewrite <- Heq|].
      intros [|b pre'] post' Heq'.
      * assert (Py.startswith (a :: s) sub = true) as Hs'
          by (apply startswith_spec; by exists post').
        congruence.
      * simpl in Heq'. inversion Heq' as [[Hb Hs']].
        apply Hmin in Hs'. simpl. lia.
Qed.

Lemma first_occurrence_None (s sub : str) :
  Py.first_occurrence s sub = None → ¬ is_substring sub s.
Proof.
  induction s as [|a s IH]; rewrite first_occurrence_unfold.
  - destruct (Py.startswith [] sub) eqn:Hs; [done|].
    intros _ ([|b pre] & post & Heq); [|done].
    assert (Py.startswith [] sub = true) by (apply startswith_spec; eauto).
    congruence.
  - destruct (Py.startswith (a :: s) sub) eqn:Hs; [done|].
    destruct (Py.first_occurrence s sub); [done|].
    intros _ ([|b pre] & post & Heq).
    + assert (Py.startswith (a :: s) sub = true)
        by (apply startswith_spec; eauto).
      congruence.
    + simpl in Heq. inversion Heq as [[Hb Hs']].
      apply IH; [done|]. by exists pre, post.
Qed.

Lemma first_split_occurrence (s sub pre post : str) :
  first_split s sub pre post →
  Py.first_occurrence s sub = Some (length pre).
Proof.
  intros [Heq Hmin].
  destruct (Py.first_occurrence s sub) as [i|] eqn:Hf.
  - apply first_occurrence_Some in Hf as (pre0 & post0 & <- & Heq0 & Hmin0).
    f_equal. apply Hmin in Heq0. apply Hmin0 in Heq. lia.
  - apply first_occurrence_None in Hf. destruct Hf. by exists pre, post.
Qed.

Lemma occurrence_first_split (s sub pre post : str) :
  s = pre ++ sub ++ post →
  Py.first_occurrence s sub = Some (length pre) →
  first_split s sub pre post.
Proof.
  intros Heq Hf. split; [done|]. intros pre' post' Heq'.
  apply first_occurrence_Some in Hf as (pre0 & post0 & <- & _ & Hmin0).
  by eapply Hmin0.
Qed.

Lemma contains_spec (s sub : str) :
  Py.contains s sub = true ↔ is_substring sub s.
Proof.
  unfold Py.contains.
  destruct (Py.first_occurrence s sub) as [i|] eqn:Hf.
  - split; [intros _|done].
    apply first_occurrence_Some in Hf as (pre & post & _ & Heq & _).
    by exists pre, post.
  - split; [done|]. intros H. by apply first_occurrence_None in Hf.
Qed.

Lemma slice_after_first (s sub pre post : str) :
  first_split s sub pre post →
  Py.slice_from s (Py.find s sub + Py.len sub) = post.
Proof.
  intros Hsplit. unfold Py.find.
  rewrite (first_split_occurrence _ _ _ _ Hsplit).
  destruct Hsplit as [-> _].
  unfold Py.slice_from, Py.len. rewrite slice_bound_nonneg by lia.
  replace (Z.to_nat (Z.of_nat (length pre) + Z.of_nat (length sub)))
    with (length (pre ++ sub)) by (rewrite length_app; lia).
  by rewrite app_assoc, drop_app_length.
Qed.

(** ** Whitespace *)

(** [Py.isspace] holds of the 29 whitespace code points and of no
    other. *)
Lemma isspace_spec (c : char) : Py.isspace c = true ↔ c ∈ whitespace.
Proof.
  split.
  - unfold Py.isspace. intros H.
    assert (c ≤ 0x3000)%N as Hle.
    { repeat (apply orb_prop in H as [H|H]);
        repeat match type of H with
        | (_ && _) = true => apply andb_prop in H as [? H]
        | (_ <=? _)%N = true => apply N.leb_le in H
        | (_ =? _)%N = true => apply N.eqb_eq in H
        end; lia. }
    assert (forallb (λ n, Bool.eqb (Py.isspace (N.of_nat n))
                            (bool_decide (N.of_nat n ∈ whitespace)))
              (seq 0 0x3001) = true) as Hall by (by vm_compute).
    rewrite forallb_forall in Hall. specialize (Hall (N.to_nat c)).
    rewrite N2Nat.id in Hall. fold (Py.isspace c) in H. rewrite H in Hall.
    specialize (Hall ltac:(apply in_seq; lia)).
    apply Bool.eqb_prop in Hall. symmetry in Hall.
    by apply bool_decide_eq_true in Hall.
  - unfold whitespace. intros H.
    repeat (apply elem_of_cons in H as [->|H]; [reflexivity|]).
    by apply elem_of_nil in H.
Qed.

Lemma rstrip_cons_nonspace (c : char) (s : str) :
  Py.isspace c = false → Py.rstrip (c :: s) = c :: Py.rstrip s.
Proof. intros Hc. simpl. rewrite Hc. by destruct (Py.rstrip s). Qed.

Lemma rstrip_cons_nonempty (c : char) (s : str) :
  Py.rstrip s ≠ [] → Py.rstrip (c :: s) = c :: Py.rstrip s.
Proof. intros Hs. simpl. by destruct (Py.rstrip s). Qed.

Lemma rstrip_app_nonspace (a b : str) (c : char) :
  Py.isspace c = false →
  Py.rstrip (a ++ c :: b) = a ++ c :: Py.rstrip b.
Proof.
  intros Hc. induction a as [|x a IH].
  - by apply rstrip_cons_nonspace.
  - cbn [app]. rewrite rstrip_cons_nonempty; [by rewrite IH|].
    rewrite IH. by destruct a.
Qed.

Lemma rstrip_idemp (s : str) : Py.rstrip (Py.rstrip s) = Py.rstrip s.
Proof.
  induction s as [|c s IH]; [done|]. simpl.
  destruct (Py.rstrip s) as [|x r] eqn:Hr.
  - destruct (Py.isspace c) eqn:Hc; [done|]. simpl. by rewrite Hc.
  - rewrite rstrip_cons_nonempty; by rewrite IH.
Qed.

Lemma lstrip_head (s : str) :
  Py.lstrip s = []
  ∨ ∃ c s', Py.lstrip s = c :: s' ∧ Py.isspace c = false.
Proof.
  induction s as [|c s IH]; [by left|]. simpl.
  destruct (Py.isspace c) eqn:Hc; [done|]. right. by exists c, s.
Qed.

Lemma strip_idemp (s : str) : Py.strip (Py.strip s) = Py.strip s.
Proof.
  unfold Py.strip.
  destruct (lstrip_head s) as [->|(c & s' & -> & Hc)]; [done|].
  rewrite rstrip_cons_nonspace by done. simpl. rewrite Hc.
  rewrite <- (rstrip_cons_nonspace c s' Hc). apply rstrip_idemp.
Qed.

(** What [lstrip] removes is whitespace, and so is what [rstrip]
    removes; what [rstrip] leaves does not end with whitespace. *)
Lemma lstrip_spec (s : str) :
  ∃ l, s = l ++ Py.lstrip s ∧ Forall (λ c, Py.isspace c = true) l.
Proof.
  induction s as [|c s (l & Hs & Hl)]; [by exists []|]. simpl.
  destruct (Py.isspace c) eqn:Hc.
  - exists (c :: l). split; [by rewrite Hs at 1|by constructor].
  - by exists [].
Qed.

Lemma rstrip_spec (s : str) :
  ∃ r, s = Py.rstrip s ++ r ∧ Forall (λ c, Py.isspace c = true) r.
Proof.
  induction s as [|c s (r & Hs & Hr)]; [by exists []|]. simpl.
  destruct (Py.rstrip s) as [|x t] eqn:Ht.
  - destruct (Py.isspace c) eqn:Hc.
    + exists (c :: r). simpl in Hs. split; [by rewrite Hs at 1|by constructor].
    + exists r. simpl in *. by rewrite Hs at 1.
  - exists r. split; [|done]. simpl. by rewrite Hs at 1.
Qed.

Lemma rstrip_last (s t : str) (c : char) :
  Py.rstrip s = t ++ [c] → Py.isspace c = false.
Proof.
  revert t. induction s as [|x s IH]; intros t; simpl.
  - by destruct t.
  - destruct (Py.rstrip s) as [|y r] eqn:Hr.
    + destruct (Py.isspace x) eqn:Hx; [by destruct t|].
      destruct t as [|z [|z' t]]; [|done..]. by intros [= <-].
    + destruct t as [|z t]; [done|]. intros [= <- Ht]. by eapply IH.
Qed.

(** [strip] removes whitespace, and nothing else, from both ends, and
    leaves no whitespace at either end. *)
Lemma strip_spec (s : str) :
  (∃ l r, s = l ++ Py.strip s ++ r
          ∧ Forall (λ c, c ∈ whitespace) l ∧ Forall (λ c, c ∈ whitespace) r)
  ∧ (∀ c rest, Py.strip s = c :: rest → c ∉ whitespace)
  ∧ (∀ c rest, Py.strip s = rest ++ [c] → c ∉ whitespace).
Proof.
  split; [|split].
  - destruct (lstrip_spec s) as (l & Hl & Hspace).
    destruct (rstrip_spec (Py.lstrip s)) as (r & Hr & Hspace').
    exists l, r. unfold Py.strip. rewrite <- Hr.
    split; [done|].
    split; (eapply Forall_impl; [eassumption|]); intros c Hc;
      by apply isspace_spec.
  - intros c rest H Hin. apply isspace_spec in Hin. unfold Py.strip in H.
    destruct (lstrip_head s) as [Hl|(x & s' & Hl & Hx)];
      rewrite Hl in H; [done|].
    rewrite rstrip_cons_nonspace in H by done. inversion H; subst.
    congruence.
  - intros c rest H Hin. apply isspace_spec in Hin.
    apply rstrip_last in H. congruence.
Qed.

(** ** Answer extraction *)

(** C2 (amended): the generated answer is the text after the first
    occurrence of the marker "Answer:" in the raw response, with the
    surrounding whitespace stripped; when "Answer:" does not occur and
    "### Response:" does, it is the stripped text after the first
    occurrence of "### Response:". Stripped: what is removed at either
    end is whitespace only, and what remains neither starts nor ends
    with whitespace. *)
Theorem generated_answer_first_marker (response pre post : str) :
  (first_split response "Answer:" pre post →
   generated_answer response = Py.strip post)
  ∧ (¬ is_substring "Answer:" response →
     first_split response "### Response:" pre post →
     generated_answer response = Py.strip post)
  ∧ (∃ l r, post = l ++ Py.strip post ++ r
            ∧ Forall (λ c, c ∈ whitespace) l
            ∧ Forall (λ c, c ∈ whitespace) r)
  ∧ (∀ c rest, Py.strip post = c :: rest → c ∉ whitespace)
  ∧ (∀ c rest, Py.strip post = rest ++ [c] → c ∉ whitespace).
Proof.
  split; [|split; [|apply strip_spec]].
  - intros Hsplit. unfold generated_answer, answer_start.
    assert (Py.contains response "Answer:" = true) as ->.
    { apply contains_spec. destruct Hsplit as [-> _]. by exists pre, post. }
    by rewrite (slice_after_first _ _ _ _ Hsplit).
  - intros Hno Hsplit. unfold generated_answer, answer_start.
    assert (Py.contains response "Answer:" = false) as ->.
    { apply not_true_is_false. by rewrite contains_spec. }
    by rewrite (slice_after_first _ _ _ _ Hsplit).
Qed.

(** The text after the first marker, between a no-break space and an
    ideographic space. *)
Lemma generated_answer_first_marker_witness :
  generated_answer
    ("Question: who? Answer:" ++ [0xA0%N] ++ "Lando  Answer: Han"
     ++ [0x3000%N])
  = "Lando  Answer: Han".
Proof.
  refine (proj1 (generated_answer_first_marker
    ("Question: who? Answer:" ++ [0xA0%N] ++ "Lando  Answer: Han"
     ++ [0x3000%N])
    "Question: who? "
    ([0xA0%N] ++ "Lando  Answer: Han" ++ [0x3000%N])) _).
  by apply occurrence_first_split.
Defined.

(** C2 fails as stated: with two markers the code answers with the text
    after the first one, not the last; without a marker it answers with the
    response from offset 12 on, counted in code points, not with the
    empty string. *)
Lemma generated_answer_not_last_marker :
  generated_answer "Answer: Lando Answer: Han" = "Lando Answer: Han"
  ∧ spec_generated_answer "Answer: Lando Answer: Han" = " Han"
  ∧ Py.contains "I do not know it" "Answer:" = false
  ∧ Py.contains "I do not know it" "### Response:" = false
  ∧ generated_answer "I do not know it" = "w it"
  ∧ generated_answer ([0xE9%N; 0x20AC%N] ++ " do not know it") = "ow it"
  ∧ spec_generated_answer "I do not know it" = [].
Proof. by vm_compute. Qed.

(** ** Validation *)

Lemma validate_outcome (cfg : ExperimentConfig) :
  (validate cfg = Ok tt ∧ ¬ invalid cfg)
  ∨ (∃ msg, validate cfg = Raise (ValueError msg)) ∧ invalid cfg.
Proof.
  unfold validate, invalid.
  destruct (decide (experiment_type cfg ∈ experiment_types)) as [Hin|Hout].
  2: { right. rewrite (bool_decide_false _ Hout). simpl. split; eauto. }
  rewrite (bool_decide_true _ Hin). simpl.
  destruct (decide (experiment_type cfg = "mixed")) as [Hmixed|Hmixed].
  - rewrite (bool_decide_true _ Hmixed).
    assert (experiment_type cfg ≠ "multi_corpus") as Hmulti
      by (by rewrite Hmixed).
    rewrite (bool_decide_false _ Hmulti).
    destruct (num_retrieved_documents cfg), (num_random_documents cfg); simpl;
      first [ left; split; [done|];
              intros [?|[[_ [?|?]]|[? _]]]; congruence
            | right; split; eauto ].
  - rewrite (bool_decide_false _ Hmixed). simpl.
    destruct (decide (experiment_type cfg = "multi_corpus")) as [Hmulti|Hmulti].
    + rewrite (bool_decide_true _ Hmulti).
      destruct (num_main_documents cfg), (num_other_documents cfg); simpl;
        first [ left; split; [done|];
                intros [?|[[? _]|[_ [?|?]]]]; congruence
              | right; split; eauto ].
    + rewrite (bool_decide_false _ Hmulti). left. split; [done|].
      intros [?|[[? _]|[? _]]]; congruence.
Qed.

(** C5: [validate] raises its configuration error (a [ValueError]) exactly
    when the experiment type is none of the four tags, or it is mixed with
    [num_retrieved_documents] or [num_random_documents] unset, or it is
    multi_corpus with [num_main_documents] or [num_other_documents] unset,
    and raises nothing else; when it raises, [__init__] stops there: no
    model is loaded, no file is read, the world is as it was. *)
Theorem validate_rejects (cfg : ExperimentConfig) :
  ((∃ msg, validate cfg = Raise (ValueError msg)) ↔ invalid cfg)
  ∧ (validate cfg = Ok tt ↔ ¬ invalid cfg)
  ∧ (∀ e w, validate cfg = Raise e → __init__ cfg w = (w, Raise e)).
Proof.
  split; [|split].
  - destruct (validate_outcome cfg) as [[Hok Hvalid]|[Hraise Hinv]].
    + split; [|done]. intros [msg Hmsg]. congruence.
    + done.
  - destruct (validate_outcome cfg) as [[Hok Hvalid]|[[msg Hraise] Hinv]].
    + done.
    + split; [congruence|done].
  - intros e w He. unfold __init__, lift.
    unfold mbind at 1, IO_bind. by rewrite He.
Qed.

Lemma validate_rejects_witness :
  __init__ (Sample.mixed_config 7 (Some 3) None true) Sample.empty_world
  = (Sample.empty_world,
     Raise (ValueError
       "Mixed experiments require retrieved and random document counts")).
Proof.
  destruct (validate_rejects (Sample.mixed_config 7 (Some 3) None true))
    as (_ & _ & H).
  by apply H.
Defined.

(** ** One example of the run loop *)

Lemma any_spec {A} (p : A → bool) (l : list A) :
  Py.any p l = true ↔ ∃ x, x ∈ l ∧ p x = true.
Proof.
  unfold Py.any. rewrite existsb_exists.
  split; intros (x & Hx & Hp); exists x; by rewrite ?list_elem_of_In in *.
Qed.

Lemma build_prompt_falsy (self : ExperimentManager) (query : str)
    (documents : option (list Document)) :
  truthy documents = false →
  ∃ prompt, _build_prompt self query documents = Ok prompt.
Proof.
  intros Hf. unfold _build_prompt. rewrite Hf. simpl.
  destruct (Py.contains _ _); eauto.
Qed.

Lemma build_prompt_inv (self : ExperimentManager) (query prompt : str)
    (documents : option (list Document)) :
  _build_prompt self query documents = Ok prompt → truthy documents = false.
Proof.
  unfold _build_prompt. intros H.
  destruct documents as [[|d docs]|]; done.
Qed.

Section RunLoop.

Variable normalize_answer : str → str.
Variable is_answer_in_text : str → list str → bool.
Variable generate : LLM → str → Res str.

Local Abbreviation evaluate :=
  (evaluate_example normalize_answer is_answer_in_text generate).
Local Abbreviation assemble := (_get_documents is_answer_in_text).

(** The record that the loop body builds from what it computed. *)
Let record (ex : example) (documents : option (list Document))
    (prompt response : str) : Result.t :=
  {| Result.example_id := example_id ex;
     Result.query := question ex;
     Result.answers := answers ex;
     Result.document_indices := fmap (M:=list) full_corpus_idx <$> documents;
     Result.gold_document_idx :=
       match documents with
       | Some _ => idx_gold_in_corpus ex
       | None => None
       end;
     Result.prompt := prompt;
     Result.generated_answer := generated_answer response;
     Result.ans_match_after_norm :=
       ans_match normalize_answer (generated_answer response) (answers ex);
     Result.ans_in_documents :=
       if truthy documents
       then Some (Py.any (λ doc, is_answer_in_text (text doc) (answers ex))
                    (default [] documents))
       else None |}.

Lemma evaluate_example_inv (self : ExperimentManager) (ex : example)
    (r : Result.t) :
  evaluate self ex = Ok r →
  ∃ documents prompt response,
    (if bool_decide (experiment_type (config self) = "only_query")
     then documents = None
     else ∃ docs, documents = Some docs ∧ assemble self ex = Ok docs)
    ∧ _build_prompt self (question ex) documents = Ok prompt
    ∧ generate (llm self) prompt = Ok response
    ∧ r = record ex documents prompt response.
Proof.
  unfold evaluate_example. intros H.
  match type of H with
  | mbind _ ?m = _ => destruct m as [documents|] eqn:Hdocs
  end; simpl in H; [|done].
  destruct (_build_prompt self (question ex) documents) as [prompt|] eqn:Hp;
    simpl in H; [|done].
  destruct (generate (llm self) prompt) as [response|] eqn:Hg;
    simpl in H; [|done].
  exists documents, prompt, response. split; [|by inversion H].
  destruct (bool_decide (experiment_type (config self) = "only_query")).
  - by inversion Hdocs.
  - destruct (assemble self ex) as [docs|]; simpl in Hdocs; [|done].
    exists docs. by inversion Hdocs.
Qed.

Lemma evaluate_example_falsy (self : ExperimentManager) (ex : example)
    (documents : option (list Document)) :
  (if bool_decide (experiment_type (config self) = "only_query")
   then documents = None
   else ∃ docs, documents = Some docs ∧ assemble self ex = Ok docs) →
  truthy documents = false →
  ∃ prompt,
    _build_prompt self (question ex) documents = Ok prompt
    ∧ ∀ response, generate (llm self) prompt = Ok response →
        evaluate self ex = Ok (record ex documents prompt response).
Proof.
  intros Hdocs Hf.
  destruct (build_prompt_falsy self (question ex) documents Hf) as [prompt Hp].
  exists prompt. split; [done|]. intros response Hg.
  unfold evaluate_example.
  destruct (bool_decide (experiment_type (config self) = "only_query")).
  - subst documents. simpl. rewrite Hp. simpl. by rewrite Hg.
  - destruct Hdocs as (docs & -> & ->). simpl. rewrite Hp. simpl.
    by rewrite Hg.
Qed.

(** With a non-empty document list the prompt cannot be built: the loop
    body stops with the [TypeError] of [join_documents]. *)
Lemma evaluate_example_documents_raise (self : ExperimentManager)
    (ex : example) (d : Document) (docs : list Document) :
  experiment_type (config self) ≠ "only_query" →
  assemble self ex = Ok (d :: docs) →
  evaluate self ex = Raise TypeError.
Proof.
  intros Hty Hdocs. unfold evaluate_example.
  rewrite (bool_decide_false _ Hty), Hdocs. reflexivity.
Qed.

Lemma ans_match_spec (generated : str) (golds : list str) :
  ans_match normalize_answer generated golds = true ↔
  ∃ ans, ans ∈ golds
         ∧ is_substring (normalize_answer ans) (normalize_answer generated).
Proof.
  unfold ans_match. rewrite any_spec.
  split; intros (ans & Hin & H); exists ans; split; try done;
    by apply contains_spec.
Qed.

(** Every record that a run returns is the record of the example at its
    place in the dataset, whatever was saved on the way. *)
Lemma run_records (refuses : IOEvent → option Error)
    (self : ExperimentManager) (w w' : World) (results : list Result.t) :
  run_experiments normalize_answer is_answer_in_text generate refuses self w
  = (w', Ok results) →
  Forall2 (λ ex r, evaluate self ex = Ok r) (dataset self) results.
Proof.
  unfold run_experiments. intros H.
  unfold mbind at 1 in H. unfold IO_bind in H.
  match type of H with
  | match for_each_io ?body _ _ _ with _ => _ end = _ =>
      set (loop_body := body) in H
  end.
  enough (∀ l acc w0 w1 rs,
            for_each_io loop_body l acc w0 = (w1, Ok rs) →
            ∃ rs', rs = acc ++ rs'
                   ∧ Forall2 (λ ex r, evaluate self ex = Ok r) l rs') as Hloop.
  { destruct (for_each_io loop_body (dataset self) [] w) as [w1 [rs|e]] eqn:Hl;
      [|done].
    destruct (Hloop _ _ _ _ _ Hl) as (rs' & -> & Hall).
    unfold mbind, IO_bind, mret, IO_ret in H.
    destruct (_save_results refuses self ([] ++ rs') "final" w1) as [w2 [[]|e]];
      [|done].
    by inversion H; subst. }
  clear H. induction l as [|ex l IH]; intros acc w0 w1 rs Hl.
  - inversion Hl; subst. exists []. split; [by rewrite app_nil_r|constructor].
  - cbn [for_each_io] in Hl. unfold mbind at 1 in Hl. unfold IO_bind in Hl.
    destruct (loop_body acc ex w0) as [w2 [acc2|e]] eqn:Hb; [|done].
    apply IH in Hl as (rs' & -> & Hall).
    unfold loop_body, mbind, IO_bind, lift, mret, IO_ret in Hb.
    destruct (evaluate self ex) as [r|e] eqn:Hr; [|done].
    destruct (is_checkpoint _ _) as [[]|e]; [| |done].
    + destruct (_save_results refuses self (acc ++ [r]) _ w0) as [w3 [[]|e]];
        [|done].
      inversion Hb; subst. exists (r :: rs'). split; [|by constructor].
      by rewrite <- app_assoc.
    + inversion Hb; subst. exists (r :: rs'). split; [|by constructor].
      by rewrite <- app_assoc.
Qed.

(** C7: every result record is graded against the gold answers of its
    example: the record that the loop body builds for an example holds
    the answers of that example and the answer extracted from what the
    generator returned for the prompt of that example, and its
    [ans_match_after_norm] is true exactly when, both sides normalized,
    one of these gold answers is a substring of that generated answer.
    Every record of a completed run is such a record, for the example at
    the same place in the dataset. With the normalizer of the
    specification the grading is true for "The answer is Lando
    Calrissian." against "Lando Calrissian" and false against "Darth
    Vader". *)
Theorem ans_match_after_norm_graded (self : ExperimentManager) (ex : example)
    (r : Result.t) :
  (evaluate self ex = Ok r →
   ∃ documents prompt response,
     (if bool_decide (experiment_type (config self) = "only_query")
      then documents = None
      else ∃ docs, documents = Some docs ∧ assemble self ex = Ok docs)
     ∧ _build_prompt self (question ex) documents = Ok prompt
     ∧ generate (llm self) prompt = Ok response
     ∧ Result.example_id r = example_id ex
     ∧ Result.answers r = answers ex
     ∧ Result.prompt r = prompt
     ∧ Result.generated_answer r = generated_answer response
     ∧ (Result.ans_match_after_norm r = true ↔
        ∃ ans, ans ∈ answers ex
               ∧ is_substring (normalize_answer ans)
                   (normalize_answer (generated_answer response))))
  ∧ (experiment_type (config self) = "only_query" →
     ∃ prompt,
       _build_prompt self (question ex) None = Ok prompt
       ∧ ∀ response, generate (llm self) prompt = Ok response →
           ∃ r', evaluate self ex = Ok r'
             ∧ Result.generated_answer r' = generated_answer response
             ∧ Result.ans_match_after_norm r'
               = ans_match normalize_answer (generated_answer response)
                   (answers ex))
  ∧ (∀ refuses w w' results,
       run_experiments normalize_answer is_answer_in_text generate refuses
         self w = (w', Ok results) →
       Forall2 (λ ex r, evaluate self ex = Ok r) (dataset self) results)
  ∧ ans_match Normalize.normalize_answer "The answer is Lando Calrissian."
      ["Lando Calrissian"] = true
  ∧ ans_match Normalize.normalize_answer "The answer is Lando Calrissian."
      ["Darth Vader"] = false.
Proof.
  split; [|split; [|split; [|by vm_compute]]].
  - intros H.
    apply evaluate_example_inv in H
      as (documents & prompt & response & Hd & Hp & Hg & ->).
    exists documents, prompt, response.
    do 7 (split; [done|]). apply ans_match_spec.
  - intros Hty.
    destruct (evaluate_example_falsy self ex None) as (prompt & Hp & Hev).
    { by rewrite (bool_decide_true _ Hty). }
    { done. }
    exists prompt. split; [done|]. intros response Hg.
    eexists. split; [by apply Hev|]. done.
  - intros refuses w w' results. apply run_records.
Qed.

(** C10 (defect of the code): in a family other than only_query the
    record is to hold [document_indices] and, when documents were
    assembled, [ans_in_documents]; but the prompt is built before the
    record is completed, and [_build_prompt] raises [TypeError] on every
    non-empty document list. So an example with assembled documents
    yields no record at all, and every record that is produced has an
    empty [document_indices] and no [ans_in_documents]. *)
Theorem record_documents_type_error (self : ExperimentManager) (ex : example) :
  experiment_type (config self) ≠ "only_query" →
  (∀ d docs, assemble self ex = Ok (d :: docs) →
     evaluate self ex = Raise TypeError)
  ∧ (∀ r, evaluate self ex = Ok r →
       assemble self ex = Ok []
       ∧ Result.document_indices r = Some []
       ∧ Result.ans_in_documents r = None).
Proof.
  intros Hty. split.
  - intros d docs Hdocs. by eapply evaluate_example_documents_raise.
  - intros r Hr.
    apply evaluate_example_inv in Hr
      as (documents & prompt & response & Hd & Hp & _ & ->).
    rewrite (bool_decide_false _ Hty) in Hd.
    destruct Hd as (docs & -> & Hdocs).
    apply build_prompt_inv in Hp. destruct docs as [|d docs]; [|done].
    done.
Qed.

End RunLoop.

(** ** Saving *)

Lemma io_bind_ok {A B} (m : IO A) (f : A → IO B) (w w' : World) (a : A) :
  m w = (w', Ok a) → (m ≫= f) w = f a w'.
Proof. intros H. unfold mbind, IO_bind. by rewrite H. Qed.

Lemma io_bind_raise {A B} (m : IO A) (f : A → IO B) (w w' : World)
    (e : Error) :
  m w = (w', Raise e) → (m ≫= f) w = (w', Raise e).
Proof. intros H. unfold mbind, IO_bind. by rewrite H. Qed.

Lemma results_filename_length (cfg : ExperimentConfig) (suffix : str) :
  (0 < length (results_filename cfg suffix))%nat.
Proof.
  unfold results_filename. cbv zeta. rewrite !length_app. simpl. lia.
Qed.

Lemma results_path_length (cfg : ExperimentConfig) (suffix : str) :
  (length (output_dir cfg) < length (results_path cfg suffix))%nat.
Proof.
  pose proof (results_filename_length cfg suffix).
  unfold results_path, path_join.
  destruct (decide (output_dir cfg = [])) as [->|_]; [simpl; lia|].
  destruct (Py.endswith _ _); rewrite !length_app; simpl; lia.
Qed.

Lemma results_path_not_dir (cfg : ExperimentConfig) (suffix : str) :
  results_path cfg suffix ≠ output_dir cfg.
Proof.
  intros H. pose proof (results_path_length cfg suffix). rewrite H in *. lia.
Qed.

Lemma results_path_nonempty (cfg : ExperimentConfig) (suffix : str) :
  results_path cfg suffix ≠ [].
Proof.
  intros H. pose proof (results_path_length cfg suffix) as Hl.
  rewrite H in Hl. simpl in Hl. lia.
Qed.

Lemma results_path_inj (cfg : ExperimentConfig) (s1 s2 : str) :
  results_path cfg s1 = results_path cfg s2 →
  s1 ++ ".json" = s2 ++ ".json".
Proof.
  unfold results_path, path_join, results_filename. cbv zeta.
  intros H.
  repeat match type of H with
  | (if ?b then _ else _) = _ => destruct b
  | ?x ++ _ = ?x ++ _ => apply app_inv_head in H
  end;
  done.
Qed.

Lemma results_path_suffix_inj (cfg : ExperimentConfig) :
  Inj (=) (=) (results_path cfg).
Proof.
  intros s1 s2 H. apply results_path_inj in H. by apply app_inv_tail in H.
Qed.

Lemma saved_files_cons (cfg : ExperimentConfig) (s : str)
    (content : list Result.t) (saves : list (str * list Result.t))
    (m : gmap str FileData) :
  saved_files cfg ((s, content) :: saves) m
  = saved_files cfg saves (<[results_path cfg s := ResultsFile content]> m).
Proof. reflexivity. Qed.

Lemma saved_files_notin (cfg : ExperimentConfig)
    (saves : list (str * list Result.t)) (m : gmap str FileData)
    (p : str) :
  p ∉ results_path cfg <$> saves.*1 →
  saved_files cfg saves m !! p = m !! p.
Proof.
  revert m. induction saves as [|[s content] saves IH]; intros m Hp; [done|].
  simpl in Hp. apply not_elem_of_cons in Hp as [Hne Hp].
  rewrite saved_files_cons, IH by done. by apply lookup_insert_ne.
Qed.

Lemma saved_files_in (cfg : ExperimentConfig)
    (saves : list (str * list Result.t)) (m : gmap str FileData)
    (s : str) (content : list Result.t) :
  NoDup (results_path cfg <$> saves.*1) →
  (s, content) ∈ saves →
  saved_files cfg saves m !! results_path cfg s = Some (ResultsFile content).
Proof.
  revert m. induction saves as [|[s' content'] saves IH]; intros m Hnd Hin.
  - by apply elem_of_nil in Hin.
  - simpl in Hnd. apply NoDup_cons in Hnd as [Hfresh Hnd].
    rewrite saved_files_cons.
    apply elem_of_cons in Hin as [[= <- <-]|Hin].
    + rewrite saved_files_notin by done. apply lookup_insert_eq.
    + by apply IH.
Qed.

Lemma after_saves_nil (cfg : ExperimentConfig) (w : World) :
  after_saves cfg [] w = w.
Proof.
  destruct w as [f t]. unfold after_saves, save_events. simpl.
  by rewrite app_nil_r.
Qed.

Lemma after_saves_app (cfg : ExperimentConfig)
    (saves1 saves2 : list (str * list Result.t)) (w : World) :
  after_saves cfg (saves1 ++ saves2) w
  = after_saves cfg saves2 (after_saves cfg saves1 w).
Proof.
  unfold after_saves, saved_files, save_events. simpl.
  by rewrite foldl_app, bind_app, app_assoc.
Qed.

Lemma dir_free_after_saves (cfg : ExperimentConfig)
    (saves : list (str * list Result.t)) (w : World) :
  dir_free cfg w → dir_free cfg (after_saves cfg saves w).
Proof.
  intros [Hname Hfree]. split; [done|]. simpl.
  rewrite saved_files_notin; [done|].
  intros Hin. apply list_elem_of_fmap in Hin as (s & Heq & _).
  symmetry in Heq. by apply results_path_not_dir in Heq.
Qed.

(** A save that nothing is in the way of writes its file, and leaves the
    directory free for the next one; a save into a directory without a
    name, or with a file in its place, writes nothing. *)
Lemma save_results_ok (refuses : IOEvent → option Error)
    (self : ExperimentManager) (results : list Result.t) (suffix : str)
    (w : World) :
  lets_save refuses (config self) → dir_free (config self) w →
  _save_results refuses self results suffix w
  = (after_saves (config self) [(suffix, results)] w, Ok tt).
Proof.
  intros [Hdir Hfile] [Hname Hfree].
  unfold _save_results, makedirs, open_write, emit, mbind, IO_bind.
  rewrite (bool_decide_false _ Hname), Hdir, Hfree.
  rewrite bool_decide_false by (by intros [? ?]).
  rewrite (bool_decide_false _ (results_path_nonempty _ _)), Hfile.
  unfold after_saves, save_events. simpl. by rewrite <- app_assoc.
Qed.

Lemma save_results_unnamed (refuses : IOEvent → option Error)
    (self : ExperimentManager) (results : list Result.t) (suffix : str)
    (w : World) :
  output_dir (config self) = [] →
  _save_results refuses self results suffix w
  = (w, Raise (FileNotFoundError [])).
Proof.
  intros Hname. unfold _save_results, makedirs, mbind, IO_bind.
  by rewrite Hname.
Qed.

Lemma save_results_in_the_way (refuses : IOEvent → option Error)
    (self : ExperimentManager) (results : list Result.t) (suffix : str)
    (w : World) :
  output_dir (config self) ≠ [] →
  refuses (MakeDirs (output_dir (config self))) = None →
  is_Some (files w !! output_dir (config self)) →
  _save_results refuses self results suffix w
  = (w, Raise (FileExistsError (output_dir (config self)))).
Proof.
  intros Hname Hdir Hfile. unfold _save_results, makedirs, mbind, IO_bind.
  by rewrite (bool_decide_false _ Hname), Hdir, (bool_decide_true _ Hfile).
Qed.

Lemma save_results_refused (refuses : IOEvent → option Error)
    (self : ExperimentManager) (results : list Result.t) (suffix : str)
    (w : World) (e : Error) :
  output_dir (config self) ≠ [] →
  refuses (MakeDirs (output_dir (config self))) = Some e →
  _save_results refuses self results suffix w = (w, Raise e).
Proof.
  intros Hname Hdir. unfold _save_results, makedirs, mbind, IO_bind.
  by rewrite (bool_decide_false _ Hname), Hdir.
Qed.


(** ** Checkpoints *)

Section Checkpoints.

Variable normalize_answer : str → str.
Variable is_answer_in_text : str → list str → bool.
Variable generate : LLM → str → Res str.
Variable refuses : IOEvent → option Error.
Variable self : ExperimentManager.

Local Abbreviation evaluate :=
  (evaluate_example normalize_answer is_answer_in_text generate).
Local Abbreviation run :=
  (run_experiments normalize_answer is_answer_in_text generate refuses).

Let every := save_every (config self).

Let body (results : list Result.t) (example : example)
    : IO (list Result.t) :=
  result ← lift (evaluate self example);
  let results := results ++ [result] in
  save ← lift (is_checkpoint (length results) every);
  _ ← (if save : bool
       then _save_results refuses self results
              ("intermediate_" ++ fmt (Z.of_nat (length results)))
       else mret tt);
  mret results.

Lemma body_step (acc : list Result.t) (ex : example) (r : Result.t)
    (w : World) :
  every ≠ 0 → lets_save refuses (config self) →
  dir_free (config self) w → evaluate self ex = Ok r →
  body acc ex w
  = (after_saves (config self)
       (intermediate_saves every (acc ++ [r]) [S (length acc)]) w,
     Ok (acc ++ [r])).
Proof.
  intros modulus willing Hfree Hr.
  unfold body, lift, mbind at 1, IO_bind at 1. rewrite Hr.
  unfold is_checkpoint, mbind at 1, IO_bind at 1.
  rewrite (proj2 (Z.eqb_neq every 0) modulus).
  assert (length (acc ++ [r]) = S (length acc)) as Hlen
    by (rewrite length_app; simpl; lia).
  rewrite Hlen. unfold intermediate_saves. cbn [List.filter].
  destruct (Z.of_nat (S (length acc)) `mod` every =? 0).
  - cbn [fmap list_fmap].
    rewrite (io_bind_ok _ _ _ _ _
               (save_results_ok refuses self _ _ w willing Hfree)).
    by rewrite <- Hlen, firstn_all.
  - cbn [fmap list_fmap]. by rewrite after_saves_nil.
Qed.

Lemma intermediate_saves_app (n : Z) (rs : list Result.t) (ks1 ks2 : list nat) :
  intermediate_saves n rs (ks1 ++ ks2)
  = intermediate_saves n rs ks1 ++ intermediate_saves n rs ks2.
Proof. unfold intermediate_saves. by rewrite List.filter_app, fmap_app. Qed.

Lemma intermediate_saves_ext (n : Z) (rs rs' : list Result.t) (ks : list nat) :
  Forall (λ k, take k rs = take k rs') ks →
  intermediate_saves n rs ks = intermediate_saves n rs' ks.
Proof.
  unfold intermediate_saves. induction 1 as [|k ks Hk _ IH]; [done|].
  cbn [List.filter]. destruct (_ =? 0); [|done].
  by rewrite !fmap_cons, Hk, IH.
Qed.

Lemma loop_saves (l : list example) (rs acc : list Result.t) (w : World) :
  every ≠ 0 → lets_save refuses (config self) →
  dir_free (config self) w →
  Forall2 (λ ex r, evaluate self ex = Ok r) l rs →
  for_each_io body l acc w
  = (after_saves (config self)
       (intermediate_saves every (acc ++ rs) (seq (S (length acc)) (length l)))
       w,
     Ok (acc ++ rs)).
Proof.
  intros modulus willing Hfree Hall. revert acc w Hfree.
  induction Hall as [|ex r l rs Hr _ IH]; intros acc w Hfree;
    cbn [for_each_io].
  - simpl. by rewrite app_nil_r, after_saves_nil.
  - rewrite (io_bind_ok _ _ _ _ _
               (body_step acc ex r w modulus willing Hfree Hr)).
    rewrite IH by (by apply dir_free_after_saves).
    rewrite <- app_assoc. simpl. f_equal.
    assert (length (acc ++ [r]) = S (length acc)) as Hlen
      by (rewrite length_app; simpl; lia).
    rewrite Hlen.
    change (S (length acc) :: seq (S (S (length acc))) (length l))
      with ([S (length acc)] ++ seq (S (S (length acc))) (length l)).
    rewrite intermediate_saves_app, after_saves_app. do 2 f_equal.
    apply intermediate_saves_ext. constructor; [|done].
    rewrite <- Hlen.
    rewrite firstn_all.
    change (acc ++ r :: rs) with (acc ++ [r] ++ rs).
    rewrite app_assoc. by rewrite take_app_length.
Qed.

Lemma run_saves (w : World) (results : list Result.t) :
  every ≠ 0 → lets_save refuses (config self) →
  dir_free (config self) w →
  Forall2 (λ ex r, evaluate self ex = Ok r) (dataset self) results →
  run self w
  = (after_saves (config self) (expected_saves every results) w, Ok results).
Proof.
  intros modulus willing Hfree Hall.
  pose proof (Forall2_length _ _ _ Hall) as Hlen.
  unfold run_experiments.
  etrans.
  { apply io_bind_ok.
    apply (loop_saves (dataset self) results [] w modulus willing Hfree Hall). }
  etrans.
  { apply io_bind_ok. apply save_results_ok; [done|].
    by apply dir_free_after_saves. }
  unfold mret, IO_ret. f_equal.
  unfold expected_saves. by rewrite after_saves_app, Hlen.
Qed.

Lemma save_results_inv (results : list Result.t) (suffix : str)
    (w w1 : World) :
  _save_results refuses self results suffix w = (w1, Ok tt) →
  w1 = after_saves (config self) [(suffix, results)] w.
Proof.
  unfold _save_results, makedirs, open_write, emit, mbind, IO_bind.
  repeat case_match; try done.
  intros [= <-]. simplify_eq. unfold after_saves, save_events. simpl.
  by rewrite <- app_assoc.
Qed.

Lemma body_inv (acc acc1 : list Result.t) (ex : example) (w w1 : World) :
  body acc ex w = (w1, Ok acc1) →
  ∃ r, evaluate self ex = Ok r ∧ acc1 = acc ++ [r]
       ∧ w1 = after_saves (config self)
                (intermediate_saves every (acc ++ [r]) [S (length acc)]) w.
Proof.
  unfold body, lift, mbind at 1, IO_bind at 1.
  destruct (evaluate self ex) as [r|e]; [|done].
  unfold is_checkpoint, mbind at 1, IO_bind at 1.
  destruct (Z.eqb_spec every 0) as [|Hne]; [done|].
  assert (length (acc ++ [r]) = S (length acc)) as Hlen
    by (rewrite length_app; simpl; lia).
  rewrite Hlen. unfold intermediate_saves. cbn [List.filter].
  destruct (Z.of_nat (S (length acc)) `mod` every =? 0).
  - unfold mbind, IO_bind.
    destruct (_save_results refuses self (acc ++ [r]) _ w) as [w2 [[]|e]] eqn:Hs;
      [|done].
    intros [= <- <-]. apply save_results_inv in Hs.
    exists r. split; [done|]. split; [done|].
    cbn [fmap list_fmap].
    assert (take (S (length acc)) (acc ++ [r]) = acc ++ [r]) as ->
      by (rewrite <- Hlen; apply firstn_all).
    done.
  - intros [= <- <-]. exists r. split; [done|]. split; [done|].
    cbn [fmap list_fmap]. by rewrite after_saves_nil.
Qed.

Lemma loop_inv (l : list example) (acc rs : list Result.t) (w w1 : World) :
  for_each_io body l acc w = (w1, Ok rs) →
  ∃ rs', rs = acc ++ rs'
    ∧ Forall2 (λ ex r, evaluate self ex = Ok r) l rs'
    ∧ w1 = after_saves (config self)
             (intermediate_saves every rs (seq (S (length acc)) (length l)))
             w.
Proof.
  revert acc w. induction l as [|ex l IH]; intros acc w H;
    cbn [for_each_io] in H.
  - injection H as <- <-. exists []. rewrite app_nil_r.
    split; [done|]. split; [constructor|]. by rewrite after_saves_nil.
  - unfold mbind at 1 in H. unfold IO_bind in H.
    destruct (body acc ex w) as [w2 [acc2|e]] eqn:Hb; [|done].
    apply body_inv in Hb as (r & Hr & -> & ->).
    apply IH in H as (rs' & -> & Hall & ->).
    exists (r :: rs'). rewrite <- app_assoc. split; [done|].
    split; [by constructor|].
    assert (length (acc ++ [r]) = S (length acc)) as Hlen
      by (rewrite length_app; simpl; lia).
    rewrite Hlen. simpl length.
    change (seq (S (length acc)) (S (length l)))
      with ([S (length acc)] ++ seq (S (S (length acc))) (length l)).
    rewrite intermediate_saves_app, after_saves_app. do 2 f_equal.
    apply intermediate_saves_ext. constructor; [|done].
    rewrite <- Hlen. rewrite firstn_all.
    change (acc ++ [r] ++ rs') with (acc ++ [r] ++ rs').
    rewrite app_assoc. by rewrite take_app_length.
Qed.

Lemma run_inv (w w1 : World) (results : list Result.t) :
  run self w = (w1, Ok results) →
  Forall2 (λ ex r, evaluate self ex = Ok r) (dataset self) results
  ∧ w1 = after_saves (config self) (expected_saves every results) w.
Proof.
  unfold run_experiments. intros H.
  unfold mbind at 1 in H. unfold IO_bind in H.
  change (match for_each_io body (dataset self) [] w with
          | (w', Ok a) =>
              (_ ← _save_results refuses self a "final"; mret a) w'
          | (w', Raise e) => (w', Raise e)
          end = (w1, Ok results)) in H.
  destruct (for_each_io body (dataset self) [] w) as [w2 [rs|e]] eqn:Hl;
    [|done].
  apply loop_inv in Hl as (rs' & -> & Hall & ->). simpl app in *.
  unfold mbind, IO_bind, mret, IO_ret in H.
  destruct (_save_results refuses self rs' "final" _) as [w3 [[]|e]] eqn:Hs;
    [|done].
  injection H as <- <-. apply save_results_inv in Hs as ->.
  split; [done|]. unfold expected_saves.
  by rewrite after_saves_app, (Forall2_length _ _ _ Hall).
Qed.


End Checkpoints.

(** *** Instances on the sample data *)


Lemma ans_match_after_norm_graded_witness :
  ∃ r,
    evaluate_example Normalize.normalize_answer Normalize.is_answer_in_text
      Sample.echo_generate Sample.only_query_manager (Sample.question_n "1")
    = Ok r
    ∧ Result.ans_match_after_norm r = true
    ∧ ∃ response,
        Result.generated_answer r = generated_answer response
        ∧ ∃ ans, ans ∈ ["Lando Calrissian"]
            ∧ is_substring (Normalize.normalize_answer ans)
                (Normalize.normalize_answer (generated_answer response)).
Proof.
  eexists. split; [vm_compute; reflexivity|]. split; [reflexivity|].
  match goal with
  | |- ∃ response, Result.generated_answer ?r = _ ∧ _ =>
      destruct (ans_match_after_norm_graded Normalize.normalize_answer
        Normalize.is_answer_in_text Sample.echo_generate
        Sample.only_query_manager (Sample.question_n "1") r) as [H _]
  end.
  destruct (H ltac:(by vm_compute))
    as (documents & prompt & response & _ & _ & _ & _ & _ & _ & Hg & Hiff).
  exists response. split; [exact Hg|]. by apply Hiff.
Defined.

Lemma record_documents_type_error_witness :
  _get_documents Normalize.is_answer_in_text
    (Sample.classic_manager (Sample.classic_config 2 None true) [1; 2])
    Sample.q1
  = Ok [Sample.D1; Sample.D2]
  ∧ evaluate_example Normalize.normalize_answer Normalize.is_answer_in_text
      Sample.echo_generate
      (Sample.classic_manager (Sample.classic_config 2 None true) [1; 2])
      Sample.q1
    = Raise TypeError.
Proof.
  split; [by vm_compute|].
  refine (proj1 (record_documents_type_error Normalize.normalize_answer
    Normalize.is_answer_in_text Sample.echo_generate
    (Sample.classic_manager (Sample.classic_config 2 None true) [1; 2])
    Sample.q1 _) Sample.D1 [Sample.D2] _).
  - done.
  - by vm_compute.
Defined.

(** * Further properties of the code *)

(** ** Indexing failures *)

Lemma index_Ok_valid {A} (l : list A) (i : Z) (a : A) :
  Py.index l i = Ok a → valid_index l i.
Proof.
  unfold Py.index, valid_index.
  set (j := if i <? 0 then Z.of_nat (length l) + i else i).
  destruct (Z.ltb_spec j 0) as [|Hj]; [done|].
  destruct (l !! Z.to_nat j) as [b|] eqn:Hb; [|done].
  intros _. apply lookup_lt_Some in Hb.
  subst j. destruct (Z.ltb_spec i 0); lia.
Qed.

Lemma index_Raise {A} (l : list A) (i : Z) (e : Error) :
  Py.index l i = Raise e → e = IndexError ∧ ¬ valid_index l i.
Proof.
  intros H. split.
  - unfold Py.index in H.
    destruct (_ <? 0); [by inversion H|].
    destruct (l !! _); by inversion H.
  - intros Hv. destruct (index_valid l i Hv) as [a Ha]. congruence.
Qed.

Lemma resolves_all_valid (c : list Document) (idxs : list Z)
    (docs : list Document) :
  resolves c idxs docs → all_valid c idxs.
Proof.
  induction 1 as [|i d idxs docs Hd _ IH]; constructor; [|done].
  by eapply index_Ok_valid.
Qed.

Lemma invalid_not_all_valid (c : list Document) (idxs : list Z) :
  Exists (λ i, ¬ valid_index c i) idxs → ¬ all_valid c idxs.
Proof.
  intros Hex Hall. apply Exists_exists in Hex as (i & Hi & Hinv).
  apply Hinv. by eapply Forall_forall in Hall.
Qed.

Section LoopOutcomes.

Variable self : ExperimentManager.
Variable keep : Document → bool.
Variable c : list Document.
Hypothesis corpus_loaded : corpus self = Some c.

Let filter_body (documents : list Document) (doc_idx : Z) : Res (list Document) :=
  corpus ← getattr (corpus self);
  doc ← Py.index corpus doc_idx;
  if keep doc then Ok (documents ++ [doc]) else Ok documents.

Let lookup_body (documents : list Document) (doc_idx : Z) : Res (list Document) :=
  corpus ← getattr (corpus self);
  doc ← Py.index corpus doc_idx;
  Ok (documents ++ [doc]).

Lemma filter_loop_outcome (idxs : list Z) (acc : list Document) :
  (∃ cands, resolves c idxs cands
            ∧ for_each filter_body idxs acc = Ok (acc ++ List.filter keep cands))
  ∨ (Exists (λ i, ¬ valid_index c i) idxs
     ∧ for_each filter_body idxs acc = Raise IndexError).
Proof.
  revert acc. induction idxs as [|i idxs IH]; intros acc; cbn [for_each].
  - left. exists []. split; [constructor|]. simpl. by rewrite app_nil_r.
  - destruct (Py.index c i) as [d|e] eqn:Hd.
    + assert (filter_body acc i = Ok (if keep d then acc ++ [d] else acc)) as ->.
      { unfold filter_body. rewrite corpus_loaded. simpl. rewrite Hd. simpl.
        by destruct (keep d). }
      simpl.
      destruct (IH (if keep d then acc ++ [d] else acc))
        as [(cands & Hres & ->)|[Hex ->]].
      * left. exists (d :: cands). split; [by constructor|].
        simpl. destruct (keep d); [|done]. by rewrite <- app_assoc.
      * right. split; [by apply Exists_cons_tl|done].
    + apply index_Raise in Hd as Hd'. destruct Hd' as [-> Hinv].
      right. split; [by apply Exists_cons_hd|].
      assert (filter_body acc i = Raise IndexError) as ->; [|done].
      unfold filter_body. rewrite corpus_loaded. simpl. by rewrite Hd.
Qed.

Lemma lookup_loop_outcome (idxs : list Z) (acc : list Document) :
  (∃ docs, resolves c idxs docs
           ∧ for_each lookup_body idxs acc = Ok (acc ++ docs))
  ∨ (Exists (λ i, ¬ valid_index c i) idxs
     ∧ for_each lookup_body idxs acc = Raise IndexError).
Proof.
  revert acc. induction idxs as [|i idxs IH]; intros acc; cbn [for_each].
  - left. exists []. split; [constructor|]. simpl. by rewrite app_nil_r.
  - destruct (Py.index c i) as [d|e] eqn:Hd.
    + assert (lookup_body acc i = Ok (acc ++ [d])) as ->.
      { unfold lookup_body. rewrite corpus_loaded. simpl. by rewrite Hd. }
      simpl. destruct (IH (acc ++ [d])) as [(docs & Hres & ->)|[Hex ->]].
      * left. exists (d :: docs). split; [by constructor|].
        by rewrite <- app_assoc.
      * right. split; [by apply Exists_cons_tl|done].
    + apply index_Raise in Hd as Hd'. destruct Hd' as [-> Hinv].
      right. split; [by apply Exists_cons_hd|].
      assert (lookup_body acc i = Raise IndexError) as ->; [|done].
      unfold lookup_body. rewrite corpus_loaded. simpl. by rewrite Hd.
Qed.

Lemma lookup_documents_outcome (idxs : list Z) :
  (∃ docs, resolves c idxs docs ∧ lookup_documents self idxs = Ok docs)
  ∨ (¬ all_valid c idxs ∧ lookup_documents self idxs = Raise IndexError).
Proof.
  change (lookup_documents self idxs) with (for_each lookup_body idxs []).
  destruct (lookup_loop_outcome idxs []) as [(docs & Hres & H)|[Hex H]].
  - left. by exists docs.
  - right. split; [by apply invalid_not_all_valid|done].
Qed.

End LoopOutcomes.

(** ** More on the Context Assembler *)

Section AssemblerOutcomes.

Variable is_answer_in_text : str → list str → bool.

Local Abbreviation classic := (_get_classic_documents is_answer_in_text).
Local Abbreviation assemble := (_get_documents is_answer_in_text).

(** X1: in the multi-corpus family, with both tables holding the example,
    the assembler resolves the first [num_main_documents] entries of the
    main ranking and the first [num_other_documents] entries of the other
    ranking, main first when [put_main_first] and other first otherwise;
    it returns one document per selected index when all of them are in the
    corpus, and raises [IndexError] when one is not. *)
Theorem multi_corpus_documents_order (self : ExperimentManager) (ex : example)
    (t1 t2 : SearchResults) (e1 e2 : list Z * list Z) (c : list Document)
    (n1 n2 : Z) :
  let main := take (Z.to_nat n1) e1.1 in
  let other := take (Z.to_nat n2) e2.1 in
  let order := if put_main_first (config self)
               then main ++ other else other ++ main in
  experiment_type (config self) = "multi_corpus" →
  num_main_documents (config self) = Some n1 →
  num_other_documents (config self) = Some n2 →
  0 ≤ n1 → 0 ≤ n2 →
  main_results self = Some t1 → t1 !! example_id ex = Some e1 →
  other_results self = Some t2 → t2 !! example_id ex = Some e2 →
  corpus self = Some c →
  (all_valid c order →
   ∃ docs, assemble self ex = Ok docs
     ∧ resolves c order docs
     ∧ Z.of_nat (length docs)
       = Z.min n1 (Z.of_nat (length e1.1)) + Z.min n2 (Z.of_nat (length e2.1)))
  ∧ (¬ all_valid c order → assemble self ex = Raise IndexError).
Proof.
  intros main other order Hty H1 H2 Hn1 Hn2 Ht1 He1 Ht2 He2 Hc.
  assert (assemble self ex = lookup_documents self order) as ->.
  { unfold _get_documents, _get_multi_corpus_documents. rewrite Hty. simpl.
    rewrite Ht1. simpl. rewrite He1. simpl. rewrite Ht2. simpl.
    rewrite He2. simpl. rewrite H1, H2. simpl.
    by rewrite !slice_to_nonneg by done. }
  destruct (lookup_documents_outcome self c Hc order)
    as [(docs & Hres & ->)|[Hinv ->]].
  - split; [|by intros Hn; destruct Hn; eapply resolves_all_valid].
    intros _. exists docs. split; [done|]. split; [done|].
    rewrite (resolves_length _ _ _ Hres). subst order main other.
    destruct (put_main_first (config self));
      rewrite length_app, !length_take; lia.
  - split; [by intros Hv|done].
Qed.

Lemma filter_take_keeps {A} (p : A → bool) (l : list A) (n : nat) :
  Forall (λ x, p x = true) (take n (List.filter p l)).
Proof.
  apply Forall_take, Forall_forall. intros x Hx.
  apply list_elem_of_In, filter_In in Hx. tauto.
Qed.

(** X2: with [get_documents_without_answer] on, no document that the
    classic assembler returns passes the answer test: the output never
    holds a document in which [is_answer_in_text] finds a gold answer. *)
Theorem classic_documents_answerless (self : ExperimentManager) (ex : example)
    (docs : list Document) :
  get_documents_without_answer (config self) = true →
  classic self ex = Ok docs →
  Forall (λ d, is_answer_in_text (text d) (answers ex) = false) docs.
Proof.
  intros Hflag H.
  apply classic_documents_inv in H as (indices & cands & _ & ->).
  eapply Forall_impl; [apply filter_take_keeps|].
  intros d Hd. unfold keeps in Hd. rewrite Hflag in Hd. simpl in Hd.
  by apply negb_true_iff.
Qed.

(** X3: with the search results and the corpus loaded, the classic
    assembler raises [KeyError] in exactly two cases: the search results
    hold no entry for the example, or they hold one, a gold position is
    configured and the example has no ['idx_gold_in_corpus']. *)
Theorem classic_missing_keys (self : ExperimentManager) (ex : example)
    (table : SearchResults) (c : list Document) :
  search_results self = Some table →
  corpus self = Some c →
  classic self ex = Raise KeyError ↔
  table !! example_id ex = None
  ∨ (is_Some (table !! example_id ex)
     ∧ is_Some (gold_position (config self))
     ∧ idx_gold_in_corpus ex = None).
Proof.
  intros Ht Hc. unfold _get_classic_documents. rewrite Ht. simpl.
  destruct (table !! example_id ex) as [entry|] eqn:He; simpl.
  2: { split; [by left|done]. }
  unfold with_gold.
  destruct (gold_position (config self)) as [p|] eqn:Hp;
    [destruct (idx_gold_in_corpus ex) as [g|] eqn:Hg|]; simpl.
  2: { split; [|done]. intros _. right. eauto. }
  all: match goal with
       | |- context [for_each _ ?idxs []] =>
           destruct (filter_loop_outcome self
             (keeps is_answer_in_text (config self) (answers ex)) c Hc
             idxs []) as [(cands & _ & Hloop)|[_ Hloop]]
       end; simpl in Hloop; rewrite Hloop; simpl;
    (split; [done|]); intros [?|(_ & [? ?] & ?)]; congruence.
Qed.

(** X4: once the ranked list of the example is found and the gold index
    spliced, the classic assembler returns a list exactly when each of the
    first [num_documents_in_context] entries is an index of the corpus, and
    raises [IndexError] exactly when one of them is not; entries after
    these are never resolved. *)
Theorem classic_index_error (self : ExperimentManager) (ex : example)
    (table : SearchResults) (entry : list Z * list Z) (indices : list Z)
    (c : list Document) :
  let candidates :=
    Py.slice_to indices (num_documents_in_context (config self)) in
  search_results self = Some table →
  table !! example_id ex = Some entry →
  with_gold (config self) ex entry.1 = Ok indices →
  corpus self = Some c →
  ((∃ docs, classic self ex = Ok docs) ↔ all_valid c candidates)
  ∧ (classic self ex = Raise IndexError ↔ ¬ all_valid c candidates).
Proof.
  intros candidates Ht He Hg Hc.
  destruct (filter_loop_outcome self
              (keeps is_answer_in_text (config self) (answers ex)) c Hc
              candidates [])
    as [(cands & Hres & Hloop)|[Hex Hloop]];
    unfold _get_classic_documents; rewrite Ht; simpl; rewrite He; simpl;
    rewrite Hg; simpl; simpl in Hloop; fold candidates; rewrite Hloop; simpl.
  - pose proof (resolves_all_valid _ _ _ Hres) as Hall. split.
    + split; [done|eauto].
    + split; [done|]. by intros Hn.
  - apply invalid_not_all_valid in Hex. split.
    + split; [by intros [docs ?]|done].
    + done.
Qed.

End AssemblerOutcomes.

(** ** Construction of the manager *)

(** Outcomes of computations that succeeded are equal componentwise. *)
Ltac invert_outcomes :=
  repeat match goal with
  | H : (_, _) = (_, _) |- _ => inversion H; subst; clear H
  | H : Ok _ = Ok _ |- _ => inversion H; subst; clear H
  | H : bool_decide _ = true |- _ => apply bool_decide_eq_true in H
  | H : bool_decide _ = false |- _ => apply bool_decide_eq_false in H
  end.

Lemma init_success_inv (cfg : ExperimentConfig) (w w' : World)
    (self : ExperimentManager) :
  __init__ cfg w = (w', Ok self) →
  config self = cfg ∧ validate cfg = Ok tt ∧ files w' = files w
  ∧ (experiment_type cfg = "classic" →
     is_Some (corpus self) ∧ is_Some (search_results self))
  ∧ (experiment_type cfg = "mixed" →
     is_Some (corpus self) ∧ is_Some (retriever_results self)
     ∧ is_Some (random_results self))
  ∧ (experiment_type cfg = "multi_corpus" →
     is_Some (corpus self) ∧ is_Some (main_results self)
     ∧ is_Some (other_results self))
  ∧ (experiment_type cfg = "only_query" → corpus self = None).
Proof.
  unfold __init__. intros H.
  unfold mbind at 1 in H. unfold IO_bind, lift in H.
  destruct (validate cfg) as [[]|] eqn:Hv; [|done].
  unfold _load_data, LLM_init, read_json, read_pickle, emit, open_read, lift,
    as_dataset, as_corpus, as_search_results, mbind, IO_bind, mret, IO_ret in H.
  cbn [files trace] in H.
  repeat (case_match; try discriminate); invert_outcomes; simpl;
    (split; [done|]); (split; [done|]); (split; [done|]);
    repeat split; intros; try congruence; eauto.
  all: match goal with
       | Hn : ¬ (experiment_type _ ≠ "only_query") |- _ =>
           destruct Hn; congruence
       end.
Qed.

Lemma with_gold_raises (cfg : ExperimentConfig) (ex : example)
    (l : list Z) (e : Error) :
  with_gold cfg ex l = Raise e → e = KeyError.
Proof.
  unfold with_gold. destruct (gold_position cfg); [|done].
  destruct (idx_gold_in_corpus ex); simpl; [done|]. by intros [= <-].
Qed.

Lemma assemble_with_attributes (is_answer_in_text : str → list str → bool)
    (self : ExperimentManager) (ex : example) :
  is_Some (corpus self) →
  (experiment_type (config self) = "classic" → is_Some (search_results self)) →
  (experiment_type (config self) = "mixed" →
   is_Some (retriever_results self) ∧ is_Some (random_results self)) →
  (experiment_type (config self) ≠ "classic" →
   experiment_type (config self) ≠ "mixed" →
   is_Some (main_results self) ∧ is_Some (other_results self)) →
  _get_documents is_answer_in_text self ex ≠ Raise AttributeError.
Proof.
  intros [c Hc] Hclassic Hmixed Hmulti. unfold _get_documents.
  case_bool_decide as Hty1; [|case_bool_decide as Hty2].
  - destruct (Hclassic Hty1) as [table Ht].
    unfold _get_classic_documents. rewrite Ht. simpl.
    destruct (table !! example_id ex) as [entry|]; simpl; [|done].
    destruct (with_gold (config self) ex entry.1) as [indices|e] eqn:Hg; simpl.
    + destruct (filter_loop_outcome self
        (keeps is_answer_in_text (config self) (answers ex)) c Hc
        (Py.slice_to indices (num_documents_in_context (config self))) [])
        as [(cands & _ & Hloop)|[_ Hloop]];
        simpl in Hloop; by rewrite Hloop.
    + by apply with_gold_raises in Hg as ->.
  - destruct (Hmixed Hty2) as [[t1 Ht1] [t2 Ht2]].
    unfold _get_mixed_documents. rewrite Ht1, Ht2. simpl.
    destruct (t1 !! example_id ex) as [e1|]; simpl; [|done].
    destruct (t2 !! example_id ex) as [e2|]; simpl; [|done].
    match goal with
    | |- lookup_documents self ?l ≠ _ =>
        destruct (lookup_documents_outcome self c Hc l)
          as [(docs & _ & ->)|[_ ->]]; done
    end.
  - destruct (Hmulti Hty1 Hty2) as [[t1 Ht1] [t2 Ht2]].
    unfold _get_multi_corpus_documents. rewrite Ht1, Ht2. simpl.
    destruct (t1 !! example_id ex) as [e1|]; simpl; [|done].
    destruct (t2 !! example_id ex) as [e2|]; simpl; [|done].
    match goal with
    | |- lookup_documents self ?l ≠ _ =>
        destruct (lookup_documents_outcome self c Hc l)
          as [(docs & _ & ->)|[_ ->]]; done
    end.
Qed.

(** X5: a manager that [__init__] returns holds the configuration it was
    given, which [validate] accepted, and the corpus and the tables that
    the assembler of its family reads; so for a family other than
    only_query [_get_documents] never fails on a missing attribute.
    Constructing it changed no file. *)
Theorem init_loads_family_tables (cfg : ExperimentConfig) (w w' : World)
    (self : ExperimentManager) :
  __init__ cfg w = (w', Ok self) →
  config self = cfg ∧ validate cfg = Ok tt ∧ files w' = files w
  ∧ (experiment_type cfg = "classic" →
     is_Some (corpus self) ∧ is_Some (search_results self))
  ∧ (experiment_type cfg = "mixed" →
     is_Some (corpus self) ∧ is_Some (retriever_results self)
     ∧ is_Some (random_results self))
  ∧ (experiment_type cfg = "multi_corpus" →
     is_Some (corpus self) ∧ is_Some (main_results self)
     ∧ is_Some (other_results self))
  ∧ (experiment_type cfg ≠ "only_query" →
     ∀ is_answer_in_text ex,
       _get_documents is_answer_in_text self ex ≠ Raise AttributeError).
Proof.
  intros H.
  destruct (init_success_inv cfg w w' self H)
    as (Hcfg & Hv & Hfiles & Hclassic & Hmixed & Hmulti & _).
  repeat (split; [done|]).
  intros Hty is_in ex.
  destruct (validate_outcome cfg) as [[_ Hvalid]|[[msg Hmsg] _]];
    [|congruence].
  assert (experiment_type cfg ∈ experiment_types) as Hin.
  { destruct (decide (experiment_type cfg ∈ experiment_types)); [done|].
    destruct Hvalid. by left. }
  unfold experiment_types in Hin. rewrite !elem_of_cons, elem_of_nil in Hin.
  rewrite <- Hcfg in *.
  apply assemble_with_attributes.
  - destruct Hin as [Hc|[Hm|[Hmc|[Hq|[]]]]];
      [by apply Hclassic|by apply Hmixed|by apply Hmulti|done].
  - intros Hc. by apply Hclassic.
  - intros Hm. by apply Hmixed.
  - intros Hn1 Hn2. destruct Hin as [Hc|[Hm|[Hmc|[Hq|[]]]]]; try done.
    by apply Hmulti.
Qed.

(** X6: [__init__] of a valid configuration loads the model and then reads
    the dataset file (the test file when [use_test], else the train file)
    before anything else: when that file is missing it raises
    [FileNotFoundError] with its path and has read nothing further; in the
    only_query family it reads no other file at all and leaves the corpus
    and every retrieval table unset. *)
Theorem init_dataset_first (cfg : ExperimentConfig) (w : World) :
  let data_path := if use_test cfg then test_data_path cfg
                   else train_data_path cfg in
  let w1 := {| files := files w;
               trace := trace w ++ [LoadModel (llm_id cfg);
                                    ReadJson data_path] |} in
  validate cfg = Ok tt →
  (files w !! data_path = None →
   __init__ cfg w = (w1, Raise (FileNotFoundError data_path)))
  ∧ (experiment_type cfg = "only_query" →
     ∀ d, files w !! data_path = Some (DatasetFile d) →
       __init__ cfg w
       = (w1,
          Ok {| config := cfg;
                llm := {| llm_model_id := llm_id cfg;
                          llm_device := device cfg;
                          quantization_bits := 4;
                          llm_model_max_length := model_max_length cfg |};
                dataset := d; corpus := None; search_results := None;
                retriever_results := None; random_results := None;
                main_results := None; other_results := None |})).
Proof.
  intros data_path w1 Hv. subst w1. unfold __init__.
  unfold mbind at 1. unfold IO_bind, lift. rewrite Hv.
  unfold _load_data, LLM_init, read_json, emit, open_read, lift,
    mbind, IO_bind, mret, IO_ret.
  cbn [files trace]. fold data_path. split.
  - intros ->. by rewrite <- app_assoc.
  - intros Hty d ->. simpl. rewrite Hty. simpl. by rewrite <- app_assoc.
Qed.

(** ** Outcomes of a run *)

Lemma filter_NoDup {A} (p : A → bool) (l : list A) :
  NoDup l → NoDup (List.filter p l).
Proof.
  induction 1 as [|x l Hx _ IH]; simpl; [constructor|].
  destruct (p x); [|done]. constructor; [|done].
  intros Hin. apply Hx. apply list_elem_of_In, filter_In in Hin as [Hin _].
  by apply list_elem_of_In.
Qed.

Lemma of_string_inj : Inj (=) (=) of_string.
Proof.
  intros s1. induction s1 as [|a s1 IH]; intros [|b s2] H; try done.
  simpl in H. injection H as Hab Hs.
  f_equal; [|by apply IH].
  by rewrite <- (Ascii.ascii_N_embedding a), <- (Ascii.ascii_N_embedding b), Hab.
Qed.

Lemma fmt_inj : Inj (=) (=) fmt.
Proof. intros x y H. by apply of_string_inj, (inj pretty) in H. Qed.

Lemma expected_saves_NoDup (n : Z) (results : list Result.t) :
  NoDup (expected_saves n results).*1.
Proof.
  unfold expected_saves, intermediate_saves.
  rewrite fmap_app, <- list_fmap_compose. simpl.
  apply NoDup_app. split; [|split].
  - apply NoDup_fmap_2_strong; [|apply filter_NoDup, NoDup_seq].
    intros k1 k2 _ _ H. unfold compose in H. cbn [fst] in H.
    apply (app_inv_head "intermediate_"), fmt_inj in H. lia.
  - intros s Hs Hfinal. apply list_elem_of_fmap in Hs as (k & -> & _).
    apply list_elem_of_singleton in Hfinal. simpl in Hfinal.
    by vm_compute in Hfinal.
  - apply NoDup_singleton.
Qed.

Lemma for_each_io_app {A S} (body : S → A → IO S) (l1 l2 : list A) (s : S)
    (w : World) :
  for_each_io body (l1 ++ l2) s w
  = match for_each_io body l1 s w with
    | (w', Ok s') => for_each_io body l2 s' w'
    | (w', Raise e) => (w', Raise e)
    end.
Proof.
  revert s w. induction l1 as [|x l1 IH]; intros s w; [done|].
  simpl. unfold mbind, IO_bind.
  destruct (body s x w) as [w1 [s1|e]]; [apply IH|done].
Qed.

Section RunOutcomes.

Variable normalize_answer : str → str.
Variable is_answer_in_text : str → list str → bool.
Variable generate : LLM → str → Res str.
Variable refuses : IOEvent → option Error.
Variable self : ExperimentManager.

Local Abbreviation evaluate :=
  (evaluate_example normalize_answer is_answer_in_text generate).
Local Abbreviation run :=
  (run_experiments normalize_answer is_answer_in_text generate refuses).

Let every := save_every (config self).

Let body (results : list Result.t) (example : example)
    : IO (list Result.t) :=
  result ← lift (evaluate self example);
  let results := results ++ [result] in
  save ← lift (is_checkpoint (length results) every);
  _ ← (if save : bool
       then _save_results refuses self results
              ("intermediate_" ++ fmt (Z.of_nat (length results)))
       else mret tt);
  mret results.

(** X7: after a run that completed, every checkpoint is still on disk:
    the paths of the saves are pairwise distinct, so no save overwrote
    another; the file [intermediate_k] holds the first k results for
    every k that [save_every] divides, the file [final] holds them all,
    and no other file changed. A run completes when [save_every] is not
    0, every example is evaluated and nothing is in the way of the
    saves. *)
Theorem checkpoints_persist (w : World) (results : list Result.t) :
  let saves := expected_saves every results in
  let paths := results_path (config self) <$> saves.*1 in
  (every ≠ 0 →
   lets_save refuses (config self) → dir_free (config self) w →
   Forall2 (λ ex r, evaluate self ex = Ok r) (dataset self) results →
   ∃ w', run self w = (w', Ok results))
  ∧ (∀ w', run self w = (w', Ok results) →
       NoDup paths
       ∧ (∀ suffix content, (suffix, content) ∈ saves →
            files w' !! results_path (config self) suffix
            = Some (ResultsFile content))
       ∧ (∀ p, p ∉ paths → files w' !! p = files w !! p)).
Proof.
  intros saves paths. split.
  - intros Hne Hlets Hfree Hall. eexists.
    by apply (run_saves normalize_answer is_answer_in_text generate refuses
                self w results Hne Hlets Hfree Hall).
  - intros w' Hrun.
    apply (run_inv normalize_answer is_answer_in_text generate refuses self)
      in Hrun as [_ ->].
    assert (NoDup paths) as Hnd.
    { apply NoDup_fmap_2_strong; [|apply expected_saves_NoDup].
      intros s1 s2 _ _. apply results_path_suffix_inj. }
    split; [done|]. split.
    + intros suffix content Hin. by apply saved_files_in.
    + intros p Hp. by apply saved_files_notin.
Qed.

(** X8: when the evaluation of an example raises, the run stops with that
    exception: the checkpoints written for the examples before it stay as
    they are, nothing is written for the examples after it, and the file
    [final] is not written. *)
Theorem run_abort_keeps_checkpoints (w : World) (l1 l2 : list example)
    (ex : example) (results : list Result.t) (e : Error) :
  let saves :=
    intermediate_saves every results (seq 1 (length results)) in
  let w' := after_saves (config self) saves w in
  every ≠ 0 →
  lets_save refuses (config self) → dir_free (config self) w →
  dataset self = l1 ++ ex :: l2 →
  Forall2 (λ ex r, evaluate self ex = Ok r) l1 results →
  evaluate self ex = Raise e →
  run self w = (w', Raise e)
  ∧ files w' !! results_path (config self) "final"
    = files w !! results_path (config self) "final"
  ∧ (∀ suffix content, (suffix, content) ∈ saves →
       files w' !! results_path (config self) suffix
       = Some (ResultsFile content)).
Proof.
  intros saves w' Hne Hlets Hfree Hdata Hall He.
  assert (NoDup (results_path (config self) <$> saves.*1)
          ∧ results_path (config self) "final"
            ∉ results_path (config self) <$> saves.*1) as [Hnd Hfinal].
  { pose proof (expected_saves_NoDup every results) as H.
    unfold expected_saves in H. rewrite fmap_app in H.
    apply NoDup_app in H as (Hnd & Hdisj & _). split.
    - apply NoDup_fmap_2_strong; [|done].
      intros s1 s2 _ _. apply results_path_suffix_inj.
    - intros Hin. apply list_elem_of_fmap in Hin as (s & Heq & Hs).
      apply results_path_suffix_inj in Heq. subst s.
      apply (Hdisj _ Hs). simpl. apply list_elem_of_singleton. done. }
  split; [|split].
  - assert (for_each_io body (l1 ++ ex :: l2) [] w = (w', Raise e)) as Hloop.
    { pose proof (loop_saves normalize_answer is_answer_in_text generate
                    refuses self l1 results [] w Hne Hlets Hfree Hall) as Hl.
      rewrite (Forall2_length _ _ _ Hall) in Hl.
      change (for_each_io body l1 [] w = (w', Ok results)) in Hl.
      rewrite for_each_io_app, Hl. cbn [for_each_io].
      unfold mbind at 1. unfold IO_bind.
      unfold body at 1. unfold mbind at 1. unfold IO_bind, lift.
      by rewrite He. }
    unfold run_experiments. rewrite Hdata.
    unfold mbind at 1. unfold IO_bind.
    change (for_each_io _ (l1 ++ ex :: l2) [] w)
      with (for_each_io body (l1 ++ ex :: l2) [] w).
    by rewrite Hloop.
  - subst w'. simpl. by apply saved_files_notin.
  - intros suffix content Hin. subst w'. simpl. by apply saved_files_in.
Qed.

(** X9: with an empty dataset and nothing in the way of the save, the
    run writes the single file [final], holding the empty list, whatever
    [save_every] is; when the output directory has no name, the run of an
    empty dataset raises [FileNotFoundError] and writes nothing; when the
    file system refuses the directory it raises the exception of the
    refusal and writes nothing; and when a file sits in the place of the
    directory it raises [FileExistsError] and writes nothing. With
    [save_every = 0] and a first example that is evaluated, the run
    raises [ZeroDivisionError] at the first checkpoint test and writes
    nothing, so the result of that example is lost. *)
Theorem run_edge_cases (w : World) :
  (dataset self = [] →
   (lets_save refuses (config self) → dir_free (config self) w →
    run self w
    = ({| files := <[results_path (config self) "final" := ResultsFile []]>
                     (files w);
          trace := trace w ++ [MakeDirs (output_dir (config self));
                               WriteJson (results_path (config self) "final")] |},
       Ok []))
   ∧ (output_dir (config self) = [] →
      run self w = (w, Raise (FileNotFoundError [])))
   ∧ (∀ e, output_dir (config self) ≠ [] →
        refuses (MakeDirs (output_dir (config self))) = Some e →
        run self w = (w, Raise e))
   ∧ (output_dir (config self) ≠ [] →
      refuses (MakeDirs (output_dir (config self))) = None →
      is_Some (files w !! output_dir (config self)) →
      run self w = (w, Raise (FileExistsError (output_dir (config self))))))
  ∧ (every = 0 →
     ∀ ex l r, dataset self = ex :: l → evaluate self ex = Ok r →
       run self w = (w, Raise ZeroDivisionError)).
Proof.
  split.
  - intros Hdata. unfold run_experiments. rewrite Hdata.
    rewrite (io_bind_ok (for_each_io _ [] []) _ w w [] eq_refl).
    split; [|split; [|split]].
    + intros Hlets Hfree.
      by rewrite (io_bind_ok _ _ _ _ _
                    (save_results_ok refuses self [] "final" w Hlets Hfree)).
    + intros Hname.
      by rewrite (io_bind_raise _ _ _ _ _
                    (save_results_unnamed refuses self [] "final" w Hname)).
    + intros e Hname Hdir.
      by rewrite (io_bind_raise _ _ _ _ _
                    (save_results_refused refuses self [] "final" w e
                       Hname Hdir)).
    + intros Hname Hdir Hfile.
      by rewrite (io_bind_raise _ _ _ _ _
                    (save_results_in_the_way refuses self [] "final" w
                       Hname Hdir Hfile)).
  - intros Hzero ex l r Hdata Hr. unfold run_experiments. rewrite Hdata.
    unfold mbind at 1. unfold IO_bind. cbn [for_each_io].
    unfold mbind at 1. unfold IO_bind.
    unfold mbind at 1. unfold IO_bind, lift. rewrite Hr.
    unfold mbind at 1. unfold IO_bind, is_checkpoint.
    fold every. by rewrite Hzero.
Qed.

End RunOutcomes.

(** ** Occurrences across a separator *)

Lemma char_in_cons (c x : char) (s : str) :
  char_in c (x :: s) = false → x ≠ c ∧ char_in c s = false.
Proof.
  simpl. intros [Hx Hs]%orb_false_iff. split; [|done].
  by destruct (N.eqb_spec x c).
Qed.

Lemma prefix_before_sep (c : char) (sub a b post : str) :
  char_in c sub = false →
  a ++ c :: b = sub ++ post →
  ∃ post', a = sub ++ post'.
Proof.
  revert a. induction sub as [|x sub IH]; intros a Hc Heq.
  - by exists a.
  - apply char_in_cons in Hc as [Hx Hc].
    destruct a as [|y a].
    + simpl in Heq. inversion Heq. congruence.
    + simpl in Heq. inversion Heq as [[Hy Ha]].
      destruct (IH a Hc Ha) as [post' ->]. by exists post'.
Qed.

Lemma occurrence_sep (c : char) (sub a b pre post : str) :
  char_in c sub = false →
  a ++ c :: b = pre ++ sub ++ post →
  (∃ post', a = pre ++ sub ++ post')
  ∨ (∃ pre', pre = a ++ c :: pre' ∧ b = pre' ++ sub ++ post).
Proof.
  intros Hc. revert pre. induction a as [|y a IH]; intros [|p pre] Heq.
  - left. by apply (prefix_before_sep c sub [] b post).
  - right. simpl in Heq. inversion Heq as [[Hp Hb]]. by exists pre.
  - left. by apply (prefix_before_sep c sub (y :: a) b post).
  - simpl in Heq. inversion Heq as [[Hp Ha]].
    destruct (IH pre Ha) as [[post' ->]|(pre' & -> & ->)].
    + left. by exists post'.
    + right. by exists pre'.
Qed.

Lemma first_split_head (sub t : str) :
  first_split (sub ++ t) sub [] t.
Proof. split; [done|]. intros pre' post' _. simpl. lia. Qed.

Lemma first_split_after_sep (c : char) (sub a b pre post : str) :
  char_in c sub = false →
  Py.contains a sub = false →
  first_split b sub pre post →
  first_split (a ++ c :: b) sub (a ++ c :: pre) post.
Proof.
  intros Hc Ha [-> Hmin]. split.
  - by rewrite <- app_assoc.
  - intros pre1 post1 Heq.
    destruct (occurrence_sep c sub a _ pre1 post1 Hc Heq)
      as [[post' Hin]|(pre' & -> & Hb)].
    + assert (Py.contains a sub = true) as Ht
        by (apply contains_spec; by exists pre1, post').
      congruence.
    + apply Hmin in Hb. rewrite !length_app. simpl. lia.
Qed.

Lemma generated_answer_after_first (response pre post : str) :
  first_split response "Answer:" pre post →
  generated_answer response = Py.strip post.
Proof.
  intros Hsplit. unfold generated_answer, answer_start.
  assert (Py.contains response "Answer:" = true) as ->.
  { apply contains_spec. destruct Hsplit as [-> _]. by exists pre, post. }
  by rewrite (slice_after_first _ _ _ _ Hsplit).
Qed.

(** ** Prompt and answer extraction together *)

(** X10: for a model whose id does not contain "mpt" and a question that
    does not contain "Answer:", when no document goes into the prompt and
    the raw response is the prompt followed by a continuation, the
    generated answer is that continuation with the surrounding whitespace
    stripped: the only "Answer:" before it is the one ending the prompt. *)
Theorem echoed_prompt_answer (self : ExperimentManager) (query cont : str)
    (documents : option (list Document)) :
  truthy documents = false →
  Py.contains (llm_id (config self)) "mpt" = false →
  Py.contains query "Answer:" = false →
  ∃ prompt,
    _build_prompt self query documents = Ok prompt
    ∧ generated_answer (prompt ++ cont) = Py.strip cont.
Proof.
  intros Hf Hmpt Hq.
  exists (only_query_instruction ++ nl ++ "Question: " ++ query
          ++ nl ++ "Answer:").
  split.
  - unfold _build_prompt. rewrite Hf. simpl. by rewrite Hmpt.
  - set (head := only_query_instruction ++ nl ++ "Question:").
    assert ((only_query_instruction ++ nl ++ "Question: " ++ query
             ++ nl ++ "Answer:") ++ cont
            = head ++ 0x20%N :: (query ++ 0x0A%N :: ("Answer:" ++ cont)))
      as ->.
    { subst head. rewrite <- !app_assoc. reflexivity. }
    eapply generated_answer_after_first.
    apply first_split_after_sep; [reflexivity|by vm_compute|].
    apply first_split_after_sep; [reflexivity|done|].
    apply first_split_head.
Qed.

(** X11: for a model whose id contains "mpt" the prompt ends with
    "### Response:" after the "Answer:" line, so under the same conditions
    the generated answer is not the continuation alone: it is the literal
    "### Response:" followed by the continuation, stripped on the right
    only. *)
Theorem echoed_prompt_answer_mpt (self : ExperimentManager)
    (query cont : str) (documents : option (list Document)) :
  truthy documents = false →
  Py.contains (llm_id (config self)) "mpt" = true →
  Py.contains query "Answer:" = false →
  ∃ prompt,
    _build_prompt self query documents = Ok prompt
    ∧ generated_answer (prompt ++ cont) = RESPONSE_KEY ++ Py.rstrip cont.
Proof.
  intros Hf Hmpt Hq.
  exists (INTRO_BLURB ++ nl ++ INSTRUCTION_KEY ++ nl
          ++ (only_query_instruction ++ nl ++ "Question: " ++ query
               ++ nl ++ "Answer:")
          ++ nl ++ RESPONSE_KEY).
  split.
  - unfold _build_prompt. rewrite Hf. simpl. by rewrite Hmpt.
  - set (intro := INTRO_BLURB ++ nl ++ INSTRUCTION_KEY).
    set (head := only_query_instruction ++ nl ++ "Question:").
    assert ((INTRO_BLURB ++ nl ++ INSTRUCTION_KEY ++ nl
             ++ (only_query_instruction ++ nl ++ "Question: " ++ query
                  ++ nl ++ "Answer:")
             ++ nl ++ RESPONSE_KEY) ++ cont
            = intro ++ 0x0A%N
                :: (head ++ 0x20%N
                    :: (query ++ 0x0A%N
                        :: ("Answer:" ++ nl ++ RESPONSE_KEY ++ cont))))
      as ->.
    { subst intro head. rewrite <- !app_assoc. reflexivity. }
    erewrite generated_answer_after_first.
    2: { apply first_split_after_sep; [reflexivity|by vm_compute|].
         apply first_split_after_sep; [reflexivity|by vm_compute|].
         apply first_split_after_sep; [reflexivity|done|].
         apply first_split_head. }
    unfold Py.strip.
    change (Py.lstrip (nl ++ RESPONSE_KEY ++ cont))
      with ("### Response" ++ 0x3A%N :: cont).
    by rewrite rstrip_app_nonspace.
Qed.

(** X12: the recorded generated answer is in stripped form, whatever the
    raw response: it is the text from the answer offset on with nothing
    but whitespace removed at both ends, it neither starts nor ends with
    whitespace, and stripping it again changes nothing. *)
Theorem generated_answer_stripped (response : str) :
  Py.strip (generated_answer response) = generated_answer response
  ∧ (∀ c rest, generated_answer response = c :: rest → c ∉ whitespace)
  ∧ (∀ c rest, generated_answer response = rest ++ [c] → c ∉ whitespace)
  ∧ ∃ l r,
      Py.slice_from response (answer_start response)
      = l ++ generated_answer response ++ r
      ∧ Forall (λ c, c ∈ whitespace) l
      ∧ Forall (λ c, c ∈ whitespace) r.
Proof.
  unfold generated_answer.
  set (tail := Py.slice_from response (answer_start response)).
  destruct (strip_spec tail) as (Hparts & Hfirst & Hlast).
  split; [apply strip_idemp|]. done.
Qed.

Lemma generated_answer_stripped_witness :
  generated_answer ("Answer:" ++ [0xA0%N] ++ "Han" ++ [0x3000%N]) = "Han"
  ∧ (0x48%N ∉ whitespace) ∧ (0x6E%N ∉ whitespace).
Proof.
  destruct (generated_answer_stripped
              ("Answer:" ++ [0xA0%N] ++ "Han" ++ [0x3000%N]))
    as (_ & Hfirst & Hlast & _).
  split; [reflexivity|]. split.
  - by apply (Hfirst _ "an").
  - by apply (Hlast _ "Ha").
Defined.

(** ** Prompts with documents, and gradings at the edges *)

(** X13: [_build_prompt] cannot build a prompt with documents: for every
    non-empty list of corpus records it raises [TypeError], because it
    joins the records themselves; so in a family other than only_query the
    loop body raises [TypeError] for every example whose assembled list is
    not empty, and produces a record only when that list is empty. *)
Theorem documents_prompt_type_error
    (normalize_answer : str → str)
    (is_answer_in_text : str → list str → bool)
    (generate : LLM → str → Res str)
    (self : ExperimentManager) (ex : example) (docs : list Document) :
  docs ≠ [] →
  (∀ query, _build_prompt self query (Some docs) = Raise TypeError)
  ∧ (experiment_type (config self) ≠ "only_query" →
     _get_documents is_answer_in_text self ex = Ok docs →
     evaluate_example normalize_answer is_answer_in_text generate self ex
     = Raise TypeError).
Proof.
  intros Hne. destruct docs as [|d docs]; [done|]. split; [done|].
  intros Hty Hdocs. by eapply evaluate_example_documents_raise.
Qed.

Lemma contains_empty (s : str) : Py.contains s [] = true.
Proof. unfold Py.contains. rewrite first_occurrence_unfold. by destruct s. Qed.

(** X14: a gold answer that normalizes to the empty string matches every
    generated answer, since the empty string occurs in every string; and
    with no gold answer at all nothing matches. *)
Theorem empty_gold_matches_all (normalize_answer : str → str)
    (generated : str) (golds : list str) :
  ((∃ ans, ans ∈ golds ∧ normalize_answer ans = []) →
   ans_match normalize_answer generated golds = true)
  ∧ ans_match normalize_answer generated [] = false.
Proof.
  split; [|done]. intros (ans & Hin & Hempty).
  unfold ans_match. apply any_spec. exists ans. split; [done|].
  rewrite Hempty. apply contains_empty.
Qed.

(** ** Reading a corpus *)

Lemma enumerate_loop (pick : Z → Res Z) (records acc : list Document)
    (g h : nat → Z) :
  (∀ i, (i < length records)%nat → pick (g i) = Ok (h i)) →
  for_each (λ corpus item,
              idx ← pick item.1;
              Ok (corpus ++ [set_full_corpus_idx item.2 idx]))
    (imap (λ i x, (g i, x)) records) acc
  = Ok (acc ++ imap (λ i r, set_full_corpus_idx r (h i)) records).
Proof.
  revert acc g h. induction records as [|r records IH]; intros acc g h Hpick.
  - simpl. by rewrite app_nil_r.
  - rewrite !imap_cons. cbn [for_each]. cbn [fst snd].
    rewrite (Hpick 0%nat) by (simpl; lia). cbn [mbind Res_bind].
    rewrite (IH _ (g ∘ S) (h ∘ S)).
    + by rewrite <- app_assoc.
    + intros i Hi. apply Hpick. simpl. lia.
Qed.

(** X17: [read_corpus_json] without a mapping, or with an empty one,
    returns the records of the file in order, unchanged but for
    ['full_corpus_idx'], which is the position of the record: so indexing
    the result at a non-negative [i] gives the record whose
    ['full_corpus_idx'] is [i]. With a non-empty mapping that holds every
    position, ['full_corpus_idx'] is what the mapping holds for it. *)
Theorem read_corpus_json_positions (data_path : str)
    (mapping : option (gmap Z Z)) (records : list Document) (w : World) :
  let w' := {| files := files w; trace := trace w ++ [ReadJson data_path] |} in
  files w !! data_path = Some (CorpusFile records) →
  (mapping = None ∨ mapping = Some ∅ →
   ∃ corpus,
     read_corpus_json data_path mapping w = (w', Ok corpus)
     ∧ corpus = imap (λ i r, set_full_corpus_idx r (Z.of_nat i)) records
     ∧ ∀ i d, 0 ≤ i → Py.index corpus i = Ok d → full_corpus_idx d = i)
  ∧ (∀ m (full : nat → Z),
       mapping = Some m → m ≠ ∅ →
       (∀ i, (i < length records)%nat → m !! Z.of_nat i = Some (full i)) →
       read_corpus_json data_path mapping w
       = (w', Ok (imap (λ i r, set_full_corpus_idx r (full i)) records))).
Proof.
  intros w' Hfile.
  unfold read_corpus_json, emit, open_read, lift, mbind, IO_bind.
  cbn [files trace]. rewrite Hfile. cbn [as_corpus]. unfold enumerate.
  split.
  - intros Hmap.
    exists (imap (λ i r, set_full_corpus_idx r (Z.of_nat i)) records).
    split; [|split; [done|]].
    + f_equal.
      rewrite (enumerate_loop
        (λ i, match mapping with
              | Some mapping =>
                  if bool_decide (mapping = ∅) then Ok i
                  else getitem (mapping !! i)
              | None => Ok i
              end) records [] Z.of_nat Z.of_nat); [done|].
      intros i _. by destruct Hmap as [->| ->].
    + intros i d Hi Hd. unfold Py.index in Hd.
      destruct (Z.ltb_spec i 0); [lia|].
      destruct (Z.ltb_spec i 0); [lia|].
      destruct (imap _ records !! Z.to_nat i) as [d'|] eqn:Hl; [|done].
      inversion Hd; subst d'. rewrite list_lookup_imap in Hl.
      destruct (records !! Z.to_nat i); simpl in Hl; [|done].
      inversion Hl. simpl. lia.
  - intros m full -> Hne Hfull. f_equal.
    rewrite (enumerate_loop
      (λ i, if bool_decide (m = ∅) then Ok i else getitem (m !! i))
      records [] Z.of_nat full); [done|].
    intros i Hi. rewrite bool_decide_false by done. by rewrite Hfull.
Qed.

(** ** Instances of the further properties *)

Lemma multi_corpus_documents_order_witness :
  ∃ docs,
    _get_documents Normalize.is_answer_in_text
      (Sample.multi_corpus_manager
         (Sample.multi_corpus_config 3 (Some 1) (Some 2) true)
         [0; 1; 2] [2; 1])
      Sample.q1 = Ok docs
    ∧ resolves Sample.corpus3 ([0] ++ [2; 1]) docs
    ∧ Z.of_nat (length docs) = Z.min 1 3 + Z.min 2 2.
Proof.
  refine (proj1 (multi_corpus_documents_order Normalize.is_answer_in_text
    (Sample.multi_corpus_manager
       (Sample.multi_corpus_config 3 (Some 1) (Some 2) true)
       [0; 1; 2] [2; 1])
    Sample.q1 (Sample.ranking [0; 1; 2]) (Sample.ranking [2; 1])
    ([0; 1; 2], []) ([2; 1], []) Sample.corpus3 1 2 _ _ _ _ _ _ _ _ _ _) _).
  - reflexivity.
  - reflexivity.
  - reflexivity.
  - lia.
  - lia.
  - reflexivity.
  - by vm_compute.
  - reflexivity.
  - by vm_compute.
  - reflexivity.
  - repeat constructor; simpl; lia.
Defined.

Lemma classic_documents_answerless_witness :
  Forall (λ d, Normalize.is_answer_in_text (text d) ["Paris"] = false)
    [Sample.D1; Sample.D2].
Proof.
  refine (classic_documents_answerless Normalize.is_answer_in_text
    (Sample.classic_manager (Sample.classic_config 3 None true) [0; 1; 2])
    Sample.q1 [Sample.D1; Sample.D2] _ _).
  - reflexivity.
  - by vm_compute.
Defined.

Lemma classic_missing_keys_witness :
  _get_classic_documents Normalize.is_answer_in_text
    (Sample.classic_manager (Sample.classic_config 3 None true) [0; 1; 2])
    (Sample.question_n "9")
  = Raise KeyError.
Proof.
  refine (proj2 (classic_missing_keys Normalize.is_answer_in_text
    (Sample.classic_manager (Sample.classic_config 3 None true) [0; 1; 2])
    (Sample.question_n "9") (Sample.ranking [0; 1; 2]) Sample.corpus3
    _ _) _).
  - reflexivity.
  - reflexivity.
  - left. by vm_compute.
Defined.

Lemma classic_index_error_witness :
  _get_classic_documents Normalize.is_answer_in_text
    (Sample.classic_manager (Sample.classic_config 2 None true) [0; 7; 1])
    Sample.q1
  = Raise IndexError.
Proof.
  refine (proj2 (proj2 (classic_index_error Normalize.is_answer_in_text
    (Sample.classic_manager (Sample.classic_config 2 None true) [0; 7; 1])
    Sample.q1 (Sample.ranking [0; 7; 1]) ([0; 7; 1], []) [0; 7; 1]
    Sample.corpus3 _ _ _ _)) _).
  - reflexivity.
  - by vm_compute.
  - reflexivity.
  - reflexivity.
  - intros Hall. apply Forall_cons in Hall as [_ Hall].
    apply Forall_cons in Hall as [[_ Hbad] _]. simpl in Hbad. lia.
Defined.

Lemma init_loads_family_tables_witness :
  ∃ w' self,
    __init__ (Sample.classic_config 2 None true) Sample.data_world
    = (w', Ok self)
    ∧ files w' = files Sample.data_world
    ∧ is_Some (search_results self).
Proof.
  eexists _, _. split; [vm_compute; reflexivity|].
  match goal with
  | |- files ?w' = _ ∧ is_Some (search_results ?self) =>
      destruct (init_loads_family_tables
        (Sample.classic_config 2 None true) Sample.data_world w' self)
        as (_ & _ & Hfiles & Hclassic & _)
  end.
  - by vm_compute.
  - split; [exact Hfiles|]. by apply Hclassic.
Defined.

Lemma init_dataset_first_witness :
  ∃ w' self,
    __init__ (config (Sample.query_manager "gpt2" [])) Sample.data_world
    = (w', Ok self)
    ∧ dataset self = [Sample.q1] ∧ corpus self = None.
Proof.
  eexists _, _. split.
  - refine (proj2 (init_dataset_first
      (config (Sample.query_manager "gpt2" [])) Sample.data_world _)
      _ [Sample.q1] _).
    + reflexivity.
    + reflexivity.
    + by vm_compute.
  - split; reflexivity.
Defined.

Lemma checkpoints_persist_witness :
  ∃ w' results,
    run_experiments Normalize.normalize_answer Normalize.is_answer_in_text
      Sample.echo_generate Sample.willing Sample.only_query_manager
      Sample.empty_world
    = (w', Ok results)
    ∧ length results = 5%nat
    ∧ files w' !! results_path (config Sample.only_query_manager) "final"
      = Some (ResultsFile results).
Proof.
  eexists _, _. split; [vm_compute; reflexivity|]. split; [reflexivity|].
  match goal with
  | |- files ?w' !! _ = Some (ResultsFile ?results) =>
      destruct (proj2 (checkpoints_persist Normalize.normalize_answer
        Normalize.is_answer_in_text Sample.echo_generate Sample.willing
        Sample.only_query_manager Sample.empty_world results) w')
        as (_ & Hfiles & _)
  end.
  - by vm_compute.
  - apply Hfiles. apply elem_of_app. right. by apply list_elem_of_singleton.
Defined.

Lemma run_abort_keeps_checkpoints_witness :
  ∃ results,
    run_experiments Normalize.normalize_answer Normalize.is_answer_in_text
      Sample.failing_generate Sample.willing
      (Sample.query_manager "gpt2" Sample.five_questions)
      Sample.empty_world
    = (after_saves (config (Sample.query_manager "gpt2" Sample.five_questions))
         (intermediate_saves 2 results (seq 1 (length results)))
         Sample.empty_world,
       Raise GenerationError)
    ∧ intermediate_saves 2 results (seq 1 (length results))
      = [("intermediate_2", results)].
Proof.
  eexists. split.
  - refine (proj1 (run_abort_keeps_checkpoints Normalize.normalize_answer
      Normalize.is_answer_in_text Sample.failing_generate Sample.willing
      (Sample.query_manager "gpt2" Sample.five_questions)
      Sample.empty_world
      (Sample.question_n <$> ["1"; "2"]) (Sample.question_n <$> ["4"; "5"])
      (Sample.question_n "3") _ GenerationError _ _ _ _ _ _)).
    + done.
    + by split.
    + by split.
    + reflexivity.
    + repeat (eapply List.Forall2_cons; [vm_compute; reflexivity|]).
      apply List.Forall2_nil.
    + by vm_compute.
  - reflexivity.
Defined.

Lemma run_edge_cases_witness :
  run_experiments Normalize.normalize_answer Normalize.is_answer_in_text
    Sample.echo_generate Sample.willing (Sample.query_manager "gpt2" [])
    Sample.empty_world
  = ({| files := {[ "out/only_query_results_final.json" := ResultsFile [] ]};
        trace := [MakeDirs "out";
                  WriteJson "out/only_query_results_final.json"] |},
     Ok []).
Proof.
  refine (proj1 (proj1 (run_edge_cases Normalize.normalize_answer
    Normalize.is_answer_in_text Sample.echo_generate Sample.willing
    (Sample.query_manager "gpt2" []) Sample.empty_world) _) _ _).
  - reflexivity.
  - by split.
  - by split.
Defined.

Lemma echoed_prompt_answer_witness :
  ∃ prompt,
    _build_prompt (Sample.query_manager "gpt2" []) "Who played Lando?" None
    = Ok prompt
    ∧ generated_answer
        (prompt ++ [0xA0%N] ++ "Billy Dee Williams" ++ [0x2003%N] ++ nl)
      = "Billy Dee Williams".
Proof.
  refine (echoed_prompt_answer (Sample.query_manager "gpt2" [])
    "Who played Lando?"
    ([0xA0%N] ++ "Billy Dee Williams" ++ [0x2003%N] ++ nl) None _ _ _);
    reflexivity.
Defined.

Lemma echoed_prompt_answer_mpt_witness :
  ∃ prompt,
    _build_prompt (Sample.query_manager "mosaicml/mpt-7b-instruct" [])
      "Who played Lando?" None
    = Ok prompt
    ∧ generated_answer (prompt ++ " Billy Dee Williams" ++ [0x3000%N])
      = "### Response: Billy Dee Williams".
Proof.
  refine (echoed_prompt_answer_mpt
    (Sample.query_manager "mosaicml/mpt-7b-instruct" [])
    "Who played Lando?" (" Billy Dee Williams" ++ [0x3000%N]) None _ _ _);
    reflexivity.
Defined.

Lemma documents_prompt_type_error_witness :
  evaluate_example Normalize.normalize_answer Normalize.is_answer_in_text
    Sample.echo_generate
    (Sample.classic_manager (Sample.classic_config 1 None false) [0])
    Sample.q1
  = Raise TypeError.
Proof.
  refine (proj2 (documents_prompt_type_error Normalize.normalize_answer
    Normalize.is_answer_in_text Sample.echo_generate
    (Sample.classic_manager (Sample.classic_config 1 None false) [0])
    Sample.q1 [Sample.D0] _) _ _).
  - done.
  - done.
  - by vm_compute.
Defined.

Lemma empty_gold_matches_all_witness :
  Normalize.normalize_answer "The" = []
  ∧ ans_match Normalize.normalize_answer "Darth Vader" ["The"] = true.
Proof.
  split; [reflexivity|].
  refine (proj1 (empty_gold_matches_all Normalize.normalize_answer
    "Darth Vader" ["The"]) _).
  exists "The". split; [by apply list_elem_of_singleton|reflexivity].
Defined.

Lemma read_corpus_json_positions_witness :
  ∃ corpus,
    read_corpus_json (corpus_path default_config) None Sample.data_world
    = ({| files := files Sample.data_world;
          trace := [ReadJson (corpus_path default_config)] |}, Ok corpus)
    ∧ Py.index corpus 2 = Ok Sample.D2.
Proof.
  destruct (proj1 (read_corpus_json_positions (corpus_path default_config)
    None Sample.corpus3 Sample.data_world ltac:(by vm_compute))
    (or_introl eq_refl)) as (corpus & Hread & -> & _).
  eexists. split; [exact Hread|reflexivity].
Defined.

